(** * The training-loop state machine of [pretrain.py] and [finetune.py]

    A shallow embedding of the two [Workspace] classes and their [main]
    entry points.  The agent, the environments, the replay store and the
    logger are external collaborators: they are consumed through their
    interfaces only, so they appear here as the fields of a record
    ([Collab]) and everything is proved for an arbitrary collaborator.

    Python's numbers (ints and the floats produced by true division) are
    modelled by exact rationals [Q]; integer counters stay in [Z].
    Statements in terms of [Q] use the setoid equality [==].

    Effects are written in a small state-and-exception monad [M] over a
    [World]: the attributes of the workspace object, the file store, a
    chronological trace of the calls made to the collaborators (kept
    newest first), and an optional pending interrupt signal. *)

From Stdlib Require Import ZArith QArith Qround Lia DecimalString List Ascii.
From Stdlib Require DecimalZ DecimalPos.
From stdpp Require Import base strings gmap.

Local Open Scope Z_scope.

(* ===================================================================== *)
(** ** Cadence predicates *)

(** Modelled from the spec: [utils.Until] is imported by both entry points
    but [utils.py] is not among the sources.  Section 4.1: "Until(total,
    every=1): given the current raw step count, returns true while
    floor(step / every) < ceil(total / every)". *)
Definition Until (total : Q) (every : Z) (step : Z) : bool :=
  step / every <? Qceiling (total / inject_Z every).

(** Modelled from the spec: [utils.Every], same situation.  Section 4.1:
    "Every(interval, denom=1): given the current raw step count, returns
    true exactly when floor(step/denom) is non-zero and divisible by
    floor(interval/denom)".  No non-zero number is a multiple of zero, and
    [s mod 0 = s] gives exactly that. *)
Definition Every (interval : Q) (denom : Z) (step : Z) : bool :=
  let s := step / denom in
  negb (s =? 0) && (s mod Qfloor (interval / inject_Z denom) =? 0).

(* ===================================================================== *)
(** ** Data model *)

Inductive StepType := FIRST | MID | LAST.

Record TimeStep (O : Type) := mkTimeStep {
  step_type : StepType;
  reward : Q;          (* a placeholder on the FIRST step; never read there *)
  discount : Q;
  observation : O
}.
Arguments mkTimeStep {O}.
Arguments step_type {O}.
Arguments reward {O}.
Arguments discount {O}.
Arguments observation {O}.

(** [time_step.last()] *)
Definition ts_last {O} (ts : TimeStep O) : bool :=
  match step_type ts with LAST => true | _ => false end.

(** [pathlib.Path]: joining with an absolute path discards the left operand. *)
Record Path := mkPath { absolute : bool; parts : list string }.

Definition path_join (p q : Path) : Path :=
  if absolute q then q
  else {| absolute := absolute p; parts := parts p ++ parts q |}.

Definition path_child (p : Path) (name : string) : Path :=
  {| absolute := absolute p; parts := parts p ++ [name] |}.

Fixpoint join_parts (l : list string) : string :=
  match l with
  | [] => ""
  | [x] => x
  | x :: r => x +:+ "/" +:+ join_parts r
  end.

(** [str(path)] *)
Definition render (p : Path) : string :=
  (if absolute p then "/" else "") +:+ join_parts (parts p).

Fixpoint prefixes {A} (l : list A) : list (list A) :=
  match l with
  | [] => []
  | x :: r => [x] :: map (cons x) (prefixes r)
  end.

(** [str(n)] and the [{n}] of an f-string, for an int. *)
Definition str (n : Z) : string := NilZero.string_of_int (Z.to_int n).

(** [s.split(sep, 1)] *)
Fixpoint split_first (sep : ascii) (s : string) : option (string * string) :=
  match s with
  | EmptyString => None
  | String c r =>
      if Ascii.eqb c sep then Some (EmptyString, r)
      else match split_first sep r with
           | Some (a, b) => Some (String c a, b)
           | None => None
           end
  end.

Definition split1 (sep : ascii) (s : string) : list string :=
  match split_first sep s with
  | Some (a, b) => [a; b]
  | None => [s]
  end.

(** The configuration keys read by the two entry points. *)
Record Cfg := mkCfg {
  num_train_frames : Q;
  num_seed_frames : Q;
  eval_every_frames : Q;
  action_repeat : Z;
  num_eval_episodes : Z;
  snapshots : list Z;
  snapshot_dir : Path;
  snapshot : Path;
  domain : string;
  use_wandb : bool;
  (* fine-tuning only *)
  save_video : bool;
  save_train_video : bool;
  snapshot_ts : Z;
  snapshot_base_dir : Path;
  obs_type : string;
  task : string;
  agent_name : string;
  seed : Z
}.

Definition set_num_seed_frames (x : Q) (c : Cfg) : Cfg :=
  mkCfg (num_train_frames c) x (eval_every_frames c) (action_repeat c)
    (num_eval_episodes c) (snapshots c) (snapshot_dir c) (snapshot c)
    (domain c) (use_wandb c) (save_video c) (save_train_video c)
    (snapshot_ts c) (snapshot_base_dir c) (obs_type c) (task c)
    (agent_name c) (seed c).

Definition set_num_train_frames (x : Q) (c : Cfg) : Cfg :=
  mkCfg x (num_seed_frames c) (eval_every_frames c) (action_repeat c)
    (num_eval_episodes c) (snapshots c) (snapshot_dir c) (snapshot c)
    (domain c) (use_wandb c) (save_video c) (save_train_video c)
    (snapshot_ts c) (snapshot_base_dir c) (obs_type c) (task c)
    (agent_name c) (seed c).

Definition set_seed (x : Z) (c : Cfg) : Cfg :=
  mkCfg (num_train_frames c) (num_seed_frames c) (eval_every_frames c)
    (action_repeat c) (num_eval_episodes c) (snapshots c) (snapshot_dir c)
    (snapshot c) (domain c) (use_wandb c) (save_video c)
    (save_train_video c) (snapshot_ts c) (snapshot_base_dir c) (obs_type c)
    (task c) (agent_name c) x.

(** The external collaborators (section 6 of the spec): environment,
    agent, and the tables the entry points import. *)
Record Collab := mkCollab {
  Obs : Type;
  Action : Type;
  Meta : Type;
  Metrics : Type;
  EnvSt : Type;        (* the state of one environment instance *)
  AgentSt : Type;      (* the agent object, learned parameters included *)
  (* dmc.make(task, obs_type, frame_stack, action_repeat, seed) *)
  dmc_make : string -> Z -> EnvSt;
  env_reset : EnvSt -> EnvSt * TimeStep Obs;
  env_step : EnvSt -> Action -> EnvSt * TimeStep Obs;
  (* hydra.utils.instantiate(cfg.agent) with num_expl_steps set *)
  make_agent : Z -> AgentSt;
  init_meta : AgentSt -> AgentSt * Meta;
  update_meta : AgentSt -> Meta -> Z -> TimeStep Obs -> AgentSt * Meta;
  act : AgentSt -> Obs -> Meta -> Z -> bool -> AgentSt * Action;
  (* update(replay_iter, step): the iterator gives access to the store *)
  update : AgentSt -> list (TimeStep Obs * Meta) -> Z -> AgentSt * Metrics;
  init_from : AgentSt -> AgentSt -> AgentSt;
  (* meta["skill"].argmax() when "skill" is a key of the meta *)
  meta_skill : Meta -> option Z;
  (* dmc_benchmark.PRIMAL_TASKS *)
  PRIMAL_TASKS : string -> option string
}.

Inductive EnvId := TrainEnv | EvalEnv.

Inductive Exn :=
  | KeyboardInterrupt
  | AssertionError
  | ZeroDivisionError
  | FileNotFoundError
  | IsADirectoryError
  | KeyError
  | TypeError
  | ValueError
  | SystemExit.

#[global] Instance Exn_eq_dec : EqDecision Exn.
Proof. solve_decision. Defined.

Section Base.
Context {C : Collab}.

(** What a checkpoint dictionary can hold. *)
Inductive PyVal :=
  | VAgent (g : AgentSt C)
  | VInt (z : Z)
  | VOpaque (attr : string).

(** The file store: the directories that exist and the checkpoint files,
    by path string.  Permissions and full disks are outside the model. *)
Record FS := mkFS {
  dirs : gset string;
  files : gmap string (gmap string PyVal)
}.

(** [p.mkdir(exist_ok=True, parents=True)] *)
Definition mkdir_p (p : Path) (f : FS) : FS :=
  {| dirs := list_to_set
               (map (fun ps => render {| absolute := absolute p; parts := ps |})
                    (prefixes (parts p))) ∪ dirs f;
     files := files f |}.

Definition write_file (p : string) (d : gmap string PyVal) (f : FS) : FS :=
  {| dirs := dirs f; files := <[p := d]> (files f) |}.

(** [p.exists()] and [p.is_dir()] *)
Definition path_is_dir (f : FS) (p : string) : bool := bool_decide (p ∈ dirs f).
Definition path_exists (f : FS) (p : string) : bool :=
  match files f !! p with Some _ => true | None => path_is_dir f p end.

(** The calls made to the collaborators and to the outside world. *)
Inductive Event :=
  | EReset (e : EnvId) (ts : TimeStep (Obs C))
  | EStep (e : EnvId) (a : Action C) (ts : TimeStep (Obs C))
  | EInitMeta (m : Meta C)
  | EUpdateMeta (step : Z)
  | EAct (step : Z) (eval_mode : bool) (m : Meta C)
  | EUpdate (step : Z)
  | EInitFrom
  | EReplayAdd (ts : TimeStep (Obs C)) (m : Meta C)
  | ELog (key : string) (frame : Z)
  | ELogMetrics (frame : Z)
  | ELogTrain (frame : Z) (episode_reward : Q) (episode_length episode step : Z)
  | ELogEval (frame : Z) (episode_reward episode_length : Q)
             (episode step : Z) (skill : option Z)
  | EWandbLog
  | EVideo (what : string)
  | EPrint (s : string)
  | ELogging (level msg : string)
  | EMkdir (p : string)
  | ETorchSave (p : string)
  | ETorchLoad (p : string).

Record World := mkWorld {
  (* attributes of the Workspace object *)
  work_dir : Path;
  cfg : Cfg;
  agent : AgentSt C;
  train_env : EnvSt C;
  eval_env : EnvSt C;
  replay_storage : list (TimeStep (Obs C) * Meta C);
  _global_step : Z;
  _global_episode : Z;
  (* the process and its surroundings *)
  cwd : Path;
  fs : FS;
  trace : list Event;        (* newest first *)
  pending : option nat       (* an interrupt arrives after that many calls *)
}.

Definition set_work_dir x (w : World) :=
  mkWorld x (cfg w) (agent w) (train_env w) (eval_env w) (replay_storage w)
    (_global_step w) (_global_episode w) (cwd w) (fs w) (trace w) (pending w).
Definition set_cfg x (w : World) :=
  mkWorld (work_dir w) x (agent w) (train_env w) (eval_env w)
    (replay_storage w) (_global_step w) (_global_episode w) (cwd w) (fs w)
    (trace w) (pending w).
Definition set_agent x (w : World) :=
  mkWorld (work_dir w) (cfg w) x (train_env w) (eval_env w)
    (replay_storage w) (_global_step w) (_global_episode w) (cwd w) (fs w)
    (trace w) (pending w).
Definition set_train_env x (w : World) :=
  mkWorld (work_dir w) (cfg w) (agent w) x (eval_env w) (replay_storage w)
    (_global_step w) (_global_episode w) (cwd w) (fs w) (trace w) (pending w).
Definition set_eval_env x (w : World) :=
  mkWorld (work_dir w) (cfg w) (agent w) (train_env w) x (replay_storage w)
    (_global_step w) (_global_episode w) (cwd w) (fs w) (trace w) (pending w).
Definition set_replay_storage x (w : World) :=
  mkWorld (work_dir w) (cfg w) (agent w) (train_env w) (eval_env w) x
    (_global_step w) (_global_episode w) (cwd w) (fs w) (trace w) (pending w).
Definition set_global_step x (w : World) :=
  mkWorld (work_dir w) (cfg w) (agent w) (train_env w) (eval_env w)
    (replay_storage w) x (_global_episode w) (cwd w) (fs w) (trace w)
    (pending w).
Definition set_global_episode x (w : World) :=
  mkWorld (work_dir w) (cfg w) (agent w) (train_env w) (eval_env w)
    (replay_storage w) (_global_step w) x (cwd w) (fs w) (trace w)
    (pending w).
Definition set_fs x (w : World) :=
  mkWorld (work_dir w) (cfg w) (agent w) (train_env w) (eval_env w)
    (replay_storage w) (_global_step w) (_global_episode w) (cwd w) x
    (trace w) (pending w).
Definition set_trace x (w : World) :=
  mkWorld (work_dir w) (cfg w) (agent w) (train_env w) (eval_env w)
    (replay_storage w) (_global_step w) (_global_episode w) (cwd w) (fs w) x
    (pending w).
Definition set_pending x (w : World) :=
  mkWorld (work_dir w) (cfg w) (agent w) (train_env w) (eval_env w)
    (replay_storage w) (_global_step w) (_global_episode w) (cwd w) (fs w)
    (trace w) x.

(** The properties of the class. *)
Definition global_step (w : World) : Z := _global_step w.
Definition global_episode (w : World) : Z := _global_episode w.
Definition global_frame (w : World) : Z :=
  global_step w * action_repeat (cfg w).

(** *** The monad *)

Inductive Res (A : Type) :=
  | Ok (a : A) (w : World)
  | Raise (e : Exn) (w : World)
  | OutOfFuel (w : World).
Arguments Ok {A}.
Arguments Raise {A}.
Arguments OutOfFuel {A}.

(** The world in which a computation stopped, however it stopped. *)
Definition world_of {A} (r : Res A) : World :=
  match r with Ok _ w | Raise _ w | OutOfFuel w => w end.

Definition M (A : Type) := World -> Res A.

Definition ret {A} (a : A) : M A := fun w => Ok a w.

Definition bind {A B} (m : M A) (k : A -> M B) : M B :=
  fun w => match m w with
           | Ok a w' => k a w'
           | Raise e w' => Raise e w'
           | OutOfFuel w' => OutOfFuel w'
           end.

Definition raise {A} (e : Exn) : M A := fun w => Raise e w.
Definition get {A} (f : World -> A) : M A := fun w => Ok (f w) w.
Definition modify (f : World -> World) : M unit := fun w => Ok tt (f w).

(** [try: m  except e: h] *)
Definition try_except {A} (m : M A) (e : Exn) (h : M A) : M A :=
  fun w => match m w with
           | Raise e' w' => if bool_decide (e' = e) then h w' else Raise e' w'
           | r => r
           end.

(** [while cond: body], the loop variables threaded as [s]; [fuel] bounds
    the number of iterations. *)
Fixpoint while_ {S} (fuel : nat) (cond : S -> World -> bool)
    (body : S -> M S) (s : S) : M S :=
  fun w =>
    if cond s w then
      match fuel with
      | O => OutOfFuel w
      | Datatypes.S f => bind (body s) (while_ f cond body) w
      end
    else Ok s w.

End Base.

Arguments PyVal : clear implicits.
Arguments FS : clear implicits.
Arguments Event : clear implicits.
Arguments World : clear implicits.
Arguments Res : clear implicits.
Arguments M : clear implicits.
Arguments Ok {C A}.
Arguments Raise {C A}.
Arguments OutOfFuel {C A}.

Declare Scope monad_scope.
Delimit Scope monad_scope with monad.
Notation "x <- m ;; k" := (bind m (fun x => k))
  (at level 100, m at next level, right associativity) : monad_scope.
Notation "m ;; k" := (bind m (fun _ => k))
  (at level 100, right associativity) : monad_scope.

Local Open Scope monad_scope.

(* ===================================================================== *)
(** ** Calls to the collaborators *)

Section Calls.
Context {C : Collab}.

(** An interrupt is delivered at a call boundary: when the countdown has
    run out the call is not made and [KeyboardInterrupt] is raised instead.
    The signal is delivered once. *)
Definition deliver : M C unit := fun w =>
  match pending w with
  | Some O => Raise KeyboardInterrupt (set_pending None w)
  | Some (S n) => Ok tt (set_pending (Some n) w)
  | None => Ok tt w
  end.

(** Every call to the outside is recorded in the trace. *)
Definition emit (ev : Event C) : M C unit :=
  deliver ;; modify (fun w => set_trace (ev :: trace w) w).

Definition env_of (e : EnvId) (w : World C) : EnvSt C :=
  match e with TrainEnv => train_env w | EvalEnv => eval_env w end.

Definition set_env (e : EnvId) (st : EnvSt C) (w : World C) : World C :=
  match e with TrainEnv => set_train_env st w | EvalEnv => set_eval_env st w end.

(** [env.reset()] *)
Definition reset (e : EnvId) : M C (TimeStep (Obs C)) :=
  st <- get (env_of e) ;;
  let r := env_reset C st in
  emit (EReset e r.2) ;;
  modify (set_env e r.1) ;;
  ret r.2.

(** [env.step(action)] *)
Definition step (e : EnvId) (a : Action C) : M C (TimeStep (Obs C)) :=
  st <- get (env_of e) ;;
  let r := env_step C st a in
  emit (EStep e a r.2) ;;
  modify (set_env e r.1) ;;
  ret r.2.

(** [self.agent.init_meta()] *)
Definition agent_init_meta : M C (Meta C) :=
  g <- get agent ;;
  let r := init_meta C g in
  emit (EInitMeta r.2) ;;
  modify (set_agent r.1) ;;
  ret r.2.

(** [self.agent.update_meta(meta, step, time_step)] *)
Definition agent_update_meta (m : Meta C) (s : Z) (ts : TimeStep (Obs C))
  : M C (Meta C) :=
  g <- get agent ;;
  let r := update_meta C g m s ts in
  emit (EUpdateMeta s) ;;
  modify (set_agent r.1) ;;
  ret r.2.

(** [self.agent.act(obs, meta, step, eval_mode=...)], under [no_grad] and
    [eval_mode] *)
Definition agent_act (o : Obs C) (m : Meta C) (s : Z) (eval_mode : bool)
  : M C (Action C) :=
  g <- get agent ;;
  let r := act C g o m s eval_mode in
  emit (EAct s eval_mode m) ;;
  modify (set_agent r.1) ;;
  ret r.2.

(** [self.agent.update(self.replay_iter, step)] *)
Definition agent_update (s : Z) : M C (Metrics C) :=
  g <- get agent ;;
  store <- get replay_storage ;;
  let r := update C g store s in
  emit (EUpdate s) ;;
  modify (set_agent r.1) ;;
  ret r.2.

(** [self.agent.init_from(other)] *)
Definition agent_init_from (other : AgentSt C) : M C unit :=
  g <- get agent ;;
  emit EInitFrom ;;
  modify (set_agent (init_from C g other)).

(** [self.replay_storage.add(time_step, meta)] *)
Definition replay_add (ts : TimeStep (Obs C)) (m : Meta C) : M C unit :=
  emit (EReplayAdd ts m) ;;
  modify (fun w => set_replay_storage ((ts, m) :: replay_storage w) w).

(** [p.mkdir(exist_ok=True, parents=True)] *)
Definition mkdir (p : Path) : M C unit :=
  emit (EMkdir (render p)) ;;
  modify (fun w => set_fs (mkdir_p p (fs w)) w).

(** [with p.open("wb") as f: torch.save(payload, f)] *)
Definition torch_save (p : Path) (payload : gmap string (PyVal C)) : M C unit :=
  emit (ETorchSave (render p)) ;;
  modify (fun w => set_fs (write_file (render p) payload (fs w)) w).

(** [with p.open("rb") as f: payload = torch.load(f)] *)
Definition torch_load (p : Path) : M C (gmap string (PyVal C)) :=
  f <- get fs ;;
  emit (ETorchLoad (render p)) ;;
  match files f !! render p with
  | Some payload => ret payload
  | None =>
      if path_is_dir f (render p) then raise IsADirectoryError
      else raise FileNotFoundError
  end.

(** [payload[k]] *)
Definition getitem (payload : gmap string (PyVal C)) (k : string)
  : M C (PyVal C) :=
  match payload !! k with
  | Some v => ret v
  | None => raise KeyError
  end.

(** A value used as an agent, and as a number.  The model is typed; a
    value of the wrong kind is rejected where Python would fail later. *)
Definition as_agent (v : PyVal C) : M C (AgentSt C) :=
  match v with VAgent g => ret g | _ => raise TypeError end.

Definition as_int (v : PyVal C) : M C Z :=
  match v with VInt z => ret z | _ => raise TypeError end.

(** [self.__dict__], as far as a checkpoint can hold it. *)
Definition __dict__ (w : World C) : gmap string (PyVal C) :=
  list_to_map
    [ ("agent", VAgent (agent w));
      ("_global_step", VInt (_global_step w));
      ("_global_episode", VInt (_global_episode w));
      ("work_dir", VOpaque "work_dir");
      ("cfg", VOpaque "cfg");
      ("device", VOpaque "device");
      ("logger", VOpaque "logger");
      ("train_env", VOpaque "train_env");
      ("eval_env", VOpaque "eval_env");
      ("replay_storage", VOpaque "replay_storage");
      ("replay_loader", VOpaque "replay_loader");
      ("_replay_iter", VOpaque "_replay_iter");
      ("timer", VOpaque "timer") ].

(** [{k: d[k] for k in ks}] *)
Fixpoint dict_of_keys (d : gmap string (PyVal C)) (ks : list string)
    (acc : gmap string (PyVal C)) : M C (gmap string (PyVal C)) :=
  match ks with
  | [] => ret acc
  | k :: r => v <- getitem d k ;; dict_of_keys d r (<[k := v]> acc)
  end.

(** [exit()] *)
Definition exit : M C unit := raise SystemExit.

End Calls.

(** The local variables of [eval] and of [train]. *)
Record EvalVars := mkEvalVars {
  e_step : Z;
  e_episode : Z;
  e_total_reward : Q
}.

Record TrainVars (C : Collab) := mkTrainVars {
  time_step : TimeStep (Obs C);
  meta : Meta C;
  metrics : option (Metrics C);
  episode_step : Z;
  episode_reward : Q
}.
Arguments mkTrainVars {C}.
Arguments time_step {C}.
Arguments meta {C}.
Arguments metrics {C}.
Arguments episode_step {C}.
Arguments episode_reward {C}.

(* ===================================================================== *)
(** ** pretrain.py *)

Module Pretrain.
Section Workspace.
Context {C : Collab}.

(** [Workspace.__init__(cfg)]; [rnd] is the value drawn by
    [random.randint(0, 100000)].  Device selection, the flattened logging
    config, the tracking set-up and the wall-clock timer are left out, and
    so are the timer's entries (fps, total_time) and the store's size in
    the per-episode log. *)
Definition __init__ (c : Cfg) (rnd : Z) : M C unit :=
  d <- get cwd ;;
  modify (set_work_dir d) ;;
  emit (EPrint ("workspace: " +:+ render d)) ;;
  modify (set_cfg (set_seed rnd c)) ;;
  c <- get cfg ;;
  match PRIMAL_TASKS C (domain c) with
  | None => raise AssertionError
  | Some t =>
      modify (set_train_env (dmc_make C t (seed c))) ;;
      modify (set_eval_env (dmc_make C t (seed c))) ;;
      if action_repeat c =? 0 then raise ZeroDivisionError
      else
        modify (set_agent
          (make_agent C
             (Qfloor (num_seed_frames c / inject_Z (action_repeat c))))) ;;
        modify (set_replay_storage []) ;;
        modify (set_global_step 0) ;;
        modify (set_global_episode 0)
  end.

(** The body of the inner loop of [eval], [while not time_step.last()]:
    one step of an evaluation episode.  The loop variables are the current
    time step and the accumulators. *)
Definition eval_step (meta : Meta C) (i : TimeStep (Obs C) * EvalVars)
  : M C (TimeStep (Obs C) * EvalVars) :=
  gs <- get global_step ;;
  action <- agent_act (observation i.1) meta gs true ;;
  time_step <- step EvalEnv action ;;
  ret (time_step,
       mkEvalVars (e_step i.2 + 1) (e_episode i.2)
         (e_total_reward i.2 + reward time_step)%Q).

(** The body of the outer loop of [eval], [while eval_until_episode(episode)]:
    one evaluation episode. *)
Definition eval_episode (fuel : nat) (meta : Meta C) (v : EvalVars)
  : M C EvalVars :=
  time_step <- reset EvalEnv ;;
  i <- while_ fuel (fun i _ => negb (ts_last i.1)) (eval_step meta)
         (time_step, v) ;;
  ret (mkEvalVars (e_step i.2) (e_episode i.2 + 1) (e_total_reward i.2)).

(** [Workspace.eval] *)
Definition eval (fuel : nat) : M C unit :=
  (* step, episode, total_reward = 0, 0, 0 *)
  c <- get cfg ;;
  let eval_until_episode := Until (inject_Z (num_eval_episodes c)) 1 in
  meta <- agent_init_meta ;;
  v <- while_ fuel (fun v _ => eval_until_episode (e_episode v))
         (eval_episode fuel meta) (mkEvalVars 0 0 0%Q) ;;
  frame <- get global_frame ;;
  if e_episode v =? 0 then raise ZeroDivisionError
  else
    ge <- get global_episode ;;
    gs <- get global_step ;;
    emit (ELogEval frame
            (e_total_reward v / inject_Z (e_episode v))%Q
            (inject_Z (e_step v * action_repeat c) / inject_Z (e_episode v))%Q
            ge gs None).

(** [Workspace.save_snapshot] *)
Definition save_snapshot : M C unit :=
  wd <- get work_dir ;;
  c <- get cfg ;;
  let snapshot_dir := path_join wd (snapshot_dir c) in
  mkdir snapshot_dir ;;
  frame <- get global_frame ;;
  let snapshot := path_child snapshot_dir ("snapshot_" +:+ str frame +:+ ".pt") in
  emit (EPrint (render snapshot)) ;;
  let keys_to_save := ["agent"; "_global_step"; "_global_episode"] in
  d <- get __dict__ ;;
  payload <- dict_of_keys d keys_to_save ∅ ;;
  torch_save snapshot payload.

(** One iteration of the loop of [Workspace.train]. *)
Definition train_tick (fuel : nat) (seed_until_step eval_every_step : Z -> bool)
    (v : TrainVars C) : M C (TrainVars C) :=
  c <- get cfg ;;
  v <- (if ts_last (time_step v) then
          modify (fun w => set_global_episode (_global_episode w + 1) w) ;;
          (* wait until all the metrics schema is populated *)
          (match metrics v with
           | Some _ =>
               frame <- get global_frame ;;
               ge <- get global_episode ;;
               gs <- get global_step ;;
               let episode_frame := episode_step v * action_repeat c in
               emit (ELogTrain frame (episode_reward v) episode_frame ge gs)
           | None => ret tt
           end) ;;
          (* reset env *)
          time_step <- reset TrainEnv ;;
          meta <- agent_init_meta ;;
          replay_add time_step meta ;;
          ret (mkTrainVars time_step meta (metrics v) 0 0%Q)
        else ret v) ;;
  frame <- get global_frame ;;
  (if existsb (Z.eqb frame) (snapshots c) then save_snapshot else ret tt) ;;
  (* try to evaluate *)
  gs <- get global_step ;;
  (if eval_every_step gs then
     frame <- get global_frame ;;
     emit (ELog "eval_total_time" frame) ;;
     eval fuel
   else ret tt) ;;
  gs <- get global_step ;;
  meta <- agent_update_meta (meta v) gs (time_step v) ;;
  (* sample action *)
  action <- agent_act (observation (time_step v)) meta gs false ;;
  (* try to update the agent *)
  metrics <- (if negb (seed_until_step gs) then
                metrics <- agent_update gs ;;
                frame <- get global_frame ;;
                emit (ELogMetrics frame) ;;
                (if use_wandb c then emit EWandbLog else ret tt) ;;
                ret (Some metrics)
              else ret (metrics v)) ;;
  (* take env step *)
  time_step <- step TrainEnv action ;;
  replay_add time_step meta ;;
  modify (fun w => set_global_step (_global_step w + 1) w) ;;
  ret (mkTrainVars time_step meta metrics (episode_step v + 1)
         (episode_reward v + reward time_step)%Q).

(** [Workspace.train] *)
Definition train (fuel : nat) : M C unit :=
  c <- get cfg ;;
  (* predicates *)
  let train_until_step := Until (num_train_frames c) (action_repeat c) in
  let seed_until_step := Until (num_seed_frames c) (action_repeat c) in
  let eval_every_step := Every (eval_every_frames c) (action_repeat c) in
  time_step <- reset TrainEnv ;;
  meta <- agent_init_meta ;;
  replay_add time_step meta ;;
  while_ fuel (fun _ w => train_until_step (global_step w))
    (train_tick fuel seed_until_step eval_every_step)
    (mkTrainVars time_step meta None 0 0%Q) ;;
  save_snapshot.

(** [Workspace.load_snapshot] *)
Definition load_snapshot : M C unit :=
  c <- get cfg ;;
  let snapshot_file := snapshot c in
  payload <- torch_load snapshot_file ;;
  other <- (v <- getitem payload "agent" ;; as_agent v) ;;
  agent_init_from other ;;
  s <- (v <- getitem payload "_global_step" ;; as_int v) ;;
  modify (fun w => set_cfg (set_num_seed_frames (inject_Z s / 10)%Q (cfg w)) w) ;;
  s <- (v <- getitem payload "_global_step" ;; as_int v) ;;
  modify (fun w =>
    set_cfg (set_num_train_frames
               (num_train_frames (cfg w)
                - (inject_Z s + num_seed_frames (cfg w)))%Q (cfg w)) w) ;;
  e <- (v <- getitem payload "_global_episode" ;; as_int v) ;;
  modify (set_global_episode e).

(** [main(cfg)], up to the [try]: the workspace is built and, when the
    configured snapshot file exists, the run is resumed from it. *)
Definition main_startup (c : Cfg) (rnd : Z) : M C unit :=
  __init__ c rnd ;;
  let snapshot := render (snapshot c) in
  f <- get fs ;;
  if path_exists f snapshot && negb (path_is_dir f snapshot) then
    emit (EPrint ("resuming: " +:+ snapshot)) ;;
    load_snapshot
  else ret tt.

(** [main(cfg)] *)
Definition main (fuel : nat) (c : Cfg) (rnd : Z) : M C unit :=
  main_startup c rnd ;;
  try_except (train fuel) KeyboardInterrupt
    (emit (EPrint "interrupted") ;;
     save_snapshot ;;
     exit).

End Workspace.
End Pretrain.

(* ===================================================================== *)
(** ** finetune.py *)

Module Finetune.
Section Workspace.
Context {C : Collab}.

(** [Workspace.load_snapshot]; the inner [try_load(seed)] is inlined at its
    one call site. *)
Definition load_snapshot : M C (gmap string (PyVal C)) :=
  c <- get cfg ;;
  let snapshot_base_dir := snapshot_base_dir c in
  match split1 "_" (task c) with
  | [domain; _] =>
      let snapshot_dir :=
        path_child (path_child (path_child snapshot_base_dir (obs_type c))
                      domain) (agent_name c) in
      (* try to load current seed *)
      payload <-
        (let snapshot :=
           path_child
             (path_child
                (path_join (mkPath false [".."; ".."; ".."; ".."; ".."])
                   snapshot_dir)
                (str (seed c)))
             ("snapshot_" +:+ str (snapshot_ts c) +:+ ".pt") in
         emit (ELogging "info" ("loading model :" +:+ render snapshot)) ;;
         f <- get fs ;;
         if negb (path_exists f (render snapshot)) then
           emit (ELogging "error" "no such a pretrain model") ;;
           ret None
         else
           payload <- torch_load snapshot ;;
           ret (Some payload)) ;;
      match payload with
      | Some payload => ret payload
      | None => raise AssertionError
      end
  | _ => raise ValueError
  end.

(** [Workspace.__init__(cfg)] *)
Definition __init__ (c : Cfg) : M C unit :=
  d <- get cwd ;;
  modify (set_work_dir d) ;;
  emit (EPrint ("workspace: " +:+ render d)) ;;
  modify (set_cfg c) ;;
  modify (set_train_env (dmc_make C (task c) (seed c))) ;;
  modify (set_eval_env (dmc_make C (task c) (seed c))) ;;
  if action_repeat c =? 0 then raise ZeroDivisionError
  else
    modify (set_agent
      (make_agent C
         (Qfloor (num_seed_frames c / inject_Z (action_repeat c))))) ;;
    (* initialize from pretrained *)
    (if 0 <? snapshot_ts c then
       payload <- load_snapshot ;;
       pretrained_agent <- (v <- getitem payload "agent" ;; as_agent v) ;;
       agent_init_from pretrained_agent
     else ret tt) ;;
    modify (set_replay_storage []) ;;
    modify (set_global_step 0) ;;
    modify (set_global_episode 0).

Definition video (enabled : bool) (what : string) : M C unit :=
  if enabled then emit (EVideo what) else ret tt.

(** The body of the inner loop of [eval]: one step of an evaluation
    episode. *)
Definition eval_step (c : Cfg) (meta : Meta C)
    (i : TimeStep (Obs C) * EvalVars) : M C (TimeStep (Obs C) * EvalVars) :=
  gs <- get global_step ;;
  action <- agent_act (observation i.1) meta gs true ;;
  time_step <- step EvalEnv action ;;
  video (save_video c) "video_recorder.record" ;;
  ret (time_step,
       mkEvalVars (e_step i.2 + 1) (e_episode i.2)
         (e_total_reward i.2 + reward time_step)%Q).

(** The body of the outer loop of [eval]: one evaluation episode. *)
Definition eval_episode (fuel : nat) (c : Cfg) (meta : Meta C) (v : EvalVars)
  : M C EvalVars :=
  time_step <- reset EvalEnv ;;
  video (save_video c) "video_recorder.init" ;;
  i <- while_ fuel (fun i _ => negb (ts_last i.1)) (eval_step c meta)
         (time_step, v) ;;
  video (save_video c) "video_recorder.save" ;;
  ret (mkEvalVars (e_step i.2) (e_episode i.2 + 1) (e_total_reward i.2)).

(** [Workspace.eval] *)
Definition eval (fuel : nat) : M C unit :=
  (* step, episode, total_reward = 0, 0, 0 *)
  c <- get cfg ;;
  let eval_until_episode := Until (inject_Z (num_eval_episodes c)) 1 in
  meta <- agent_init_meta ;;
  v <- while_ fuel (fun v _ => eval_until_episode (e_episode v))
         (eval_episode fuel c meta) (mkEvalVars 0 0 0%Q) ;;
  frame <- get global_frame ;;
  if e_episode v =? 0 then raise ZeroDivisionError
  else
    ge <- get global_episode ;;
    gs <- get global_step ;;
    emit (ELogEval frame
            (e_total_reward v / inject_Z (e_episode v))%Q
            (inject_Z (e_step v * action_repeat c) / inject_Z (e_episode v))%Q
            ge gs (meta_skill C meta)).

(** One iteration of the loop of [Workspace.train]. *)
Definition train_tick (fuel : nat) (seed_until_step eval_every_step : Z -> bool)
    (v : TrainVars C) : M C (TrainVars C) :=
  c <- get cfg ;;
  v <- (if ts_last (time_step v) then
          modify (fun w => set_global_episode (_global_episode w + 1) w) ;;
          video (save_train_video c) "train_video_recorder.save" ;;
          (* wait until all the metrics schema is populated *)
          (match metrics v with
           | Some _ =>
               frame <- get global_frame ;;
               ge <- get global_episode ;;
               gs <- get global_step ;;
               let episode_frame := episode_step v * action_repeat c in
               emit (ELogTrain frame (episode_reward v) episode_frame ge gs)
           | None => ret tt
           end) ;;
          (* reset env *)
          time_step <- reset TrainEnv ;;
          meta <- agent_init_meta ;;
          replay_add time_step meta ;;
          video (save_train_video c) "train_video_recorder.init" ;;
          ret (mkTrainVars time_step meta (metrics v) 0 0%Q)
        else ret v) ;;
  (* try to evaluate *)
  gs <- get global_step ;;
  (if eval_every_step gs then
     frame <- get global_frame ;;
     emit (ELog "eval_total_time" frame) ;;
     eval fuel
   else ret tt) ;;
  gs <- get global_step ;;
  meta <- agent_update_meta (meta v) gs (time_step v) ;;
  (* sample action *)
  action <- agent_act (observation (time_step v)) meta gs false ;;
  (* try to update the agent *)
  metrics <- (if negb (seed_until_step gs) then
                metrics <- agent_update gs ;;
                frame <- get global_frame ;;
                emit (ELogMetrics frame) ;;
                (if use_wandb c then emit EWandbLog else ret tt) ;;
                ret (Some metrics)
              else ret (metrics v)) ;;
  (* take env step *)
  time_step <- step TrainEnv action ;;
  replay_add time_step meta ;;
  video (save_train_video c) "train_video_recorder.record" ;;
  modify (fun w => set_global_step (_global_step w + 1) w) ;;
  ret (mkTrainVars time_step meta metrics (episode_step v + 1)
         (episode_reward v + reward time_step)%Q).

(** [Workspace.train] *)
Definition train (fuel : nat) : M C unit :=
  c <- get cfg ;;
  (* predicates *)
  let train_until_step := Until (num_train_frames c) (action_repeat c) in
  let seed_until_step := Until (num_seed_frames c) (action_repeat c) in
  let eval_every_step := Every (eval_every_frames c) (action_repeat c) in
  time_step <- reset TrainEnv ;;
  meta <- agent_init_meta ;;
  replay_add time_step meta ;;
  video (save_train_video c) "train_video_recorder.init" ;;
  while_ fuel (fun _ w => train_until_step (global_step w))
    (train_tick fuel seed_until_step eval_every_step)
    (mkTrainVars time_step meta None 0 0%Q) ;;
  ret tt.

(** [main(cfg)], up to the call of [train]. *)
Definition main_startup (c : Cfg) : M C unit :=
  root_dir <- get cwd ;;
  __init__ c ;;
  let snapshot := render (path_child root_dir "snapshot.pt") in
  f <- get fs ;;
  if path_exists f snapshot then
    emit (EPrint ("resuming: " +:+ snapshot)) ;;
    load_snapshot ;;
    ret tt
  else ret tt.

(** [main(cfg)] *)
Definition main (fuel : nat) (c : Cfg) : M C unit :=
  main_startup c ;;
  train fuel.

End Workspace.
End Finetune.

(* ===================================================================== *)
(** ** A concrete collaborator for running the loops

    The environment counts its [step] calls and returns LAST on every
    third one; the agent's state is the number of updates applied to its
    parameters. *)

Definition cyc3 : Collab := {|
  Obs := unit;
  Action := Z;
  Meta := Z;
  Metrics := Z;
  EnvSt := nat;
  AgentSt := Z;
  dmc_make := fun _ _ => O;
  env_reset := fun n => (n, mkTimeStep FIRST 0%Q 1%Q tt);
  env_step := fun n _ =>
    (S n, mkTimeStep (if (S n mod 3 =? 0)%nat then LAST else MID) 1%Q 1%Q tt);
  make_agent := fun _ => 0;
  init_meta := fun g => (g, 0);
  update_meta := fun g m _ _ => (g, m);
  act := fun g _ _ _ _ => (g, 0);
  update := fun g _ _ => (g + 1, g + 1);
  init_from := fun _ other => other;
  meta_skill := fun _ => None;
  PRIMAL_TASKS := fun d => if String.eqb d "walker" then Some "walker_stand" else None
|}.

Definition cfg0 : Cfg := {|
  num_train_frames := 9%Q;
  num_seed_frames := 0%Q;
  eval_every_frames := 4%Q;
  action_repeat := 1;
  num_eval_episodes := 2;
  snapshots := [6];
  snapshot_dir := mkPath false ["snapshot"];
  snapshot := mkPath false ["resume.pt"];
  domain := "walker";
  use_wandb := false;
  save_video := false;
  save_train_video := false;
  snapshot_ts := 100000;
  snapshot_base_dir := mkPath false ["models"];
  obs_type := "states";
  task := "walker_stand";
  agent_name := "amped";
  seed := 1
|}.

Definition fs0 : FS cyc3 := {| dirs := ∅; files := ∅ |}.

(** A freshly constructed workspace with an empty file store. *)
Definition w0 : World cyc3 :=
  @mkWorld cyc3
    (mkPath true ["exp"])      (* work_dir *)
    cfg0
    (0 : Z)                    (* agent *)
    O O                        (* train_env, eval_env *)
    []                         (* replay_storage *)
    0 0                        (* _global_step, _global_episode *)
    (mkPath true ["exp"])      (* cwd *)
    fs0
    []                         (* trace *)
    None.                      (* pending *)

(* ===================================================================== *)
(** ** Reading the trace *)

Definition EnvId_eqb (a b : EnvId) : bool :=
  match a, b with
  | TrainEnv, TrainEnv | EvalEnv, EvalEnv => true
  | _, _ => false
  end.

Section Observers.
Context {C : Collab}.

Definition is_update (ev : Event C) : bool :=
  match ev with EUpdate _ => true | _ => false end.

Definition is_init_meta (ev : Event C) : bool :=
  match ev with EInitMeta _ => true | _ => false end.

Definition is_save (ev : Event C) : bool :=
  match ev with ETorchSave _ => true | _ => false end.

Definition is_reset (e : EnvId) (ev : Event C) : bool :=
  match ev with EReset e' _ => EnvId_eqb e' e | _ => false end.

Definition is_step (e : EnvId) (ev : Event C) : bool :=
  match ev with EStep e' _ _ => EnvId_eqb e' e | _ => false end.

(** A call on environment [e] that returned a LAST time step. *)
Definition ends_episode (e : EnvId) (ev : Event C) : bool :=
  match ev with
  | EReset e' ts | EStep e' _ ts => EnvId_eqb e' e && ts_last ts
  | _ => false
  end.

Definition on_env (e : EnvId) (ev : Event C) : bool :=
  is_reset e ev || is_step e ev.

Fixpoint count (p : Event C -> bool) (tr : list (Event C)) : nat :=
  match tr with
  | [] => O
  | ev :: r => ((if p ev then 1 else 0) + count p r)%nat
  end.

(** The step counter and the reward total that [eval] accumulates, read
    off the trace: one per [step] call on the evaluation environment, in
    the order of the calls. *)
Fixpoint eval_steps (z : Z) (tr : list (Event C)) : Z :=
  match tr with
  | [] => z
  | ev :: r => if is_step EvalEnv ev then eval_steps z r + 1 else eval_steps z r
  end.

Fixpoint eval_reward (q : Q) (tr : list (Event C)) : Q :=
  match tr with
  | [] => q
  | EStep EvalEnv _ ts :: r => (eval_reward q r + reward ts)%Q
  | _ :: r => eval_reward q r
  end.

(** The calls an evaluation makes between its [init_meta] and its log. *)
Definition eval_event (meta : Meta C) (ev : Event C) : Prop :=
  match ev with
  | EAct _ eval_mode m => eval_mode = true /\ m = meta
  | EReset e _ | EStep e _ _ => e = EvalEnv
  | EVideo _ => True
  | _ => False
  end.

(** From state [e], an episode ends within [L] steps whatever the actions. *)
Fixpoint ends_within (L : nat) (e : EnvSt C) : Prop :=
  match L with
  | O => False
  | S L' => forall a, ts_last (env_step C e a).2 = true
                      \/ ends_within L' (env_step C e a).1
  end.

(** Every episode of the environment class ends within [L] steps. *)
Definition episodic (L : nat) : Prop :=
  forall e, ts_last (env_reset C e).2 = true
            \/ ends_within L (env_reset C e).1.

(** The environment returns LAST on every third [step] call: [phase] is
    the number of step calls made so far, modulo 3. *)
Definition last_every_third (phase : EnvSt C -> nat) : Prop :=
  (forall e, (phase e < 3)%nat)
  /\ (forall e, phase (env_reset C e).1 = phase e
             /\ ts_last (env_reset C e).2 = false)
  /\ (forall e a, phase (env_step C e a).1 = (S (phase e) mod 3)%nat
                  /\ ts_last (env_step C e a).2
                     = (phase (env_step C e a).1 =? 0)%nat).

(** What an evaluation changes: the agent, the evaluation environment and
    the trace. *)
Definition evolve (g : AgentSt C) (e : EnvSt C) (new : list (Event C))
    (w : World C) : World C :=
  set_trace (new ++ trace w) (set_agent g (set_eval_env e w)).

End Observers.

(* ===================================================================== *)
(** ** Vocabulary of the statements *)

Section Vocabulary.
Context {C : Collab}.

(** A computation [keeps] a projection [proj] of the world when, however
    it stops (normally, by an exception, or cut short by the fuel), the
    projection is unchanged, the calls it added to the trace all satisfy
    [P], and an exception it raises satisfies [E]. *)
Definition framed {X} (proj : World C -> X) (P : Event C -> Prop)
    (w w' : World C) : Prop :=
  proj w' = proj w /\ exists new, trace w' = new ++ trace w /\ Forall P new.

Definition keeps {X A} (proj : World C -> X) (P : Event C -> Prop)
    (E : Exn -> World C -> Prop) (m : M C A) : Prop :=
  forall w, framed proj P w (world_of (m w))
            /\ match m w with Raise e w' => E e w' | _ => True end.

Definition counters_and_train_env (w : World C) :=
  (_global_step w, _global_episode w, train_env w).

Definition off_train_env (ev : Event C) : Prop := on_env TrainEnv ev = false.

Definition not_a_save (ev : Event C) : Prop := is_save ev = false.

(** An interrupt that surfaces has been delivered: none is pending. *)
Definition interrupt_delivered (e : Exn) (w : World C) : Prop :=
  e = KeyboardInterrupt -> pending w = None.

(** The events of [Finetune.video]. *)
Definition videos (enabled : bool) (what : string) : list (Event C) :=
  if enabled then [EVideo what] else [].

(** The payload [save_snapshot] builds in world [w]. *)
Definition saved (w : World C) : gmap string (PyVal C) :=
  <["_global_episode" := VInt (_global_episode w)]>
    (<["_global_step" := VInt (_global_step w)]>
       (<["agent" := VAgent (agent w)]> ∅)).

(** [snapshot_dir / f"snapshot_{self.global_frame}.pt"] *)
Definition snapshot_path (w : World C) : Path :=
  path_child (path_join (work_dir w) (snapshot_dir (cfg w)))
    ("snapshot_" +:+ str (global_frame w) +:+ ".pt").

(** The world after a successful [save_snapshot]. *)
Definition after_save (w : World C) : World C :=
  set_trace
    (ETorchSave (render (snapshot_path w))
     :: EPrint (render (snapshot_path w))
     :: EMkdir (render (path_join (work_dir w) (snapshot_dir (cfg w))))
     :: trace w)
    (set_fs
       (write_file (render (snapshot_path w)) (saved w)
          (mkdir_p (path_join (work_dir w) (snapshot_dir (cfg w))) (fs w)))
       w).


(** The file fine-tuning reads its pretrained agent from. *)
Definition pretrained_path (c : Cfg) (domain : string) : Path :=
  path_child
    (path_child
       (path_join (mkPath false [".."; ".."; ".."; ".."; ".."])
          (path_child
             (path_child (path_child (snapshot_base_dir c) (obs_type c))
                domain)
             (agent_name c)))
       (str (seed c)))
    ("snapshot_" +:+ str (snapshot_ts c) +:+ ".pt").


(** What one iteration of the training loop does, from [(v, w)] to
    [(v', w')]: the counters, the training environment, and the calls it
    ends with, newest first. *)
Definition tick_post (seed_until_step : Z -> bool)
    (v : TrainVars C) (w : World C) (v' : TrainVars C) (w' : World C) : Prop :=
  let gs := _global_step w in
  let e1 := if ts_last (time_step v) then (env_reset C (train_env w)).1
            else train_env w in
  pending w' = None /\ cfg w' = cfg w /\ work_dir w' = work_dir w
  /\ _global_step w' = gs + 1
  /\ _global_episode w'
     = _global_episode w + (if ts_last (time_step v) then 1 else 0)
  /\ exists a rest,
       train_env w' = (env_step C e1 a).1
       /\ time_step v' = (env_step C e1 a).2
       /\ trace w'
          = EReplayAdd (time_step v') (meta v')
            :: EStep TrainEnv a (time_step v')
            :: (if seed_until_step gs then []
                else (if use_wandb (cfg w) then [EWandbLog] else [])
                     ++ [ELogMetrics (global_frame w); EUpdate gs])
            ++ rest
       /\ trace w `suffix_of` rest
       /\ count is_update rest = count is_update (trace w)
       /\ count (is_step TrainEnv) rest = count (is_step TrainEnv) (trace w).

(** The invariant of the training loop at the head of iteration [k], for
    a run without warm-up against an environment that returns LAST on
    every third step: [ge0] is the episode counter, [u0] and [s0] the
    numbers of updates and of training-environment steps in the trace,
    when the loop is entered. *)
Definition loop_inv (c0 : Cfg) (phase : EnvSt C -> nat) (ge0 : Z)
    (u0 s0 : nat) (k : Z) (v : TrainVars C) (w : World C) : Prop :=
  pending w = None /\ cfg w = c0 /\ _global_step w = k
  /\ phase (train_env w) = Z.to_nat (k mod 3)
  /\ ts_last (time_step v) = (0 <? k) && (k mod 3 =? 0)
  /\ _global_episode w = ge0 + (if k =? 0 then 0 else (k - 1) / 3)
  /\ count is_update (trace w) = (u0 + Z.to_nat k)%nat
  /\ count (is_step TrainEnv) (trace w) = (s0 + Z.to_nat k)%nat.

End Vocabulary.

(** More concrete worlds: an interrupt due after twenty calls; a run to be
    resumed from a checkpoint taken at step 1000, episode 7; a pretrained
    checkpoint where fine-tuning looks for it; and a configuration with an
    action repeat of two. *)

Definition w_interrupted : World cyc3 := set_pending (Some 20%nat) w0.

Definition payload_1000 : gmap string (PyVal cyc3) :=
  <["_global_episode" := VInt 7]>
    (<["_global_step" := VInt 1000]>
       (<["agent" := @VAgent cyc3 5]> ∅)).


Definition w_pretrained : World cyc3 :=
  set_fs
    {| dirs := ∅;
       files :=
         {["../../../../../models/states/walker/amped/1/snapshot_100000.pt"
           := payload_1000]} |}
    w0.

Definition cfg_repeat2 : Cfg :=
  set_num_seed_frames 4%Q
    (set_num_train_frames 8%Q
       (mkCfg 0%Q 0%Q 100%Q 2 2 [] (mkPath false ["snapshot"])
          (mkPath false ["resume.pt"]) "walker" false false false 0
          (mkPath false ["models"]) "states" "walker_stand" "amped" 1)).



(** The pretrained checkpoint in place, and an interrupt due. *)
Definition w_pretrained_interrupted : World cyc3 :=
  set_pending (Some 20%nat) w_pretrained.

(* ===================================================================== *)
(** ** Vocabulary of the further facts *)



Section MoreObservers.
Context {C : Collab}.

Definition is_video (ev : Event C) : bool :=
  match ev with EVideo _ => true | _ => false end.

Definition is_load (ev : Event C) : bool :=
  match ev with ETorchLoad _ => true | _ => false end.

(** The calls an evaluation may make, its [init_meta] and its log
    included. *)
Definition eval_call (ev : Event C) : Prop :=
  match ev with
  | EInitMeta _ | EVideo _ | ELogEval _ _ _ _ _ _ => True
  | EAct _ eval_mode _ => eval_mode = true
  | EReset e _ | EStep e _ _ => e = EvalEnv
  | _ => False
  end.

(** What belongs to training and to the run, not to an evaluation. *)
Definition training_state (w : World C) :=
  (cfg w, work_dir w, cwd w, fs w, replay_storage w,
   _global_step w, _global_episode w, train_env w).

(** The attributes of the workspace object. *)
Definition attributes (w : World C) :=
  (work_dir w, cfg w, agent w, train_env w, eval_env w, replay_storage w,
   _global_step w, _global_episode w).

End MoreObservers.


Section TickVocabulary.
Context {C : Collab}.

(** The per-episode log of [train], written at an episode boundary once an
    update has produced metrics. *)
Definition boundary_log (v : TrainVars C) (w : World C) : list (Event C) :=
  match metrics v with
  | Some _ =>
      [ELogTrain (global_frame w) (episode_reward v)
         (episode_step v * action_repeat (cfg w))
         (_global_episode w + 1) (_global_step w)]
  | None => []
  end.

(** The head of an iteration of [train], [if time_step.last(): ...]: the
    loop variables and the world after it.  [rec] tells whether the
    training video recorder is on (fine-tuning only). *)
Definition boundary_vars (v : TrainVars C) (w : World C) : TrainVars C :=
  if ts_last (time_step v) then
    mkTrainVars (env_reset C (train_env w)).2 (init_meta C (agent w)).2
      (metrics v) 0 0%Q
  else v.

Definition boundary_events (rec : bool) (v : TrainVars C) (w : World C)
  : list (Event C) :=
  let r := env_reset C (train_env w) in
  let im := init_meta C (agent w) in
  videos rec "train_video_recorder.init"
  ++ EReplayAdd r.2 im.2 :: EInitMeta im.2 :: EReset TrainEnv r.2
  :: boundary_log v w
  ++ videos rec "train_video_recorder.save".

Definition boundary (rec : bool) (v : TrainVars C) (w : World C) : World C :=
  if ts_last (time_step v) then
    let r := env_reset C (train_env w) in
    let im := init_meta C (agent w) in
    mkWorld (work_dir w) (cfg w) im.1 r.1 (eval_env w)
      ((r.2, im.2) :: replay_storage w)
      (_global_step w) (_global_episode w + 1) (cwd w) (fs w)
      (boundary_events rec v w ++ trace w)
      (pending w)
  else w.

(** [if self.global_frame in self.cfg.snapshots: self.save_snapshot()] *)
Definition scheduled (w : World C) : World C :=
  if existsb (Z.eqb (global_frame w)) (snapshots (cfg w)) then after_save w
  else w.

(** [w'] is [w] after the evaluation of an iteration, which runs when
    [eval_every_step] fires; [skill] is what the log says of the Meta. *)
Definition evaluated (skill : Meta C -> option Z) (ee : Z -> bool)
    (w w' : World C) : Prop :=
  if ee (_global_step w) then
    let N := num_eval_episodes (cfg w) in
    let meta := (init_meta C (agent w)).2 in
    exists g e new,
      w' = evolve g e
             (ELogEval (global_frame w)
                (eval_reward 0 new / inject_Z N)%Q
                (inject_Z (eval_steps 0 new * action_repeat (cfg w))
                 / inject_Z N)%Q
                (_global_episode w) (_global_step w) (skill meta)
              :: new
              ++ [EInitMeta meta; ELog "eval_total_time" (global_frame w)])
             w
      /\ Forall (eval_event meta) new
      /\ count (is_reset EvalEnv) new = Z.to_nat N
      /\ count (ends_episode EvalEnv) new = Z.to_nat N
  else w' = w.

(** The rest of the iteration: [update_meta], [act], the gated [update],
    the environment step, the replay [add] and the step counter. *)
Definition stepped_vars (su : Z -> bool) (v : TrainVars C) (w : World C)
  : TrainVars C :=
  let gs := _global_step w in
  let um := update_meta C (agent w) (meta v) gs (time_step v) in
  let ac := act C um.1 (observation (time_step v)) um.2 gs false in
  let up := update C ac.1 (replay_storage w) gs in
  let st := env_step C (train_env w) ac.2 in
  mkTrainVars st.2 um.2 (if su gs then metrics v else Some up.2)
    (episode_step v + 1) (episode_reward v + reward st.2)%Q.

Definition stepped_events (rec : bool) (su : Z -> bool) (v : TrainVars C)
    (w : World C) : list (Event C) :=
  let gs := _global_step w in
  let um := update_meta C (agent w) (meta v) gs (time_step v) in
  let ac := act C um.1 (observation (time_step v)) um.2 gs false in
  let st := env_step C (train_env w) ac.2 in
  videos rec "train_video_recorder.record"
  ++ EReplayAdd st.2 um.2 :: EStep TrainEnv ac.2 st.2
  :: (if su gs then []
      else (if use_wandb (cfg w) then [EWandbLog] else [])
           ++ [ELogMetrics (global_frame w); EUpdate gs])
  ++ [EAct gs false um.2; EUpdateMeta gs].

Definition stepped (rec : bool) (su : Z -> bool) (v : TrainVars C)
    (w : World C) : World C :=
  let gs := _global_step w in
  let um := update_meta C (agent w) (meta v) gs (time_step v) in
  let ac := act C um.1 (observation (time_step v)) um.2 gs false in
  let up := update C ac.1 (replay_storage w) gs in
  let st := env_step C (train_env w) ac.2 in
  mkWorld (work_dir w) (cfg w) (if su gs then ac.1 else up.1) st.1
    (eval_env w) ((st.2, um.2) :: replay_storage w)
    (gs + 1) (_global_episode w) (cwd w) (fs w)
    (stepped_events rec su v w ++ trace w)
    (pending w).

(** One iteration of the loop of [train], as a relation between the loop
    variables and worlds before and after it. *)
Definition tick_rel (rec snap : bool) (skill : Meta C -> option Z)
    (su ee : Z -> bool)
    (v : TrainVars C) (w : World C) (v' : TrainVars C) (w' : World C) : Prop :=
  exists w3,
    evaluated skill ee
      (if snap then scheduled (boundary rec v w) else boundary rec v w) w3
    /\ v' = stepped_vars su (boundary_vars v w) w3
    /\ w' = stepped rec su (boundary_vars v w) w3.

(** [n] iterations. *)
Inductive ticks (R : TrainVars C -> World C -> TrainVars C -> World C -> Prop)
  : nat -> TrainVars C -> World C -> TrainVars C -> World C -> Prop :=
  | ticks_O v w : ticks R O v w v w
  | ticks_S n v w v1 w1 v2 w2 :
      R v w v1 w1 -> ticks R n v1 w1 v2 w2 -> ticks R (S n) v w v2 w2.

(** The parts of an iteration of [train], as the two entry points share
    them: the episode boundary, the scheduled snapshot (pretraining), the
    evaluation, and the step. *)
Definition tick_head (rec : bool) (c : Cfg) (v : TrainVars C)
  : M C (TrainVars C) :=
  if ts_last (time_step v) then
    modify (fun w => set_global_episode (_global_episode w + 1) w) ;;
    Finetune.video rec "train_video_recorder.save" ;;
    (match metrics v with
     | Some _ =>
         frame <- get global_frame ;;
         ge <- get global_episode ;;
         gs <- get global_step ;;
         let episode_frame := episode_step v * action_repeat c in
         emit (ELogTrain frame (episode_reward v) episode_frame ge gs)
     | None => ret tt
     end) ;;
    time_step <- reset TrainEnv ;;
    meta <- agent_init_meta ;;
    replay_add time_step meta ;;
    Finetune.video rec "train_video_recorder.init" ;;
    ret (mkTrainVars time_step meta (metrics v) 0 0%Q)
  else ret v.

Definition tick_snapshot (c : Cfg) : M C unit :=
  frame <- get global_frame ;;
  if existsb (Z.eqb frame) (snapshots c) then Pretrain.save_snapshot
  else ret tt.

Definition tick_eval (eval : M C unit) (ee : Z -> bool) : M C unit :=
  gs <- get global_step ;;
  if ee gs then
    frame <- get global_frame ;;
    emit (ELog "eval_total_time" frame) ;;
    eval
  else ret tt.

Definition tick_body (rec : bool) (c : Cfg) (su : Z -> bool)
    (v : TrainVars C) : M C (TrainVars C) :=
  gs <- get global_step ;;
  meta <- agent_update_meta (meta v) gs (time_step v) ;;
  action <- agent_act (observation (time_step v)) meta gs false ;;
  metrics <- (if negb (su gs) then
                metrics <- agent_update gs ;;
                frame <- get global_frame ;;
                emit (ELogMetrics frame) ;;
                (if use_wandb c then emit EWandbLog else ret tt) ;;
                ret (Some metrics)
              else ret (metrics v)) ;;
  time_step <- step TrainEnv action ;;
  replay_add time_step meta ;;
  Finetune.video rec "train_video_recorder.record" ;;
  modify (fun w => set_global_step (_global_step w + 1) w) ;;
  ret (mkTrainVars time_step meta metrics (episode_step v + 1)
         (episode_reward v + reward time_step)%Q).

End TickVocabulary.


Section TrainObservers.
Context {C : Collab}.

Definition is_replay_add (ev : Event C) : bool :=
  match ev with EReplayAdd _ _ => true | _ => false end.

(** An action selected for training: [act] with [eval_mode=False]. *)
Definition is_explore (ev : Event C) : bool :=
  match ev with EAct _ false _ => true | _ => false end.

Definition is_update_meta (ev : Event C) : bool :=
  match ev with EUpdateMeta _ => true | _ => false end.

(** A step of the training environment that returned a LAST time step. *)
Definition step_ends_episode (ev : Event C) : bool :=
  match ev with EStep TrainEnv _ ts => ts_last ts | _ => false end.

(** The time steps the training environment returned, newest first. *)
Fixpoint train_time_steps (tr : list (Event C)) : list (TimeStep (Obs C)) :=
  match tr with
  | [] => []
  | EReset TrainEnv ts :: r | EStep TrainEnv _ ts :: r =>
      ts :: train_time_steps r
  | _ :: r => train_time_steps r
  end.

(** What was added to the replay storage, newest first. *)
Fixpoint replay_adds (tr : list (Event C))
  : list (TimeStep (Obs C) * Meta C) :=
  match tr with
  | [] => []
  | EReplayAdd ts m :: r => (ts, m) :: replay_adds r
  | _ :: r => replay_adds r
  end.

(** [time_step.last()] of the newest time step of a list. *)
Definition newest_last (l : list (TimeStep (Obs C))) : bool :=
  match l with ts :: _ => ts_last ts | [] => false end.

(** The world and the loop variables when the loop of [train] is entered:
    after the first [reset], [init_meta] and replay [add]. *)
Definition started (rec : bool) (w : World C) : World C :=
  let r := env_reset C (train_env w) in
  let im := init_meta C (agent w) in
  mkWorld (work_dir w) (cfg w) im.1 r.1 (eval_env w)
    ((r.2, im.2) :: replay_storage w)
    (_global_step w) (_global_episode w) (cwd w) (fs w)
    (videos rec "train_video_recorder.init"
     ++ EReplayAdd r.2 im.2 :: EInitMeta im.2 :: EReset TrainEnv r.2
     :: trace w)
    (pending w).

Definition start_vars (w : World C) : TrainVars C :=
  mkTrainVars (env_reset C (train_env w)).2 (init_meta C (agent w)).2
    None 0 0%Q.

(** [w'] is reached from [w] by steps of the training loop that made the
    calls [new]: the counters and the replay storage have moved with the
    calls. *)
Definition trained (w w' : World C) (new : list (Event C)) : Prop :=
  trace w' = new ++ trace w
  /\ pending w' = pending w /\ cfg w' = cfg w
  /\ work_dir w' = work_dir w /\ cwd w' = cwd w
  /\ _global_step w'
     = _global_step w + Z.of_nat (count (is_step TrainEnv) new)
  /\ _global_episode w'
     = _global_episode w + Z.of_nat (count (is_reset TrainEnv) new)
  /\ replay_storage w' = replay_adds new ++ replay_storage w
  /\ map fst (replay_adds new) = train_time_steps new
  /\ count is_explore new = count (is_step TrainEnv) new
  /\ count is_update_meta new = count (is_step TrainEnv) new.

(** What [n] iterations of the loop of [train] amount to, from the loop
    variables [v] and world [w] to [v'] and [w']. *)
Definition advanced (n : nat) (v : TrainVars C) (w : World C)
    (v' : TrainVars C) (w' : World C) : Prop :=
  exists new,
    trained w w' new
    /\ count (is_step TrainEnv) new = n
    /\ (if ts_last (time_step v) then 1 else 0)
       + Z.of_nat (count step_ends_episode new)
       = Z.of_nat (count (is_reset TrainEnv) new)
         + (if ts_last (time_step v') then 1 else 0)
    /\ newest_last (train_time_steps new ++ [time_step v])
       = ts_last (time_step v').

End TrainObservers.


Section MilestoneVocabulary.
Context {C : Collab}.

(** [global_frame in cfg.snapshots], at step [k]. *)
Definition milestone (c : Cfg) (k : Z) : bool :=
  existsb (Z.eqb (k * action_repeat c)) (snapshots c).

(** The checkpoints of the milestones from step [k0] up to the current
    step are in the file store, each holding its step. *)
Definition milestones_kept (w0 : World C) (k0 : Z) (w : World C) : Prop :=
  cfg w = cfg w0 /\ work_dir w = work_dir w0
  /\ forall k, k0 <= k < _global_step w -> milestone (cfg w0) k = true ->
       exists payload,
         files (fs w) !! render (snapshot_path (set_global_step k w0))
         = Some payload
         /\ payload !! "_global_step" = Some (VInt k).

End MilestoneVocabulary.


Section UnderVocabulary.
Context {C : Collab}.

(** A computation run [under] an invariant [Inv] of the world keeps it,
    however it stops, and the calls it adds to the trace all satisfy [P]. *)
Definition under {A} (Inv : World C -> Prop) (P : Event C -> Prop)
    (m : M C A) : Prop :=
  forall w, Inv w ->
    Inv (world_of (m w))
    /\ exists new, trace (world_of (m w)) = new ++ trace w /\ Forall P new.

(** Neither video recorder is configured. *)
Definition recorders_off (w : World C) : Prop :=
  save_video (cfg w) = false /\ save_train_video (cfg w) = false.

Definition not_a_video (ev : Event C) : Prop := is_video ev = false.

End UnderVocabulary.




(** The workspace three steps after a save at [w0]. *)
Definition w_later : World cyc3 := set_global_step 3 (after_save w0).

(** A file [snapshot.pt] in the working directory, and no pretrained
    checkpoint. *)
Definition w_stale : World cyc3 :=
  set_fs {| dirs := ∅; files := {["/exp/snapshot.pt" := payload_1000]} |} w0.





(** An interrupt due at the very first call. *)
Definition w_interrupted_at_once : World cyc3 := set_pending (Some O) w0.

(* ===================================================================== *)
(** * Facts *)

(** ** Running the monad *)

Ltac run1 :=
  cbn [bind ret get modify raise emit deliver reset step agent_init_meta
       agent_update_meta agent_act agent_update agent_init_from replay_add
       mkdir torch_save env_of set_env world_of as_agent as_int exit
       work_dir cfg agent train_env eval_env replay_storage _global_step
       _global_episode cwd fs trace pending
       set_work_dir set_cfg set_agent set_train_env set_eval_env
       set_replay_storage set_global_step set_global_episode set_fs
       set_trace set_pending global_step global_episode global_frame
       evolve fst snd app negb
       e_step e_episode e_total_reward
       time_step meta metrics episode_step episode_reward].

Ltac wnorm :=
  cbv beta iota delta
    [modify set_work_dir set_cfg set_agent set_train_env set_eval_env
     set_replay_storage set_global_step set_global_episode set_fs
     set_trace set_pending set_env evolve
     work_dir cfg agent train_env eval_env replay_storage _global_step
     _global_episode cwd fs trace pending].

Ltac wnorm_in H :=
  cbv beta iota delta
    [modify set_work_dir set_cfg set_agent set_train_env set_eval_env
     set_replay_storage set_global_step set_global_episode set_fs
     set_trace set_pending set_env evolve
     work_dir cfg agent train_env eval_env replay_storage _global_step
     _global_episode cwd fs trace pending] in H.

Section MonadLaws.
Context {C : Collab}.

Lemma bind_assoc {A B D} (m : M C A) (k1 : A -> M C B) (k2 : B -> M C D) w :
  bind (bind m k1) k2 w = bind m (fun a => bind (k1 a) k2) w.
Proof. unfold bind. destruct (m w); reflexivity. Qed.

Lemma bind_ok {A B} (m : M C A) (k : A -> M C B) w a w' :
  m w = Ok a w' -> bind m k w = k a w'.
Proof. unfold bind. intros ->. reflexivity. Qed.

Lemma bind_raise {A B} (m : M C A) (k : A -> M C B) w e w' :
  m w = Raise e w' -> bind m k w = Raise e w'.
Proof. unfold bind. intros ->. reflexivity. Qed.

Lemma while_unfold {S} fuel (cond : S -> World C -> bool) body s w :
  while_ fuel cond body s w =
    if cond s w then
      match fuel with
      | O => OutOfFuel w
      | Datatypes.S f => bind (body s) (while_ f cond body) w
      end
    else Ok s w.
Proof. destruct fuel; reflexivity. Qed.

Lemma while_false {S} fuel (cond : S -> World C -> bool) body s w :
  cond s w = false -> while_ fuel cond body s w = Ok s w.
Proof. intros H. rewrite while_unfold, H. reflexivity. Qed.

End MonadLaws.

Ltac run := repeat first [ rewrite bind_assoc | progress run1 | progress wnorm ].

(** ** Frame rules for [keeps] *)

Section Frame.
Context {C : Collab} {X : Type}.
Variable proj : World C -> X.
Variable P : Event C -> Prop.
Variable E : Exn -> World C -> Prop.
Hypothesis proj_trace : forall t w, proj (set_trace t w) = proj w.
Hypothesis proj_pending : forall p w, proj (set_pending p w) = proj w.

Lemma framed_refl w : framed proj P w w.
Proof. split; [reflexivity|]. exists []. split; [reflexivity|constructor]. Qed.

Lemma framed_trans w1 w2 w3 : framed proj P w1 w2 -> framed proj P w2 w3 -> framed proj P w1 w3.
Proof.
  intros [H1 (n1 & T1 & F1)] [H2 (n2 & T2 & F2)]. split; [congruence|].
  exists (n2 ++ n1). split.
  - rewrite T2, T1. apply app_assoc.
  - apply Forall_app; auto.
Qed.

Lemma keeps_ret {A} (a : A) : keeps proj P E (ret a).
Proof. intros w. split; [apply framed_refl|exact I]. Qed.

Lemma keeps_get {A} (f : World C -> A) : keeps proj P E (get f).
Proof. intros w. split; [apply framed_refl|exact I]. Qed.

Lemma keeps_raise {A} e : (forall w, E e w) -> keeps proj P E (raise (A:=A) e).
Proof. intros H w. split; [apply framed_refl|apply H]. Qed.

Lemma keeps_bind {A B} (m : M C A) (k : A -> M C B) :
  keeps proj P E m -> (forall a, keeps proj P E (k a)) -> keeps proj P E (bind m k).
Proof.
  intros Hm Hk w. unfold bind. specialize (Hm w).
  destruct (m w) as [a w1|e w1|w1]; cbn in Hm; try exact Hm.
  destruct Hm as [Hm _]. destruct (Hk a w1) as [H1 H2].
  split; [eapply framed_trans; eassumption|exact H2].
Qed.

Lemma keeps_while {S} fuel (cond : S -> World C -> bool) body :
  (forall s, keeps proj P E (body s)) -> forall s, keeps proj P E (while_ fuel cond body s).
Proof.
  intros Hb. induction fuel as [|f IH]; intros s w; cbn.
  - destruct (cond s w); cbn; (split; [apply framed_refl|exact I]).
  - destruct (cond s w); cbn; [|split; [apply framed_refl|exact I]].
    apply (keeps_bind (body s) (while_ f cond body)); auto.
Qed.

Lemma keeps_modify (f : World C -> World C) :
  (forall w, proj (f w) = proj w) -> (forall w, trace (f w) = trace w) ->
  keeps proj P E (modify f).
Proof.
  intros H1 H2 w. split; [|exact I]. split; [apply H1|].
  exists []. split; [apply H2|constructor].
Qed.

Lemma keeps_deliver : (forall w, E KeyboardInterrupt (set_pending None w)) ->
  keeps proj P E deliver.
Proof.
  intros HE w. unfold deliver.
  destruct (pending w) as [[|n]|]; cbn.
  - split; [|apply HE]. split; [apply proj_pending|].
    exists []. split; [by destruct w|constructor].
  - split; [|exact I]. split; [apply proj_pending|].
    exists []. split; [by destruct w|constructor].
  - split; [apply framed_refl|exact I].
Qed.

Lemma keeps_emit ev : (forall w, E KeyboardInterrupt (set_pending None w)) ->
  P ev -> keeps proj P E (emit ev).
Proof.
  intros HE HP. unfold emit. apply keeps_bind; [apply keeps_deliver, HE|].
  intros _ w. split; [|exact I]. split; [apply proj_trace|].
  exists [ev]. split; [by destruct w|]. by constructor.
Qed.

Lemma keeps_try_except {A} (m h : M C A) e :
  keeps proj P E m -> keeps proj P E h -> keeps proj P E (try_except m e h).
Proof.
  intros Hm Hh w. unfold try_except. specialize (Hm w).
  destruct (m w) as [a w1|e' w1|w1]; cbn in Hm; try exact Hm.
  destruct (bool_decide (e' = e)); [|exact Hm].
  destruct Hm as [Hm _]. destruct (Hh w1) as [H1 H2].
  split; [eapply framed_trans; eassumption|exact H2].
Qed.

End Frame.

Ltac head_of t := lazymatch t with ?f _ => head_of f | _ => t end.

(** Peels a computation down to its calls, leaving the side conditions of
    [keeps_modify], [keeps_emit] and [keeps_raise]. *)
Ltac keeps_step :=
  lazymatch goal with
  | |- keeps _ _ _ (bind _ _) => apply keeps_bind; [|intros ?]
  | |- keeps _ _ _ (ret _) => apply keeps_ret
  | |- keeps _ _ _ (get _) => apply keeps_get
  | |- keeps _ _ _ (raise _) => apply keeps_raise; intros ?
  | |- keeps _ _ _ (while_ _ _ _ _) => apply keeps_while; intros ?
  | |- keeps _ _ _ (modify _) => apply keeps_modify; intros []
  | |- keeps _ _ _ (emit _) =>
      apply keeps_emit;
      [intros ? []; reflexivity | intros ? []; reflexivity | intros ? | ]
  | |- keeps _ _ _ (try_except _ _ _) => apply keeps_try_except
  | |- keeps _ _ _ (if ?b then _ else _) => destruct b
  | |- keeps _ _ _ (match ?x with _ => _ end) => destruct x
  | |- keeps _ _ _ (let _ := _ in _) => cbv zeta
  | |- keeps _ _ _ ?m =>
      let h := head_of m in unfold h
  end.

Ltac keeps_tac := repeat keeps_step.

Section EvalIsolation.
Context {C : Collab}.

Lemma Pretrain_eval_keeps fuel :
  keeps (C:=C) counters_and_train_env off_train_env (fun _ _ => True)
    (Pretrain.eval fuel).
Proof.
  unfold Pretrain.eval. keeps_tac; try reflexivity; try exact I.
Qed.

Lemma Finetune_eval_keeps fuel :
  keeps (C:=C) counters_and_train_env off_train_env (fun _ _ => True)
    (Finetune.eval fuel).
Proof.
  unfold Finetune.eval. keeps_tac; try reflexivity; try exact I.
Qed.
End EvalIsolation.

Section EvalFacts.
Context {C : Collab}.

Lemma evolve_evolve g1 e1 n1 g2 e2 n2 (w : World C) :
  evolve g2 e2 n2 (evolve g1 e1 n1 w) = evolve g2 e2 (n2 ++ n1) w.
Proof. destruct w; unfold evolve; cbn. by rewrite app_assoc. Qed.

Lemma count_app p (a b : list (Event C)) :
  count p (a ++ b) = (count p a + count p b)%nat.
Proof. induction a as [|x a IH]; cbn; [done|]. rewrite IH. lia. Qed.


Lemma eval_steps_app z (a b : list (Event C)) :
  eval_steps z (a ++ b) = eval_steps (eval_steps z b) a.
Proof. induction a as [|x a IH]; cbn; [done|]. by rewrite IH. Qed.

Lemma eval_reward_app q (a b : list (Event C)) :
  eval_reward q (a ++ b) = eval_reward (eval_reward q b) a.
Proof.
  induction a as [|x a IH]; cbn; [done|]. rewrite IH. reflexivity.
Qed.

Lemma P_inner meta L : forall fuel ts v (w : World C),
  (L <= fuel)%nat -> pending w = None ->
  (ts_last ts = true \/ ends_within L (eval_env w)) ->
  exists ts' g e new,
    while_ fuel (fun i _ => negb (ts_last i.1)) (Pretrain.eval_step meta) (ts, v) w
    = Ok (ts', mkEvalVars (eval_steps (e_step v) new) (e_episode v)
                 (eval_reward (e_total_reward v) new))
         (evolve g e new w)
    /\ ts_last ts' = true
    /\ Forall (eval_event meta) new
    /\ count (is_reset EvalEnv) new = 0%nat
    /\ count is_init_meta new = 0%nat
    /\ count (ends_episode EvalEnv) new = (if ts_last ts then 0 else 1)%nat.
Proof.
  induction L as [|L IH]; intros fuel ts v w Hf Hp Hend.
  - destruct Hend as [Hl | []].
    exists ts, (agent w), (eval_env w), [].
    rewrite while_unfold. cbn [fst]. rewrite Hl. cbn [negb].
    destruct w, v; cbn in *. repeat split; auto.
  - rewrite while_unfold. cbn [fst].
    destruct (ts_last ts) eqn:Hl; cbn [negb].
    + exists ts, (agent w), (eval_env w), [].
      destruct w, v; cbn in *. repeat split; auto.
    + destruct Hend as [Hend|Hend]; [discriminate|].
      destruct fuel as [|fuel]; [lia|].
      destruct w as [wd c g te ee rs gs ge cw f tr pd]. cbn in Hp, Hend. subst pd.
      unfold Pretrain.eval_step at 1. run.
      set (a := (act C g (observation ts) meta gs true).2).
      set (g1 := (act C g (observation ts) meta gs true).1).
      set (ts1 := (env_step C ee a).2).
      set (e1 := (env_step C ee a).1).
      match goal with |- context [while_ fuel _ _ (_, ?v1) ?w1] =>
        destruct (IH fuel ts1 v1 w1)
          as (ts' & g' & e' & new & Heq & Hl' & Hall & Hr & Hi & Hc);
          [ lia | reflexivity | | ]
      end.
      { cbn [eval_env]. destruct (Hend a) as [H|H]; [left|right]; exact H. }
      rewrite Heq.
      exists ts', g', e', (new ++ [EStep EvalEnv a ts1; EAct gs true meta]).
      split.
      { unfold evolve; run. rewrite <- app_assoc.
        rewrite eval_steps_app, eval_reward_app. reflexivity. }
      split; [exact Hl'|].
      split. { apply Forall_app. split; [exact Hall|]. repeat constructor. }
      rewrite !count_app, Hr, Hi, Hc. cbn.
      fold ts1. destruct (ts_last ts1); cbn; auto.
Qed.

Lemma Until_every_1 (n k : Z) : Until (inject_Z n) 1 k = (k <? n).
Proof.
  unfold Until. rewrite Z.div_1_r.
  replace (Qceiling (inject_Z n / inject_Z 1)) with n; [reflexivity|].
  rewrite <- (Qceiling_Z n) at 1. apply Qceiling_comp.
  unfold Qeq, Qdiv, Qmult, Qinv, inject_Z; cbn. lia.
Qed.

Lemma P_outer fuel L meta N : (L <= fuel)%nat -> episodic (C:=C) L ->
  forall n fo v (w : World C),
  (n <= fo)%nat -> pending w = None -> e_episode v = N - Z.of_nat n ->
  exists g e new,
    while_ fo (fun v _ => Until (inject_Z N) 1 (e_episode v))
      (Pretrain.eval_episode fuel meta) v w
    = Ok (mkEvalVars (eval_steps (e_step v) new) N
            (eval_reward (e_total_reward v) new))
         (evolve g e new w)
    /\ Forall (eval_event meta) new
    /\ count (is_reset EvalEnv) new = n
    /\ count is_init_meta new = 0%nat
    /\ count (ends_episode EvalEnv) new = n.
Proof.
  intros HL Hepi. induction n as [|n IH]; intros fo v w Hfo Hp Hv.
  - rewrite while_unfold, Until_every_1.
    replace (e_episode v <? N) with false by (symmetry; apply Z.ltb_ge; lia).
    exists (agent w), (eval_env w), [].
    destruct w, v as [vs ve vr]; cbn in *. replace N with ve by lia.
    repeat split; auto.
  - rewrite while_unfold, Until_every_1.
    replace (e_episode v <? N) with true by (symmetry; apply Z.ltb_lt; lia).
    destruct fo as [|fo]; [lia|].
    destruct w as [wd c g te ee rs gs ge cw f tr pd]. cbn in Hp. subst pd.
    unfold Pretrain.eval_episode at 1. run.
    set (ts0 := (env_reset C ee).2). set (e0 := (env_reset C ee).1).
    match goal with |- context [bind (while_ fuel _ _ (_, ?v1)) _ ?w1] =>
      destruct (P_inner meta L fuel ts0 v1 w1)
        as (ts' & g' & e' & new & Heq & Hl' & Hall & Hr & Hi & Hc);
        [ exact HL | reflexivity | exact (Hepi ee) | ]
    end.
    rewrite (bind_ok _ _ _ _ _ Heq). run.
    match goal with |- context [while_ fo _ _ ?v1 ?w1] =>
      destruct (IH fo v1 w1)
        as (g2 & e2 & new2 & Heq2 & Hall2 & Hr2 & Hi2 & Hc2);
        [ lia | reflexivity | cbn; lia | ]
    end.
    rewrite Heq2.
    exists g2, e2, (new2 ++ new ++ [EReset EvalEnv ts0]).
    split.
    { unfold evolve; run. rewrite <- !app_assoc.
      rewrite !eval_steps_app, !eval_reward_app. reflexivity. }
    split. { rewrite !Forall_app. repeat split; auto. repeat constructor. }
    rewrite !count_app, Hr, Hi, Hc, Hr2, Hi2, Hc2. cbn. fold ts0.
    destruct (ts_last ts0); cbn; repeat split; lia.
Qed.

Lemma P_eval_ok fuel L (w : World C) :
  pending w = None -> episodic (C:=C) L -> (L <= fuel)%nat ->
  let N := num_eval_episodes (cfg w) in
  let meta := (init_meta C (agent w)).2 in
  (Z.to_nat N <= fuel)%nat ->
  exists g e new,
    Pretrain.eval fuel w
    = (if N <=? 0 then Raise ZeroDivisionError
                        (evolve g e (new ++ [EInitMeta meta]) w)
       else Ok tt
         (evolve g e
            (ELogEval (global_frame w)
               (eval_reward 0 new / inject_Z N)%Q
               (inject_Z (eval_steps 0 new * action_repeat (cfg w))
                / inject_Z N)%Q
               (global_episode w) (global_step w) None
             :: new ++ [EInitMeta meta]) w))
    /\ Forall (eval_event meta) new
    /\ count (is_reset EvalEnv) new = Z.to_nat N
    /\ count is_init_meta new = 0%nat
    /\ count (ends_episode EvalEnv) new = Z.to_nat N.
Proof.
  intros Hp Hepi HL N meta HN.
  destruct w as [wd c g te ee rs gs ge cw f tr pd]. cbn in Hp. subst pd.
  unfold Pretrain.eval. run. fold meta.
  destruct (Z.le_gt_cases N 0) as [Hle|Hgt].
  - (* no episode runs *)
    erewrite bind_ok; cycle 1.
    { apply while_false. rewrite Until_every_1. apply Z.ltb_ge. exact Hle. }
    run. cbn [Z.eqb]. run.
    exists (init_meta C g).1, ee, [].
    replace (N <=? 0) with true by (symmetry; apply Z.leb_le; exact Hle).
    replace (Z.to_nat N) with 0%nat by lia.
    repeat split; auto.
  - match goal with |- context [bind (while_ fuel _ ?b ?v1) _ ?w1] =>
      destruct (P_outer fuel L meta N HL Hepi (Z.to_nat N) fuel v1 w1)
        as (g2 & e2 & new2 & Heq2 & Hall2 & Hr2 & Hi2 & Hc2);
        [ lia | reflexivity | cbn; lia | ]
    end.
    fold N.
    rewrite (bind_ok _ _ _ _ _ Heq2). run.
    replace (N =? 0) with false by (symmetry; apply Z.eqb_neq; lia).
    replace (N <=? 0) with false by (symmetry; apply Z.leb_gt; lia).
    run.
    exists g2, e2, new2. split; [|auto].
    unfold evolve; run. rewrite <- app_assoc. reflexivity.
Qed.
End EvalFacts.


Section FinetuneEvalFacts.
Context {C : Collab}.

Lemma video_run sv what (w : World C) :
  pending w = None ->
  Finetune.video sv what w = Ok tt (set_trace (videos sv what ++ trace w) w).
Proof.
  intros Hp. destruct w, sv; cbn in *; subst; reflexivity.
Qed.

Lemma videos_eval_event sv what (meta : Meta C) :
  Forall (eval_event meta) (videos sv what).
Proof. destruct sv; repeat constructor. Qed.

Lemma count_videos p sv what :
  (forall s, p (EVideo s) = false) -> count p (videos (C:=C) sv what) = 0%nat.
Proof. intros H. destruct sv; cbn; [rewrite H|]; reflexivity. Qed.

Lemma eval_steps_videos z sv what :
  eval_steps z (videos (C:=C) sv what) = z.
Proof. by destruct sv. Qed.

Lemma eval_reward_videos q sv what :
  eval_reward q (videos (C:=C) sv what) = q.
Proof. by destruct sv. Qed.

Lemma F_inner cf meta L : forall fuel ts v (w : World C),
  (L <= fuel)%nat -> pending w = None ->
  (ts_last ts = true \/ ends_within L (eval_env w)) ->
  exists ts' g e new,
    while_ fuel (fun i _ => negb (ts_last i.1)) (Finetune.eval_step cf meta) (ts, v) w
    = Ok (ts', mkEvalVars (eval_steps (e_step v) new) (e_episode v)
                 (eval_reward (e_total_reward v) new))
         (evolve g e new w)
    /\ ts_last ts' = true
    /\ Forall (eval_event meta) new
    /\ count (is_reset EvalEnv) new = 0%nat
    /\ count is_init_meta new = 0%nat
    /\ count (ends_episode EvalEnv) new = (if ts_last ts then 0 else 1)%nat.
Proof.
  induction L as [|L IH]; intros fuel ts v w Hf Hp Hend.
  - destruct Hend as [Hl | []].
    exists ts, (agent w), (eval_env w), [].
    rewrite while_unfold. cbn [fst]. rewrite Hl. cbn [negb].
    destruct w, v; cbn in *. repeat split; auto.
  - rewrite while_unfold. cbn [fst].
    destruct (ts_last ts) eqn:Hl; cbn [negb].
    + exists ts, (agent w), (eval_env w), [].
      destruct w, v; cbn in *. repeat split; auto.
    + destruct Hend as [Hend|Hend]; [discriminate|].
      destruct fuel as [|fuel]; [lia|].
      destruct w as [wd c g te ee rs gs ge cw f tr pd]. cbn in Hp, Hend. subst pd.
      set (a := (act C g (observation ts) meta gs true).2).
      set (ts1 := (env_step C ee a).2).
      unfold Finetune.eval_step at 1. run. fold a; fold ts1.
      erewrite bind_ok by (apply video_run; reflexivity). run.
      match goal with |- context [while_ fuel _ _ (_, ?v1) ?w1] =>
        destruct (IH fuel ts1 v1 w1)
          as (ts' & g' & e' & new & Heq & Hl' & Hall & Hr & Hi & Hc);
          [ lia | reflexivity
          | cbn [eval_env]; destruct (Hend a) as [H|H]; [left|right]; exact H
          | ]
      end.
      rewrite Heq.
      exists ts', g', e',
        (new ++ videos (save_video cf) "video_recorder.record"
         ++ [EStep EvalEnv a ts1; EAct gs true meta]).
      split.
      { unfold evolve; run. rewrite <- !app_assoc.
        rewrite !eval_steps_app, !eval_reward_app.
        rewrite eval_steps_videos, eval_reward_videos. reflexivity. }
      split; [exact Hl'|].
      split.
      { rewrite !Forall_app. repeat split; auto using videos_eval_event.
        repeat constructor. }
      rewrite !count_app, Hr, Hi, Hc, !count_videos by reflexivity. cbn.
      fold ts1. destruct (ts_last ts1); cbn; auto.
Qed.

Lemma F_outer fuel L cf meta N : (L <= fuel)%nat -> episodic (C:=C) L ->
  forall n fo v (w : World C),
  (n <= fo)%nat -> pending w = None -> e_episode v = N - Z.of_nat n ->
  exists g e new,
    while_ fo (fun v _ => Until (inject_Z N) 1 (e_episode v))
      (Finetune.eval_episode fuel cf meta) v w
    = Ok (mkEvalVars (eval_steps (e_step v) new) N
            (eval_reward (e_total_reward v) new))
         (evolve g e new w)
    /\ Forall (eval_event meta) new
    /\ count (is_reset EvalEnv) new = n
    /\ count is_init_meta new = 0%nat
    /\ count (ends_episode EvalEnv) new = n.
Proof.
  intros HL Hepi. induction n as [|n IH]; intros fo v w Hfo Hp Hv.
  - rewrite while_unfold, Until_every_1.
    replace (e_episode v <? N) with false by (symmetry; apply Z.ltb_ge; lia).
    exists (agent w), (eval_env w), [].
    destruct w, v as [vs ve vr]; cbn in *. replace N with ve by lia.
    repeat split; auto.
  - rewrite while_unfold, Until_every_1.
    replace (e_episode v <? N) with true by (symmetry; apply Z.ltb_lt; lia).
    destruct fo as [|fo]; [lia|].
    destruct w as [wd c g te ee rs gs ge cw f tr pd]. cbn in Hp. subst pd.
    set (ts0 := (env_reset C ee).2).
    unfold Finetune.eval_episode at 1. run. fold ts0.
    erewrite bind_ok by (apply video_run; reflexivity). run.
    match goal with |- context [bind (while_ fuel _ _ (_, ?v1)) _ ?w1] =>
      destruct (F_inner cf meta L fuel ts0 v1 w1)
        as (ts' & g' & e' & new & Heq & Hl' & Hall & Hr & Hi & Hc);
        [ exact HL | reflexivity | exact (Hepi ee) | ]
    end.
    rewrite (bind_ok _ _ _ _ _ Heq). run.
    erewrite bind_ok by (apply video_run; reflexivity). run.
    match goal with |- context [while_ fo _ _ ?v1 ?w1] =>
      destruct (IH fo v1 w1)
        as (g2 & e2 & new2 & Heq2 & Hall2 & Hr2 & Hi2 & Hc2);
        [ lia | reflexivity | cbn; lia | ]
    end.
    rewrite Heq2.
    exists g2, e2,
      (new2 ++ videos (save_video cf) "video_recorder.save" ++ new
       ++ videos (save_video cf) "video_recorder.init" ++ [EReset EvalEnv ts0]).
    split.
    { unfold evolve; run. rewrite <- !app_assoc.
      rewrite !eval_steps_app, !eval_reward_app.
      rewrite !eval_steps_videos, !eval_reward_videos. reflexivity. }
    split.
    { rewrite !Forall_app. repeat split; auto using videos_eval_event.
      repeat constructor. }
    rewrite !count_app, Hr, Hi, Hc, Hr2, Hi2, Hc2, !count_videos
      by reflexivity.
    cbn. fold ts0. destruct (ts_last ts0); cbn; repeat split; lia.
Qed.

Lemma F_eval_ok fuel L (w : World C) :
  pending w = None -> episodic (C:=C) L -> (L <= fuel)%nat ->
  let N := num_eval_episodes (cfg w) in
  let meta := (init_meta C (agent w)).2 in
  (Z.to_nat N <= fuel)%nat ->
  exists g e new,
    Finetune.eval fuel w
    = (if N <=? 0 then Raise ZeroDivisionError
                        (evolve g e (new ++ [EInitMeta meta]) w)
       else Ok tt
         (evolve g e
            (ELogEval (global_frame w)
               (eval_reward 0 new / inject_Z N)%Q
               (inject_Z (eval_steps 0 new * action_repeat (cfg w))
                / inject_Z N)%Q
               (global_episode w) (global_step w) (meta_skill C meta)
             :: new ++ [EInitMeta meta]) w))
    /\ Forall (eval_event meta) new
    /\ count (is_reset EvalEnv) new = Z.to_nat N
    /\ count is_init_meta new = 0%nat
    /\ count (ends_episode EvalEnv) new = Z.to_nat N.
Proof.
  intros Hp Hepi HL N meta HN.
  destruct w as [wd c g te ee rs gs ge cw f tr pd]. cbn in Hp. subst pd.
  unfold Finetune.eval. run. fold meta.
  destruct (Z.le_gt_cases N 0) as [Hle|Hgt].
  - (* no episode runs *)
    erewrite bind_ok; cycle 1.
    { apply while_false. rewrite Until_every_1. apply Z.ltb_ge. exact Hle. }
    run. cbn [Z.eqb]. run.
    exists (init_meta C g).1, ee, [].
    replace (N <=? 0) with true by (symmetry; apply Z.leb_le; exact Hle).
    replace (Z.to_nat N) with 0%nat by lia.
    repeat split; auto.
  - match goal with |- context [bind (while_ fuel _ ?b ?v1) _ ?w1] =>
      destruct (F_outer fuel L c meta N HL Hepi (Z.to_nat N)
                  fuel v1 w1)
        as (g2 & e2 & new2 & Heq2 & Hall2 & Hr2 & Hi2 & Hc2);
        [ lia | reflexivity | cbn; lia | ]
    end.
    fold N.
    rewrite (bind_ok _ _ _ _ _ Heq2). run.
    replace (N =? 0) with false by (symmetry; apply Z.eqb_neq; lia).
    replace (N <=? 0) with false by (symmetry; apply Z.leb_gt; lia).
    run.
    exists g2, e2, new2. split; [|auto].
    unfold evolve; run. rewrite <- app_assoc. reflexivity.
Qed.
End FinetuneEvalFacts.


Section SnapshotFacts.
Context {C : Collab}.

Lemma dict_agent (w : World C) : __dict__ w !! "agent" = Some (VAgent (agent w)).
Proof. reflexivity. Qed.
Lemma dict_global_step (w : World C) :
  __dict__ w !! "_global_step" = Some (VInt (_global_step w)).
Proof. reflexivity. Qed.
Lemma dict_global_episode (w : World C) :
  __dict__ w !! "_global_episode" = Some (VInt (_global_episode w)).
Proof. reflexivity. Qed.

Lemma payload_of_keys (w w1 : World C) :
  dict_of_keys (__dict__ w) ["agent"; "_global_step"; "_global_episode"] ∅ w1
  = Ok (saved w) w1.
Proof.
  cbn [dict_of_keys]. unfold getitem.
  rewrite dict_agent. run.
  rewrite dict_global_step. run.
  rewrite dict_global_episode. run. reflexivity.
Qed.


Lemma save_snapshot_ok (w : World C) :
  pending w = None ->
  Pretrain.save_snapshot w = Ok tt (after_save w).
Proof.
  intros Hp. destruct w as [wd c g te ee rs gs ge cw f tr pd]. cbn in Hp. subst pd.
  unfold Pretrain.save_snapshot. run.
  erewrite bind_ok by apply payload_of_keys.
  run. reflexivity.
Qed.
End SnapshotFacts.


Section LoadFacts.
Context {C : Collab}.


Lemma Finetune_load_found (w : World C) domain rest payload :
  pending w = None ->
  split1 "_" (task (cfg w)) = [domain; rest] ->
  files (fs w) !! render (pretrained_path (cfg w) domain) = Some payload ->
  Finetune.load_snapshot w
  = Ok payload
      (set_trace
         (ETorchLoad (render (pretrained_path (cfg w) domain))
          :: ELogging "info"
               ("loading model :" +:+ render (pretrained_path (cfg w) domain))
          :: trace w) w).
Proof.
  intros Hp Hs Hf.
  destruct w as [wd c g te ee rs gs ge cw f tr pd]. cbn in Hp, Hs, Hf. subst pd.
  unfold Finetune.load_snapshot. run. rewrite Hs.
  fold (pretrained_path c domain). run.
  unfold path_exists. rewrite Hf. cbn [negb]. unfold torch_load. run.
  rewrite Hf. run. reflexivity.
Qed.

Lemma Finetune_load_missing (w : World C) domain rest :
  pending w = None ->
  split1 "_" (task (cfg w)) = [domain; rest] ->
  path_exists (fs w) (render (pretrained_path (cfg w) domain)) = false ->
  Finetune.load_snapshot w
  = Raise AssertionError
      (set_trace
         (ELogging "error" "no such a pretrain model"
          :: ELogging "info"
               ("loading model :" +:+ render (pretrained_path (cfg w) domain))
          :: trace w) w).
Proof.
  intros Hp Hs Hf.
  destruct w as [wd c g te ee rs gs ge cw f tr pd]. cbn in Hp, Hs, Hf. subst pd.
  unfold Finetune.load_snapshot. run. rewrite Hs.
  fold (pretrained_path c domain). run.
  rewrite Hf. cbn [negb]. run. reflexivity.
Qed.

Lemma Finetune_init_ok (c : Cfg) (w : World C) domain rest payload other :
  pending w = None ->
  0 < snapshot_ts c ->
  action_repeat c <> 0 ->
  split1 "_" (task c) = [domain; rest] ->
  files (fs w) !! render (pretrained_path c domain) = Some payload ->
  payload !! "agent" = Some (VAgent other) ->
  exists w',
    Finetune.__init__ c w = Ok tt w'
    /\ _global_step w' = 0 /\ _global_episode w' = 0
    /\ agent w'
       = init_from C
           (make_agent C
              (Qfloor (num_seed_frames c / inject_Z (action_repeat c))))
           other
    /\ cfg w' = c /\ fs w' = fs w.
Proof.
  intros Hp Hts Har Hs Hf Ha.
  destruct w as [wd c0 g te ee rs gs ge cw f tr pd]. cbn in Hp, Hf. subst pd.
  unfold Finetune.__init__. run.
  replace (action_repeat c =? 0) with false by (symmetry; by apply Z.eqb_neq).
  replace (0 <? snapshot_ts c) with true by (symmetry; by apply Z.ltb_lt).
  run.
  erewrite bind_ok; cycle 1.
  { eapply Finetune_load_found; [reflexivity|exact Hs|exact Hf]. }
  unfold getitem. rewrite Ha. run.
  eexists. split; [reflexivity|]. repeat split.
Qed.
End LoadFacts.


Section TickFacts.
Context {C : Collab}.

Lemma eval_events_quiet (m : Meta C) (l : list (Event C)) :
  Forall (eval_event m) l ->
  count is_update l = 0%nat /\ count (is_step TrainEnv) l = 0%nat
  /\ count (is_reset TrainEnv) l = 0%nat /\ count is_save l = 0%nat.
Proof.
  induction 1 as [|ev l Hev _ IH]; [by repeat split|].
  destruct IH as (I1 & I2 & I3 & I4).
  destruct ev; cbn in Hev |- *; try contradiction;
    try (subst; cbn); rewrite ?I1, ?I2, ?I3, ?I4; by repeat split.
Qed.

Lemma train_tick_ok fuel L su ee (v : TrainVars C) (w : World C) :
  pending w = None -> episodic (C:=C) L -> (L <= fuel)%nat ->
  (Z.to_nat (num_eval_episodes (cfg w)) <= fuel)%nat ->
  (ee (_global_step w) = true -> 1 <= num_eval_episodes (cfg w)) ->
  exists v' w',
    Pretrain.train_tick fuel su ee v w = Ok v' w' /\ tick_post su v w v' w'.
Proof.
  intros Hp Hepi HL HN Hpos.
  destruct w as [wd c g te een rs gs ge cw f tr pd]. cbn in Hp, HN, Hpos. subst pd.
  destruct v as [ts m mt es er].
  unfold Pretrain.train_tick, tick_post. run.
  destruct (ts_last ts) eqn:Hlast; [destruct mt|]; run;
  (match goal with
   | |- context [if existsb ?p ?l then _ else _] => destruct (existsb p l)
   end);
  try (match goal with
       | |- context [bind Pretrain.save_snapshot _ ?w1] =>
           let Hs := fresh "Hs" in
           pose proof (save_snapshot_ok w1 eq_refl) as Hs;
           unfold after_save in Hs; wnorm_in Hs;
           rewrite (bind_ok _ _ _ _ _ Hs); clear Hs
       end);
  run;
  (destruct (ee gs) eqn:Hee;
   [ specialize (Hpos eq_refl); run;
     match goal with
     | |- context [bind (Pretrain.eval fuel) _ ?w1] =>
         destruct (P_eval_ok fuel L w1 eq_refl Hepi HL HN)
           as (g_e & e_e & new_e & Heq_e & Hall_e & _);
         cbn [cfg] in Heq_e;
         replace (num_eval_episodes c <=? 0) with false in Heq_e
           by (symmetry; apply Z.leb_gt; lia);
         wnorm_in Heq_e;
         rewrite (bind_ok _ _ _ _ _ Heq_e);
         apply eval_events_quiet in Hall_e;
         destruct Hall_e as (Hq1 & Hq2 & _)
     end
   | ]);
  run;
  destruct (su gs); run; destruct (use_wandb c); run.
  all: eexists _, _; split; [reflexivity|]; cbn [time_step meta].
  all: repeat (split; [first [reflexivity | lia]|]).
  all: eexists _, _; split; [reflexivity|]; split; [reflexivity|].
  all: cbn [app]; split; [reflexivity|].
  all: split;
    [ repeat first [ apply suffix_cons_r | apply suffix_app_r | reflexivity ]
    | cbn [count is_update is_step]; rewrite ?count_app, ?Hq1, ?Hq2;
      cbn [count is_update is_step EnvId_eqb]; split; lia ].
Qed.
End TickFacts.


Section TrainLoopFacts.
Context {C : Collab}.

Lemma Until_every_1_Q (T : Q) (n k : Z) :
  (T == inject_Z n)%Q -> Until T 1 k = (k <? n).
Proof.
  intros HT. unfold Until. rewrite Z.div_1_r.
  replace (Qceiling (T / inject_Z 1)) with n; [reflexivity|].
  rewrite <- (Qceiling_Z n) at 1. apply Qceiling_comp.
  rewrite HT. unfold Qeq, Qdiv, Qmult, Qinv, inject_Z; cbn. lia.
Qed.

Lemma last_every_third_episodic phase :
  last_every_third (C:=C) phase -> episodic (C:=C) 3.
Proof.
  intros (Hlt & Hr & Hs) e. right.
  assert (Hnext : forall e a,
    ts_last (env_step C e a).2 = true
    \/ phase (env_step C e a).1 = S (phase e) /\ (S (phase e) < 3)%nat).
  { intros e0 a. destruct (Hs e0 a) as [Hp Hl]. specialize (Hlt e0).
    rewrite Hl, Hp.
    destruct (phase e0) as [|[|[|p]]]; cbn; auto; lia. }
  cbn [ends_within]. intros a1.
  destruct (Hnext (env_reset C e).1 a1) as [H|[H1 B1]]; [by left|right].
  intros a2.
  destruct (Hnext (env_step C (env_reset C e).1 a1).1 a2) as [H|[H2 B2]];
    [by left|right].
  intros a3.
  destruct (Hnext (env_step C (env_step C (env_reset C e).1 a1).1 a2).1 a3)
    as [H|[H3 B3]]; [by left|].
  exfalso. lia.
Qed.
End TrainLoopFacts.


Section TrainLoop.
Context {C : Collab}.

Lemma train_loop fuel phase c0 ge0 u0 s0 su ee tu T :
  last_every_third (C:=C) phase -> (3 <= fuel)%nat ->
  (Z.to_nat (num_eval_episodes c0) <= fuel)%nat ->
  1 <= num_eval_episodes c0 ->
  (forall k, tu k = (k <? T)) -> (forall k, 0 <= k -> su k = false) ->
  forall n fo v (w : World C),
  (n <= fo)%nat -> 0 <= T - Z.of_nat n ->
  loop_inv c0 phase ge0 u0 s0 (T - Z.of_nat n) v w ->
  exists v' w',
    while_ fo (fun _ w => tu (global_step w))
      (Pretrain.train_tick fuel su ee) v w = Ok v' w'
    /\ loop_inv c0 phase ge0 u0 s0 T v' w'.
Proof.
  intros Hph HL HN Hpos Htu Hsu.
  pose proof (last_every_third_episodic phase Hph) as Hepi.
  destruct Hph as (Hlt & Hr & Hs).
  induction n as [|n IH]; intros fo v w Hfo Hk Hinv.
  - exists v, w. replace (T - Z.of_nat 0) with T in Hinv by lia.
    split; [|exact Hinv].
    destruct Hinv as (_ & _ & Hgs & _).
    rewrite while_unfold. unfold global_step. rewrite Htu, Hgs.
    by rewrite Z.ltb_irrefl.
  - remember (T - Z.of_nat (S n)) as k eqn:Hkdef.
    destruct Hinv as (Hp & Hc & Hgs & Hphase & Hlast & Hge & Hu & Hst).
    rewrite while_unfold. unfold global_step at 1. rewrite Htu, Hgs.
    replace (k <? T) with true by (symmetry; apply Z.ltb_lt; lia).
    destruct fo as [|fo]; [lia|].
    destruct (train_tick_ok fuel 3 su ee v w Hp Hepi HL) as (v1 & w1 & Heq & Hpost).
    { by rewrite Hc. }
    { intros _. by rewrite Hc. }
    rewrite (bind_ok _ _ _ _ _ Heq).
    apply (IH fo v1 w1); [lia|lia|].
    replace (T - Z.of_nat n) with (k + 1) by lia.
    destruct Hpost as (Hp1 & Hc1 & _ & Hgs1 & Hge1 & a & rest & Hte & Hts & Htr
                       & _ & Hur & Hsr).
    rewrite Hgs, Hsu in Htr by lia. rewrite Hgs in Hgs1.
    assert (Hk3 : 0 <= k mod 3 < 3) by (apply Z.mod_pos_bound; lia).
    assert (Hph1 : phase (train_env w1) = Z.to_nat ((k + 1) mod 3)).
    { rewrite Hte. destruct (Hs (if ts_last (time_step v)
                                  then (env_reset C (train_env w)).1
                                  else train_env w) a) as [-> _].
      replace (phase _) with (Z.to_nat (k mod 3)).
      2:{ destruct (ts_last (time_step v)); [|by rewrite Hphase].
          destruct (Hr (train_env w)) as [-> _]. by rewrite Hphase. }
      rewrite <- Z2Nat.inj_succ by lia.
      replace 3%nat with (Z.to_nat 3) by reflexivity.
      rewrite <- Z2Nat.inj_mod by lia. f_equal.
      rewrite <- Z.add_1_r. rewrite Z.add_mod_idemp_l by lia. reflexivity. }
    repeat split; auto.
    + rewrite Hc1. exact Hc.
    + rewrite Hts.
      destruct (Hs (if ts_last (time_step v)
                    then (env_reset C (train_env w)).1
                    else train_env w) a) as [_ ->].
      rewrite <- Hte, Hph1.
      replace (0 <? k + 1) with true by (symmetry; apply Z.ltb_lt; lia).
      cbn [andb].
      assert (0 <= (k + 1) mod 3 < 3) by (apply Z.mod_pos_bound; lia).
      destruct (Z.eqb_spec ((k + 1) mod 3) 0) as [->|Hne]; [reflexivity|].
      apply Nat.eqb_neq. lia.
    + rewrite Hge1, Hge, Hlast.
      replace (k + 1 =? 0) with false by (symmetry; apply Z.eqb_neq; lia).
      replace (k + 1 - 1) with k by lia.
      destruct (Z.eqb_spec k 0), (Z.ltb_spec 0 k),
        (Z.eqb_spec (k mod 3) 0); cbn [andb];
        Z.div_mod_to_equations; lia.
    + rewrite Htr. cbn [app count is_update]. 
      destruct (use_wandb (cfg w)); cbn [app count is_update];
        rewrite Hur, Hu; lia.
    + rewrite Htr. cbn [app count is_step].
      destruct (use_wandb (cfg w)); cbn [app count is_step EnvId_eqb];
        rewrite Hsr, Hst; lia.
Qed.
End TrainLoop.


Section MainFacts.
Context {C : Collab}.

Lemma Pretrain_train_interrupt fuel :
  keeps (fun _ : World C => tt) (fun _ => True) interrupt_delivered
    (Pretrain.train fuel).
Proof.
  unfold Pretrain.train. keeps_tac;
    try reflexivity; try exact I; try (intros ?; discriminate); try done.
Qed.

Lemma Finetune_main_writes_nothing fuel c :
  keeps (C:=C) fs not_a_save (fun _ _ => True) (Finetune.main fuel c).
Proof.
  unfold Finetune.main. keeps_tac;
    try reflexivity; try exact I; try (intros ?; discriminate); try done.
Qed.
End MainFacts.


(* ===================================================================== *)
(** ** Evaluation *)

Section EvaluationClaims.
Context {C : Collab}.

(** C5.  A call of [Workspace.eval] leaves [_global_step] and
    [_global_episode] exactly as they were and never resets or steps the
    training environment: whatever the outcome of the call (normal return,
    exception, or a run cut short), the two counters and the state of
    [train_env] are unchanged and none of the calls it made was on
    [train_env].  The same holds for the fine-tuning [eval]. *)
Theorem eval_keeps_training_counters (fuel : nat) (w : World C) :
  (let w' := world_of (Pretrain.eval fuel w) in
   _global_step w' = _global_step w
   /\ _global_episode w' = _global_episode w
   /\ train_env w' = train_env w
   /\ exists new, trace w' = new ++ trace w /\ Forall off_train_env new)
  /\ (let w' := world_of (Finetune.eval fuel w) in
      _global_step w' = _global_step w
      /\ _global_episode w' = _global_episode w
      /\ train_env w' = train_env w
      /\ exists new, trace w' = new ++ trace w /\ Forall off_train_env new).
Proof.
  split; cbv zeta.
  - destruct (Pretrain_eval_keeps fuel w) as [[Hproj Hnew] _].
    unfold counters_and_train_env in Hproj. injection Hproj as H1 H2 H3.
    auto.
  - destruct (Finetune_eval_keeps fuel w) as [[Hproj Hnew] _].
    unfold counters_and_train_env in Hproj. injection Hproj as H1 H2 H3.
    auto.
Qed.

(** C4 (amended).  [Workspace.eval] runs exactly [num_eval_episodes]
    complete episodes (none when the number is not positive, and then the
    division by the episode count raises [ZeroDivisionError]) in greedy
    mode: [N] resets of the evaluation environment, [N] LAST time steps, and
    every action selected with [eval_mode=True].  [agent.init_meta] is
    called exactly once per call of [eval], before the first episode, and
    that one Meta is handed to every [act] of every episode.  The step
    count and the reward total accumulate across all the episodes and are
    logged divided by [N].  Pretraining and fine-tuning [eval] alike. *)
Theorem eval_runs_episodes_with_one_meta (fuel L : nat) (w : World C) :
  pending w = None -> episodic (C:=C) L -> (L <= fuel)%nat ->
  (Z.to_nat (num_eval_episodes (cfg w)) <= fuel)%nat ->
  let N := num_eval_episodes (cfg w) in
  let meta := (init_meta C (agent w)).2 in
  (exists g e new,
     Pretrain.eval fuel w
     = (if N <=? 0 then
          Raise ZeroDivisionError (evolve g e (new ++ [EInitMeta meta]) w)
        else
          Ok tt
            (evolve g e
               (ELogEval (global_frame w)
                  (eval_reward 0 new / inject_Z N)%Q
                  (inject_Z (eval_steps 0 new * action_repeat (cfg w))
                   / inject_Z N)%Q
                  (global_episode w) (global_step w) None
                :: new ++ [EInitMeta meta]) w))
     /\ Forall (eval_event meta) new
     /\ count (is_reset EvalEnv) new = Z.to_nat N
     /\ count is_init_meta (new ++ [EInitMeta meta]) = 1%nat
     /\ count (ends_episode EvalEnv) new = Z.to_nat N)
  /\ (exists g e new,
        Finetune.eval fuel w
        = (if N <=? 0 then
             Raise ZeroDivisionError (evolve g e (new ++ [EInitMeta meta]) w)
           else
             Ok tt
               (evolve g e
                  (ELogEval (global_frame w)
                     (eval_reward 0 new / inject_Z N)%Q
                     (inject_Z (eval_steps 0 new * action_repeat (cfg w))
                      / inject_Z N)%Q
                     (global_episode w) (global_step w) (meta_skill C meta)
                   :: new ++ [EInitMeta meta]) w))
        /\ Forall (eval_event meta) new
        /\ count (is_reset EvalEnv) new = Z.to_nat N
        /\ count is_init_meta (new ++ [EInitMeta meta]) = 1%nat
        /\ count (ends_episode EvalEnv) new = Z.to_nat N).
Proof.
  intros Hp Hepi HL HN N meta. split.
  - destruct (P_eval_ok fuel L w Hp Hepi HL HN)
      as (g & e & new & Heq & Hall & Hr & Hi & Hc).
    exists g, e, new. rewrite count_app, Hi. auto.
  - destruct (F_eval_ok fuel L w Hp Hepi HL HN)
      as (g & e & new & Heq & Hall & Hr & Hi & Hc).
    exists g, e, new. rewrite count_app, Hi. auto.
Qed.

End EvaluationClaims.


(* ===================================================================== *)
(** ** Checkpoints *)

Section CheckpointClaims.
Context {C : Collab}.






Lemma fs_after_save (w : World C) :
  fs (after_save w)
  = write_file (render (snapshot_path w)) (saved w)
      (mkdir_p (path_join (work_dir w) (snapshot_dir (cfg w))) (fs w)).
Proof. reflexivity. Qed.




End CheckpointClaims.


(* ===================================================================== *)
(** ** Fine-tuning from a pretrained checkpoint *)

Section FinetuneClaims.
Context {C : Collab}.

(** C8.  In the fine-tuning [load_snapshot], with the task name of the form
    [<domain>_<rest>]: when nothing exists at the path resolved from the
    observation type, the domain, the agent name, the seed and
    [snapshot_ts], the call logs the error and fails with
    [AssertionError], without trying any other file; when the file
    exists, the call returns its payload. *)
Theorem finetune_load_snapshot_asserts_file (w : World C)
    (domain rest : string) :
  pending w = None ->
  split1 "_" (task (cfg w)) = [domain; rest] ->
  let file := render (pretrained_path (cfg w) domain) in
  (path_exists (fs w) file = false ->
   Finetune.load_snapshot w
   = Raise AssertionError
       (set_trace
          (ELogging "error" "no such a pretrain model"
           :: ELogging "info" ("loading model :" +:+ file) :: trace w) w))
  /\ (forall payload,
        files (fs w) !! file = Some payload ->
        Finetune.load_snapshot w
        = Ok payload
            (set_trace
               (ETorchLoad file
                :: ELogging "info" ("loading model :" +:+ file) :: trace w)
               w)).
Proof.
  intros Hp Hs file. split.
  - intros Hf. by eapply Finetune_load_missing.
  - intros payload Hf. by eapply Finetune_load_found.
Qed.

(** C6.  The fine-tuning [load_snapshot] changes neither the counters nor
    the agent, however it ends; and [Workspace.__init__] with
    [snapshot_ts > 0] takes from the payload only the agent, handed to
    [init_from], and leaves [_global_step] and [_global_episode] at 0
    whatever counters the payload stores. *)
Theorem finetune_init_starts_counters_at_zero (c : Cfg) (w : World C)
    (domain rest : string) (payload : gmap string (PyVal C))
    (other : AgentSt C) :
  (forall w0 : World C,
     let w' := world_of (Finetune.load_snapshot w0) in
     _global_step w' = _global_step w0
     /\ _global_episode w' = _global_episode w0
     /\ agent w' = agent w0)
  /\ (pending w = None ->
      0 < snapshot_ts c ->
      action_repeat c <> 0 ->
      split1 "_" (task c) = [domain; rest] ->
      files (fs w) !! render (pretrained_path c domain) = Some payload ->
      payload !! "agent" = Some (VAgent other) ->
      exists w',
        Finetune.__init__ c w = Ok tt w'
        /\ _global_step w' = 0 /\ _global_episode w' = 0
        /\ agent w'
           = init_from C
               (make_agent C
                  (Qfloor (num_seed_frames c / inject_Z (action_repeat c))))
               other
        /\ cfg w' = c /\ fs w' = fs w).
Proof.
  split.
  - intros w0.
    assert (H : keeps (C:=C)
                  (fun w => (_global_step w, _global_episode w, agent w))
                  (fun _ => True) (fun _ _ => True) Finetune.load_snapshot).
    { unfold Finetune.load_snapshot. keeps_tac;
        try reflexivity; try exact I; try done. }
    destruct (H w0) as [[Hproj _] _]. injection Hproj as H1 H2 H3. auto.
  - intros. by eapply Finetune_init_ok.
Qed.

End FinetuneClaims.


(* ===================================================================== *)
(** ** Interruption *)

Section InterruptClaims.
Context {C : Collab}.

Lemma try_except_caught {A} (m h : M C A) e w w' :
  m w = Raise e w' -> try_except m e h w = h w'.
Proof.
  unfold try_except. intros ->.
  rewrite bool_decide_eq_true_2 by reflexivity. reflexivity.
Qed.

Lemma count_none p (l : list (Event C)) :
  Forall (fun ev => p ev = false) l -> count p l = 0%nat.
Proof. induction 1 as [|ev l Hev _ IH]; cbn; [done|]. by rewrite Hev, IH. Qed.

(** C7.  When [Workspace.train] of the pretraining entry point raises
    [KeyboardInterrupt], [main] catches it in its one handler, which prints,
    performs exactly one [save_snapshot] of the counters and agent as they
    are at that moment, and exits the process.  The fine-tuning [main] has
    no handler: the interrupt propagates out of it, and fine-tuning writes
    no checkpoint at all. *)
Theorem interrupt_saves_once_then_exits (fuel : nat) (c : Cfg) (rnd : Z)
    (w w1 w2 : World C) :
  (Pretrain.main_startup c rnd w = Ok tt w1 ->
   Pretrain.train fuel w1 = Raise KeyboardInterrupt w2 ->
   let w3 := after_save (set_trace (EPrint "interrupted" :: trace w2) w2) in
   Pretrain.main fuel c rnd w = Raise SystemExit w3
   /\ count is_save (trace w3) = S (count is_save (trace w2))
   /\ files (fs w3)
      = <[render (snapshot_path w2) := saved w2]> (files (fs w2)))
  /\ (Finetune.main_startup c w = Ok tt w1 ->
      Finetune.train fuel w1 = Raise KeyboardInterrupt w2 ->
      Finetune.main fuel c w = Raise KeyboardInterrupt w2
      /\ fs w2 = fs w
      /\ count is_save (trace w2) = count is_save (trace w)).
Proof.
  split.
  - intros Hstart Htrain w3.
    assert (Hp2 : pending w2 = None).
    { destruct (Pretrain_train_interrupt (C:=C) fuel w1) as [_ HE].
      rewrite Htrain in HE. by apply HE. }
    split.
    + unfold Pretrain.main. rewrite (bind_ok _ _ _ _ _ Hstart).
      rewrite (try_except_caught _ _ _ _ _ Htrain).
      destruct w2 as [wd c2 g te ee rs gs ge cw f tr pd]. cbn in Hp2. subst pd.
      run.
      match goal with |- context [bind Pretrain.save_snapshot _ ?wx] =>
        pose proof (save_snapshot_ok wx eq_refl) as Hs
      end.
      rewrite (bind_ok _ _ _ _ _ Hs). reflexivity.
    + destruct w2; unfold w3, after_save; cbn. split; reflexivity.
  - intros Hstart Htrain.
    assert (Hmain : Finetune.main fuel c w = Raise KeyboardInterrupt w2).
    { unfold Finetune.main. rewrite (bind_ok _ _ _ _ _ Hstart). exact Htrain. }
    split; [exact Hmain|].
    destruct (Finetune_main_writes_nothing (C:=C) fuel c w)
      as [[Hfs (new & Htr & Hnew)] _].
    rewrite Hmain in Hfs, Htr. cbn [world_of] in Hfs, Htr.
    split; [exact Hfs|].
    rewrite Htr, count_app, (count_none _ _ Hnew). reflexivity.
Qed.

End InterruptClaims.


(* ===================================================================== *)
(** ** The training loop *)

Section TrainingClaims.
Context {C : Collab}.



(** C1 (amended).  A pretraining run without warm-up
    ([num_seed_frames = 0]), with [action_repeat = 1] and a budget of nine
    frames, against an environment that returns LAST on every third step
    call: [train] returns after exactly nine steps of the training
    environment, with [global_step] increased to 9, [agent.update] invoked
    exactly nine times, and [global_episode] increased by 2.  The LAST
    returned by the ninth step is not counted: the episode counter moves
    at the start of the iteration that follows a LAST, and no iteration
    follows the ninth. *)
Theorem train_nine_steps_counts (fuel : nat) (phase : EnvSt C -> nat)
    (w : World C) :
  last_every_third (C:=C) phase ->
  phase (train_env w) = 0%nat ->
  pending w = None ->
  _global_step w = 0 ->
  (num_seed_frames (cfg w) == 0)%Q ->
  action_repeat (cfg w) = 1 ->
  (num_train_frames (cfg w) == 9)%Q ->
  1 <= num_eval_episodes (cfg w) ->
  (9 <= fuel)%nat ->
  (Z.to_nat (num_eval_episodes (cfg w)) <= fuel)%nat ->
  exists w',
    Pretrain.train fuel w = Ok tt w'
    /\ global_step w' = 9
    /\ global_episode w' = global_episode w + 2
    /\ count is_update (trace w') = (count is_update (trace w) + 9)%nat
    /\ count (is_step TrainEnv) (trace w')
       = (count (is_step TrainEnv) (trace w) + 9)%nat.
Proof.
  intros Hph Hph0 Hp Hgs Hseed Har HT Hpos Hfuel HN.
  pose proof Hph as (Hlt & Hr & Hs).
  destruct w as [wd c g te een rs gs ge cw f tr pd].
  cbn in Hph0, Hp, Hgs, Hseed, Har, HT, Hpos, HN. subst pd gs.
  unfold Pretrain.train. run.
  match goal with
  | |- context [bind (while_ fuel ?cond (Pretrain.train_tick fuel ?su ?ee) ?v0)
                  _ ?w1] =>
      destruct (train_loop fuel phase c ge (count is_update tr)
                  (count (is_step TrainEnv) tr) su ee
                  (Until (num_train_frames c) (action_repeat c)) 9
                  Hph ltac:(lia) HN Hpos) with (n := 9%nat) (fo := fuel)
                  (v := v0) (w := w1)
        as (v' & w' & Heq & Hinv)
  end.
  - intros k. rewrite Har. apply Until_every_1_Q. exact HT.
  - intros k Hk. rewrite Har, (Until_every_1_Q _ 0 k Hseed).
    apply Z.ltb_ge. exact Hk.
  - exact Hfuel.
  - lia.
  - change (9 - Z.of_nat 9) with 0. unfold loop_inv. cbn.
    destruct (Hr te) as [-> ->]. rewrite Hph0.
    repeat split; try reflexivity; lia.
  - rewrite (bind_ok _ _ _ _ _ Heq).
    destruct Hinv as (Hp' & Hc' & Hgs' & _ & _ & Hge' & Hu' & Hs').
    rewrite (save_snapshot_ok w' Hp').
    exists (after_save w'). split; [reflexivity|].
    destruct w'; unfold after_save, global_step, global_episode; cbn in *.
    subst. repeat split; try reflexivity; lia.
Qed.

End TrainingClaims.


(* ===================================================================== *)
(** ** The statements at concrete inputs *)

Lemma cyc3_last_every_third :
  last_every_third (C:=cyc3) (fun n => (n mod 3)%nat).
Proof.
  split; [|split].
  - intros e. apply Nat.mod_upper_bound. discriminate.
  - intros e. split; reflexivity.
  - intros e a. cbn [env_step cyc3 fst snd ts_last step_type].
    split.
    + rewrite <- (Nat.add_1_r e), <- (Nat.add_1_r (e mod 3)).
      symmetry. apply Nat.Div0.add_mod_idemp_l.
    + destruct (S e mod 3 =? 0)%nat; reflexivity.
Qed.

Lemma cyc3_episodic : episodic (C:=cyc3) 3.
Proof. exact (last_every_third_episodic _ cyc3_last_every_third). Qed.

(** C1 at the fresh workspace [w0]: nine frames, no warm-up. *)
Lemma train_nine_steps_counts_witness :
  exists w',
    Pretrain.train 9 w0 = Ok tt w'
    /\ global_step w' = 9
    /\ global_episode w' = global_episode w0 + 2
    /\ count is_update (trace w') = (count is_update (trace w0) + 9)%nat
    /\ count (is_step TrainEnv) (trace w')
       = (count (is_step TrainEnv) (trace w0) + 9)%nat.
Proof.
  apply (train_nine_steps_counts (C:=cyc3) 9 (fun n => (n mod 3)%nat) w0).
  - exact cyc3_last_every_third.
  - reflexivity.
  - reflexivity.
  - reflexivity.
  - reflexivity.
  - reflexivity.
  - reflexivity.
  - vm_compute. discriminate.
  - lia.
  - vm_compute. lia.
Defined.

(** C1, as stated, fails: after the nine steps of that run the episode
    counter is 2, not 3. *)
Lemma train_nine_steps_two_episodes :
  let w' := world_of (Pretrain.train 9 w0) in
  count (is_step TrainEnv) (trace w') = 9%nat
  /\ global_step w' = 9
  /\ count is_update (trace w') = 9%nat
  /\ global_episode w' = 2
  /\ global_episode w' <> 3.
Proof. vm_compute. repeat split; discriminate. Qed.




(** C4 at [w0]: two evaluation episodes. *)
Lemma eval_runs_episodes_with_one_meta_witness :
  exists new : list (Event cyc3),
    count is_init_meta (new ++ [@EInitMeta cyc3 0]) = 1%nat
    /\ count (is_reset EvalEnv) new = 2%nat
    /\ count (ends_episode EvalEnv) new = 2%nat.
Proof.
  destruct (eval_runs_episodes_with_one_meta (C:=cyc3) 3 3 w0)
    as [(g & e & new & _ & _ & Hr & Hi & Hc) _].
  - reflexivity.
  - exact cyc3_episodic.
  - lia.
  - vm_compute. lia.
  - exists new. repeat split; assumption.
Defined.

(** C4, as stated, fails: two evaluation episodes run at [w0], and
    [init_meta] is called once, not once per episode. *)
Lemma eval_one_meta_for_two_episodes :
  let w' := world_of (Pretrain.eval 3 w0) in
  count (is_reset EvalEnv) (trace w') = 2%nat
  /\ count (ends_episode EvalEnv) (trace w') = 2%nat
  /\ count is_init_meta (trace w') = 1%nat
  /\ count is_init_meta (trace w') <> count (is_reset EvalEnv) (trace w').
Proof. vm_compute. repeat split; discriminate. Qed.

(** C6 at the pretrained checkpoint, which stores step 1000, episode 7. *)
Lemma finetune_init_starts_counters_at_zero_witness :
  exists w',
    Finetune.__init__ cfg0 w_pretrained = Ok tt w'
    /\ _global_step w' = 0 /\ _global_episode w' = 0
    /\ agent w' = 5
    /\ cfg w' = cfg0 /\ fs w' = fs w_pretrained.
Proof.
  apply (proj2 (finetune_init_starts_counters_at_zero (C:=cyc3) cfg0
                  w_pretrained "walker" "stand" payload_1000 5)).
  - reflexivity.
  - reflexivity.
  - discriminate.
  - reflexivity.
  - vm_compute. reflexivity.
  - vm_compute. reflexivity.
Defined.

(** C7: an interrupt during the pretraining run, and during fine-tuning. *)
Lemma interrupt_saves_once_then_exits_witness :
  (let w1 := world_of (Pretrain.main_startup cfg0 1 w_interrupted) in
   let w2 := world_of (Pretrain.train 9 w1) in
   let w3 := after_save (set_trace (EPrint "interrupted" :: trace w2) w2) in
   Pretrain.main 9 cfg0 1 w_interrupted = Raise SystemExit w3
   /\ count is_save (trace w3) = S (count is_save (trace w2))
   /\ files (fs w3)
      = <[render (snapshot_path w2) := saved w2]> (files (fs w2)))
  /\ (let w1 := world_of (Finetune.main_startup cfg0 w_pretrained_interrupted) in
      let w2 := world_of (Finetune.train 9 w1) in
      Finetune.main 9 cfg0 w_pretrained_interrupted = Raise KeyboardInterrupt w2
      /\ fs w2 = fs w_pretrained_interrupted
      /\ count is_save (trace w2)
         = count is_save (trace w_pretrained_interrupted)).
Proof.
  split.
  - cbv zeta.
    set (w1 := world_of (Pretrain.main_startup cfg0 1 w_interrupted)).
    set (w2 := world_of (Pretrain.train 9 w1)).
    apply (proj1 (interrupt_saves_once_then_exits (C:=cyc3) 9 cfg0 1
                    w_interrupted w1 w2)).
    + vm_compute. reflexivity.
    + vm_compute. reflexivity.
  - cbv zeta.
    set (w1 := world_of (Finetune.main_startup cfg0 w_pretrained_interrupted)).
    set (w2 := world_of (Finetune.train 9 w1)).
    apply (proj2 (interrupt_saves_once_then_exits (C:=cyc3) 9 cfg0 1
                    w_pretrained_interrupted w1 w2)).
    + vm_compute. reflexivity.
    + vm_compute. reflexivity.
Defined.

(** C8: the checkpoint missing, and the checkpoint in place. *)
Lemma finetune_load_snapshot_asserts_file_witness :
  (exists w', Finetune.load_snapshot w0 = Raise AssertionError w')
  /\ (exists w', Finetune.load_snapshot w_pretrained = Ok payload_1000 w').
Proof.
  split.
  - eexists.
    apply (proj1 (finetune_load_snapshot_asserts_file (C:=cyc3) w0
                    "walker" "stand" eq_refl eq_refl)).
    vm_compute. reflexivity.
  - eexists.
    apply (proj2 (finetune_load_snapshot_asserts_file (C:=cyc3) w_pretrained
                    "walker" "stand" eq_refl eq_refl)).
    vm_compute. reflexivity.
Defined.




(* ===================================================================== *)
(** * Further facts *)


Section EvalFrame.
Context {C : Collab}.

(** X1.  A call of [Workspace.eval], however it ends, leaves the
    configuration, the working directory, the file store, the replay
    storage, the counters and the training environment as they were, and
    every call it makes is one of: [init_meta], [act] with
    [eval_mode=True], [reset] or [step] of the evaluation environment, a
    video recorder call, or the evaluation log.  So an evaluation never
    invokes [update], adds nothing to the replay storage and reads or
    writes no checkpoint.  Pretraining and fine-tuning [eval] alike. *)
Theorem eval_only_evaluates (fuel : nat) (w : World C) :
  (let w' := world_of (Pretrain.eval fuel w) in
   training_state w' = training_state w
   /\ exists new, trace w' = new ++ trace w /\ Forall eval_call new)
  /\ (let w' := world_of (Finetune.eval fuel w) in
      training_state w' = training_state w
      /\ exists new, trace w' = new ++ trace w /\ Forall eval_call new).
Proof.
  split; cbv zeta.
  - assert (H : keeps (C:=C) training_state eval_call (fun _ _ => True)
                  (Pretrain.eval fuel)).
    { unfold Pretrain.eval. keeps_tac; try reflexivity; try exact I. }
    destruct (H w) as [[Hproj Hnew] _]. auto.
  - assert (H : keeps (C:=C) training_state eval_call (fun _ _ => True)
                  (Finetune.eval fuel)).
    { unfold Finetune.eval. keeps_tac; try reflexivity; try exact I. }
    destruct (H w) as [[Hproj Hnew] _]. auto.
Qed.
End EvalFrame.


Section Strings.

Lemma append_cons (x : ascii) (a b : string) :
  String x a +:+ b = String x (a +:+ b).
Proof. reflexivity. Qed.

Lemma append_assoc (a b c : string) : (a +:+ b) +:+ c = a +:+ (b +:+ c).
Proof.
  induction a as [|x a IH]; [reflexivity|].
  rewrite !append_cons. f_equal. exact IH.
Qed.

Lemma append_length (a b : string) :
  String.length (a +:+ b) = (String.length a + String.length b)%nat.
Proof.
  induction a as [|x a IH]; [reflexivity|].
  rewrite append_cons. cbn [String.length]. rewrite IH. reflexivity.
Qed.

Lemma append_inj_r (s a b : string) : a +:+ s = b +:+ s -> a = b.
Proof.
  revert b. induction a as [|x a IH]; intros [|y b] H.
  - reflexivity.
  - apply (f_equal String.length) in H.
    rewrite !append_length in H. cbn [String.length] in H. lia.
  - apply (f_equal String.length) in H.
    rewrite !append_length in H. cbn [String.length] in H. lia.
  - rewrite !append_cons in H. injection H as -> H. f_equal. by apply IH.
Qed.

Lemma to_int_nonnil (z : Z) :
  Z.to_int z <> Decimal.Pos Decimal.Nil /\ Z.to_int z <> Decimal.Neg Decimal.Nil.
Proof.
  destruct z as [|p|p]; cbn; split; intros E; try discriminate;
    injection E as E; exact (DecimalPos.Unsigned.to_uint_nonnil p E).
Qed.

Lemma str_inj (a b : Z) : str a = str b -> a = b.
Proof.
  unfold str. intros H. apply DecimalZ.to_int_inj.
  apply (f_equal NilZero.int_of_string) in H.
  destruct (to_int_nonnil a) as [A1 A2], (to_int_nonnil b) as [B1 B2].
  rewrite !NilZero.isi in H by assumption. congruence.
Qed.

Lemma join_parts_snoc (l : list string) :
  exists pre, forall n, join_parts (l ++ [n]) = pre +:+ n.
Proof.
  induction l as [|x l [pre IH]].
  - by exists "".
  - exists (x +:+ "/" +:+ pre). intros n. cbn [app join_parts].
    destruct (l ++ [n]) as [|y r] eqn:E; [by destruct l|].
    rewrite <- E, IH. symmetry. rewrite append_assoc. reflexivity.
Qed.

Lemma render_child_inj (d : Path) (a b : string) :
  render (path_child d a) = render (path_child d b) -> a = b.
Proof.
  unfold render, path_child. cbn [absolute parts].
  destruct (join_parts_snoc (parts d)) as [pre Hpre]. rewrite !Hpre.
  intros H. apply String.app_inj in H. by apply String.app_inj in H.
Qed.



End Strings.

Section PretrainInit.
Context {C : Collab}.

Lemma Pretrain_init_keeps_fs c rnd :
  keeps (C:=C) fs (fun _ => True) (fun _ _ => True) (Pretrain.__init__ c rnd).
Proof.
  unfold Pretrain.__init__. keeps_tac; try reflexivity; try exact I.
Qed.

Lemma Pretrain_init_ok (c : Cfg) (rnd : Z) (w : World C) t :
  pending w = None -> PRIMAL_TASKS C (domain c) = Some t ->
  action_repeat c <> 0 ->
  exists w',
    Pretrain.__init__ c rnd w = Ok tt w'
    /\ pending w' = None
    /\ cfg w' = set_seed rnd c
    /\ work_dir w' = cwd w
    /\ train_env w' = dmc_make C t rnd
    /\ eval_env w' = dmc_make C t rnd
    /\ agent w'
       = make_agent C
           (Qfloor (num_seed_frames c / inject_Z (action_repeat c)))
    /\ replay_storage w' = []
    /\ _global_step w' = 0 /\ _global_episode w' = 0
    /\ fs w' = fs w
    /\ trace w' = EPrint ("workspace: " +:+ render (cwd w)) :: trace w.
Proof.
  intros Hp Hd Har.
  destruct w as [wd c0 g te ee rs gs ge cw f tr pd]. cbn in Hp. subst pd.
  unfold Pretrain.__init__. run.
  cbn [domain action_repeat num_seed_frames seed set_seed]. rewrite Hd.
  replace (action_repeat c =? 0) with false by (symmetry; by apply Z.eqb_neq).
  run. eexists. split; [reflexivity|]. by repeat split.
Qed.

Lemma Pretrain_startup_fresh (c : Cfg) (rnd : Z) (w : World C) :
  files (fs w) !! render (snapshot c) = None
  \/ render (snapshot c) ∈ dirs (fs w) ->
  Pretrain.main_startup c rnd w = Pretrain.__init__ c rnd w.
Proof.
  intros Hno.
  unfold Pretrain.main_startup, bind at 1.
  destruct (Pretrain_init_keeps_fs c rnd w) as [[Hfs _] _].
  destruct (Pretrain.__init__ c rnd w) as [[] w1|e w1|w1]; try reflexivity.
  cbn [world_of] in Hfs. unfold get, bind. rewrite Hfs.
  unfold path_exists, path_is_dir.
  destruct Hno as [Hno|Hno].
  - rewrite Hno. destruct (bool_decide _); reflexivity.
  - rewrite (bool_decide_eq_true_2 _ Hno).
    destruct (files (fs w) !! _); reflexivity.
Qed.

(** X2.  [Workspace.__init__] of [pretrain.py] does not depend on the
    configured seed, which it overwrites with the value drawn.  When
    [cfg.domain] is not a key of [PRIMAL_TASKS] it fails with
    [AssertionError] and nothing of the workspace is built: agent,
    environments, replay storage and counters are untouched.  Otherwise, with
    a nonzero [action_repeat] and no interrupt, it returns: both
    environments are made for the task of the domain with
    the drawn seed, the agent is made with [num_seed_frames //
    action_repeat] exploration steps, the replay storage is empty, both
    counters are 0, the working directory is the current one and the file
    store is unchanged. *)
Theorem pretrain_init_builds_workspace (c : Cfg) (rnd : Z) (w : World C) :
  pending w = None ->
  (forall s, Pretrain.__init__ (set_seed s c) rnd w = Pretrain.__init__ c rnd w)
  /\ (PRIMAL_TASKS C (domain c) = None ->
      exists w',
        Pretrain.__init__ c rnd w = Raise AssertionError w'
        /\ agent w' = agent w /\ train_env w' = train_env w
        /\ eval_env w' = eval_env w /\ replay_storage w' = replay_storage w
        /\ _global_step w' = _global_step w
        /\ _global_episode w' = _global_episode w)
  /\ (forall t, PRIMAL_TASKS C (domain c) = Some t ->
      action_repeat c <> 0 ->
      exists w',
        Pretrain.__init__ c rnd w = Ok tt w'
        /\ cfg w' = set_seed rnd c
        /\ work_dir w' = cwd w
        /\ train_env w' = dmc_make C t rnd
        /\ eval_env w' = dmc_make C t rnd
        /\ agent w'
           = make_agent C
               (Qfloor (num_seed_frames c / inject_Z (action_repeat c)))
        /\ replay_storage w' = []
        /\ _global_step w' = 0 /\ _global_episode w' = 0
        /\ fs w' = fs w
        /\ trace w' = EPrint ("workspace: " +:+ render (cwd w)) :: trace w).
Proof.
  intros Hp. split; [|split].
  - intros s. destruct c. reflexivity.
  - intros Hd.
    destruct w as [wd c0 g te ee rs gs ge cw f tr pd]. cbn in Hp. subst pd.
    unfold Pretrain.__init__. run.
    cbn [domain set_seed]. rewrite Hd.
    eexists. split; [reflexivity|]. by repeat split.
  - intros t Hd Har.
    destruct (Pretrain_init_ok c rnd w t Hp Hd Har)
      as (w' & Heq & _ & H). by exists w'.
Qed.

(** X3.  In [main] of [pretrain.py], when nothing exists at
    [cfg.snapshot], or a directory does, the run is not resumed: the
    start-up is the construction of the workspace alone, and it loads no
    checkpoint. *)
Theorem pretrain_main_starts_fresh_without_snapshot (c : Cfg) (rnd : Z)
    (w : World C) :
  files (fs w) !! render (snapshot c) = None
  \/ render (snapshot c) ∈ dirs (fs w) ->
  Pretrain.main_startup c rnd w = Pretrain.__init__ c rnd w
  /\ count is_load (trace (world_of (Pretrain.main_startup c rnd w)))
     = count is_load (trace w).
Proof.
  intros Hno. pose proof (Pretrain_startup_fresh c rnd w Hno) as Heq.
  split; [exact Heq|]. rewrite Heq.
  assert (H : keeps (C:=C) (fun _ => tt) (fun ev => is_load ev = false)
                (fun _ _ => True) (Pretrain.__init__ c rnd)).
  { unfold Pretrain.__init__. keeps_tac; try reflexivity; try exact I. }
  destruct (H w) as [[_ (new & Htr & Hnew)] _].
  rewrite Htr, count_app, (count_none _ _ Hnew). reflexivity.
Qed.

End PretrainInit.

Section PretrainCheckpoint.
Context {C : Collab}.



Lemma save_snapshot_keeps_attributes :
  keeps (C:=C) attributes (fun _ => True) (fun _ _ => True)
    Pretrain.save_snapshot.
Proof.
  unfold Pretrain.save_snapshot. keeps_tac; try reflexivity; try exact I.
Qed.

Lemma snapshot_path_inj (w w2 : World C) :
  work_dir w2 = work_dir w ->
  snapshot_dir (cfg w2) = snapshot_dir (cfg w) ->
  render (snapshot_path w2) = render (snapshot_path w) ->
  global_frame w2 = global_frame w.
Proof.
  intros Hwd Hsd H. unfold snapshot_path in H. rewrite Hwd, Hsd in H.
  apply render_child_inj in H. apply String.app_inj in H.
  apply append_inj_r in H. by apply str_inj.
Qed.

(** X6.  [save_snapshot] changes no attribute of the workspace, however
    it ends.  Checkpoints of different frame counts are different files: a
    save at another frame count succeeds, writes its own file, and leaves a
    checkpoint written earlier in the same directory as it was. *)
Theorem save_snapshot_only_adds_its_file (w w2 : World C)
    (earlier : gmap string (PyVal C)) :
  attributes (world_of (Pretrain.save_snapshot w)) = attributes w
  /\ (pending w2 = None ->
      work_dir w2 = work_dir w ->
      snapshot_dir (cfg w2) = snapshot_dir (cfg w) ->
      global_frame w2 <> global_frame w ->
      files (fs w2) !! render (snapshot_path w) = Some earlier ->
      exists w3,
        Pretrain.save_snapshot w2 = Ok tt w3
        /\ files (fs w3) !! render (snapshot_path w) = Some earlier
        /\ files (fs w3) !! render (snapshot_path w2) = Some (saved w2)).
Proof.
  split.
  - destruct (save_snapshot_keeps_attributes w) as [[H _] _]. exact H.
  - intros Hp Hwd Hsd Hfr He. exists (after_save w2).
    split; [by apply save_snapshot_ok|].
    rewrite fs_after_save. unfold write_file, mkdir_p. cbn [files].
    split.
    + rewrite lookup_insert_ne; [exact He|].
      intros Heq. apply Hfr. by apply snapshot_path_inj.
    + apply lookup_insert_eq.
Qed.

End PretrainCheckpoint.

Section FinetuneStart.
Context {C : Collab}.

(** X7.  With [snapshot_ts <= 0] and a nonzero [action_repeat],
    [Workspace.__init__] of [finetune.py] loads nothing: it returns with
    the agent as [make_agent] built it, both environments made for
    [cfg.task] with [cfg.seed], an empty replay storage and both counters
    at 0; the only call it makes is the print of the working directory,
    and the file store is unchanged. *)
Theorem finetune_init_without_pretrained (c : Cfg) (w : World C) :
  pending w = None -> snapshot_ts c <= 0 -> action_repeat c <> 0 ->
  exists w',
    Finetune.__init__ c w = Ok tt w'
    /\ agent w'
       = make_agent C (Qfloor (num_seed_frames c / inject_Z (action_repeat c)))
    /\ train_env w' = dmc_make C (task c) (seed c)
    /\ eval_env w' = dmc_make C (task c) (seed c)
    /\ cfg w' = c /\ work_dir w' = cwd w /\ replay_storage w' = []
    /\ _global_step w' = 0 /\ _global_episode w' = 0
    /\ fs w' = fs w
    /\ trace w' = EPrint ("workspace: " +:+ render (cwd w)) :: trace w.
Proof.
  intros Hp Hts Har.
  destruct w as [wd c0 g te ee rs gs ge cw f tr pd]. cbn in Hp. subst pd.
  unfold Finetune.__init__. run.
  replace (action_repeat c =? 0) with false by (symmetry; by apply Z.eqb_neq).
  replace (0 <? snapshot_ts c) with false by (symmetry; apply Z.ltb_ge; lia).
  run. eexists. split; [reflexivity|]. by repeat split.
Qed.

(** X8.  With [snapshot_ts > 0] the fine-tuning constructor needs its
    pretrained checkpoint: when nothing exists at the resolved path it
    fails with [AssertionError], having read no file; when the payload
    there has no key [agent] it fails with [KeyError]. *)
Theorem finetune_init_fails_without_checkpoint (c : Cfg) (w : World C)
    (domain rest : string) (payload : gmap string (PyVal C)) :
  pending w = None -> 0 < snapshot_ts c -> action_repeat c <> 0 ->
  split1 "_" (task c) = [domain; rest] ->
  let file := render (pretrained_path c domain) in
  (path_exists (fs w) file = false ->
   exists w', Finetune.__init__ c w = Raise AssertionError w'
              /\ count is_load (trace w') = count is_load (trace w))
  /\ (files (fs w) !! file = Some payload ->
      payload !! "agent" = None ->
      exists w', Finetune.__init__ c w = Raise KeyError w').
Proof.
  intros Hp Hts Har Hs file. subst file.
  destruct w as [wd c0 g te ee rs gs ge cw f tr pd]. cbn in Hp. subst pd.
  cbn [fs trace].
  split.
  - intros Hf. unfold Finetune.__init__. run.
    replace (action_repeat c =? 0) with false by (symmetry; by apply Z.eqb_neq).
    replace (0 <? snapshot_ts c) with true by (symmetry; by apply Z.ltb_lt).
    run.
    erewrite bind_raise; cycle 1.
    { eapply Finetune_load_missing; [reflexivity|exact Hs|exact Hf]. }
    eexists. split; [reflexivity|]. reflexivity.
  - intros Hf Ha. unfold Finetune.__init__. run.
    replace (action_repeat c =? 0) with false by (symmetry; by apply Z.eqb_neq).
    replace (0 <? snapshot_ts c) with true by (symmetry; by apply Z.ltb_lt).
    run.
    erewrite bind_ok; cycle 1.
    { eapply Finetune_load_found; [reflexivity|exact Hs|exact Hf]. }
    unfold getitem. rewrite Ha. run. eexists. reflexivity.
Qed.


(** X10.  The resume branch of [main] of [finetune.py] restores nothing.
    With [snapshot_ts <= 0] and something named [snapshot.pt] in the
    working directory, [main] calls [load_snapshot], which looks for the
    pretrained checkpoint: when that is missing the start-up fails with
    [AssertionError]; when it is there its payload is dropped, and the
    workspace is the freshly built one, with the agent [make_agent] made
    and both counters at 0. *)
Theorem finetune_resume_restores_nothing (c : Cfg) (w : World C)
    (domain rest : string) (payload : gmap string (PyVal C)) :
  pending w = None -> snapshot_ts c <= 0 -> action_repeat c <> 0 ->
  split1 "_" (task c) = [domain; rest] ->
  path_exists (fs w) (render (path_child (cwd w) "snapshot.pt")) = true ->
  let file := render (pretrained_path c domain) in
  (path_exists (fs w) file = false ->
   exists w', Finetune.main_startup c w = Raise AssertionError w')
  /\ (files (fs w) !! file = Some payload ->
      exists w',
        Finetune.main_startup c w = Ok tt w'
        /\ agent w'
           = make_agent C
               (Qfloor (num_seed_frames c / inject_Z (action_repeat c)))
        /\ _global_step w' = 0 /\ _global_episode w' = 0
        /\ cfg w' = c /\ replay_storage w' = []).
Proof.
  intros Hp Hts Har Hs Hsnap file. subst file.
  destruct w as [wd c0 g te ee rs gs ge cw f tr pd]. cbn in Hp, Hsnap. subst pd.
  cbn [fs].
  split.
  - intros Hf. unfold Finetune.main_startup, Finetune.__init__. run.
    replace (action_repeat c =? 0) with false by (symmetry; by apply Z.eqb_neq).
    replace (0 <? snapshot_ts c) with false by (symmetry; apply Z.ltb_ge; lia).
    run. rewrite Hsnap. run.
    erewrite bind_raise; cycle 1.
    { eapply Finetune_load_missing; [reflexivity|exact Hs|exact Hf]. }
    eexists. reflexivity.
  - intros Hf. unfold Finetune.main_startup, Finetune.__init__. run.
    replace (action_repeat c =? 0) with false by (symmetry; by apply Z.eqb_neq).
    replace (0 <? snapshot_ts c) with false by (symmetry; apply Z.ltb_ge; lia).
    run. rewrite Hsnap. run.
    erewrite bind_ok; cycle 1.
    { eapply Finetune_load_found; [reflexivity|exact Hs|exact Hf]. }
    run. eexists. split; [reflexivity|]. by repeat split.
Qed.

End FinetuneStart.


Section TickParts.
Context {C : Collab}.

Lemma Pretrain_train_tick_parts fuel su ee (v : TrainVars C) w :
  Pretrain.train_tick fuel su ee v w
  = (c <- get cfg ;;
     v1 <- tick_head false c v ;;
     tick_snapshot c ;;
     tick_eval (Pretrain.eval fuel) ee ;;
     tick_body false c su v1) w.
Proof.
  reflexivity.
Qed.

Lemma Finetune_train_tick_parts fuel su ee (v : TrainVars C) w :
  Finetune.train_tick fuel su ee v w
  = (c <- get cfg ;;
     v1 <- tick_head (save_train_video c) c v ;;
     tick_eval (Finetune.eval fuel) ee ;;
     tick_body (save_train_video c) c su v1) w.
Proof.
  reflexivity.
Qed.

End TickParts.

Section TickStages.
Context {C : Collab}.

Lemma bind_get {A B} (f : World C -> A) (k : A -> M C B) w :
  bind (get f) k w = k (f w) w.
Proof. reflexivity. Qed.

Lemma tick_head_ok rec (v : TrainVars C) (w : World C) :
  pending w = None ->
  tick_head rec (cfg w) v w = Ok (boundary_vars v w) (boundary rec v w).
Proof.
  intros Hp. destruct w as [wd c g te een rs gs ge cw f tr pd].
  cbn in Hp. subst pd. destruct v as [ts m mt es er].
  unfold tick_head, boundary, boundary_events, boundary_vars, boundary_log,
    Finetune.video, videos.
  cbn [time_step metrics episode_step episode_reward cfg].
  destruct (ts_last ts); [|reflexivity].
  destruct rec, mt; vm_compute; reflexivity.
Qed.

Lemma tick_snapshot_ok (w : World C) :
  pending w = None ->
  tick_snapshot (cfg w) w = Ok tt (scheduled w).
Proof.
  intros Hp. unfold tick_snapshot, scheduled. rewrite bind_get.
  destruct (existsb _ _); [by apply save_snapshot_ok|reflexivity].
Qed.

Lemma tick_body_ok rec su (v : TrainVars C) (w : World C) :
  pending w = None ->
  tick_body rec (cfg w) su v w = Ok (stepped_vars su v w) (stepped rec su v w).
Proof.
  intros Hp. destruct w as [wd c g te een rs gs ge cw f tr pd].
  cbn in Hp. subst pd. destruct v as [ts m mt es er].
  unfold tick_body, stepped, stepped_events, stepped_vars, Finetune.video,
    videos.
  cbn [time_step meta metrics episode_step episode_reward cfg].
  run. destruct (su gs), (use_wandb c), rec; vm_compute; reflexivity.
Qed.

Lemma Pretrain_tick_eval_ok fuel L ee (w : World C) :
  pending w = None -> episodic (C:=C) L -> (L <= fuel)%nat ->
  (Z.to_nat (num_eval_episodes (cfg w)) <= fuel)%nat ->
  (ee (_global_step w) = true -> 1 <= num_eval_episodes (cfg w)) ->
  exists w',
    tick_eval (Pretrain.eval fuel) ee w = Ok tt w'
    /\ evaluated (fun _ => None) ee w w'.
Proof.
  intros Hp Hepi HL HN Hpos.
  destruct w as [wd c g te een rs gs ge cw f tr pd].
  cbn in Hp, HN, Hpos. subst pd.
  unfold tick_eval, evaluated. run.
  destruct (ee gs); [|by eexists].
  specialize (Hpos eq_refl). run.
  match goal with
  | |- context [Pretrain.eval fuel ?w1] =>
      destruct (P_eval_ok fuel L w1 eq_refl Hepi HL HN)
        as (g_e & e_e & new_e & Heq_e & Hall_e & Hr_e & _ & Hc_e)
  end.
  cbn [cfg agent] in Heq_e, Hall_e, Hr_e, Hc_e.
  replace (num_eval_episodes c <=? 0) with false in Heq_e
    by (symmetry; apply Z.leb_gt; lia).
  rewrite Heq_e. eexists. split; [reflexivity|].
  exists g_e, e_e, new_e. split; [|by repeat split].
  unfold evolve, global_frame, global_step. run.
  rewrite <- !app_assoc. reflexivity.
Qed.

Lemma Finetune_tick_eval_ok fuel L ee (w : World C) :
  pending w = None -> episodic (C:=C) L -> (L <= fuel)%nat ->
  (Z.to_nat (num_eval_episodes (cfg w)) <= fuel)%nat ->
  (ee (_global_step w) = true -> 1 <= num_eval_episodes (cfg w)) ->
  exists w',
    tick_eval (Finetune.eval fuel) ee w = Ok tt w'
    /\ evaluated (meta_skill C) ee w w'.
Proof.
  intros Hp Hepi HL HN Hpos.
  destruct w as [wd c g te een rs gs ge cw f tr pd].
  cbn in Hp, HN, Hpos. subst pd.
  unfold tick_eval, evaluated. run.
  destruct (ee gs); [|by eexists].
  specialize (Hpos eq_refl). run.
  match goal with
  | |- context [Finetune.eval fuel ?w1] =>
      destruct (F_eval_ok fuel L w1 eq_refl Hepi HL HN)
        as (g_e & e_e & new_e & Heq_e & Hall_e & Hr_e & _ & Hc_e)
  end.
  cbn [cfg agent] in Heq_e, Hall_e, Hr_e, Hc_e.
  replace (num_eval_episodes c <=? 0) with false in Heq_e
    by (symmetry; apply Z.leb_gt; lia).
  rewrite Heq_e. eexists. split; [reflexivity|].
  exists g_e, e_e, new_e. split; [|by repeat split].
  unfold evolve, global_frame, global_step. run.
  rewrite <- !app_assoc. reflexivity.
Qed.

(** What the stages leave alone. *)
Lemma boundary_frame rec (v : TrainVars C) (w : World C) :
  pending (boundary rec v w) = pending w /\ cfg (boundary rec v w) = cfg w
  /\ _global_step (boundary rec v w) = _global_step w
  /\ work_dir (boundary rec v w) = work_dir w
  /\ fs (boundary rec v w) = fs w.
Proof. unfold boundary. by destruct (ts_last (time_step v)). Qed.

Lemma scheduled_frame (w : World C) :
  pending (scheduled w) = pending w /\ cfg (scheduled w) = cfg w
  /\ _global_step (scheduled w) = _global_step w
  /\ work_dir (scheduled w) = work_dir w.
Proof. unfold scheduled. by destruct (existsb _ _). Qed.

Lemma evaluated_frame skill ee (w w' : World C) :
  evaluated skill ee w w' ->
  pending w' = pending w /\ cfg w' = cfg w
  /\ _global_step w' = _global_step w /\ work_dir w' = work_dir w
  /\ fs w' = fs w.
Proof.
  unfold evaluated. destruct (ee _).
  - intros (g & e & new & -> & _). by destruct w.
  - by intros ->.
Qed.

Lemma Pretrain_tick fuel L su ee (v : TrainVars C) (w : World C) :
  pending w = None -> episodic (C:=C) L -> (L <= fuel)%nat ->
  (Z.to_nat (num_eval_episodes (cfg w)) <= fuel)%nat ->
  (ee (_global_step w) = true -> 1 <= num_eval_episodes (cfg w)) ->
  exists v' w',
    Pretrain.train_tick fuel su ee v w = Ok v' w'
    /\ tick_rel false true (fun _ => None) su ee v w v' w'.
Proof.
  intros Hp Hepi HL HN Hpos.
  rewrite Pretrain_train_tick_parts, bind_get.
  rewrite (bind_ok _ _ _ _ _ (tick_head_ok false v w Hp)).
  destruct (boundary_frame false v w) as (Hp1 & Hc1 & Hg1 & _).
  rewrite <- Hc1.
  rewrite (bind_ok _ _ _ _ _ (tick_snapshot_ok _ (eq_trans Hp1 Hp))).
  destruct (scheduled_frame (boundary false v w)) as (Hp2 & Hc2 & Hg2 & _).
  destruct (Pretrain_tick_eval_ok fuel L ee (scheduled (boundary false v w)))
    as (w3 & Heq & Hev); try assumption.
  { congruence. } { congruence. } { rewrite Hc2, Hc1, Hg2, Hg1. exact Hpos. }
  rewrite (bind_ok _ _ _ _ _ Heq).
  destruct (evaluated_frame _ _ _ _ Hev) as (Hp3 & Hc3 & _).
  rewrite <- Hc2, <- Hc3.
  rewrite tick_body_ok by congruence.
  eexists _, _. split; [reflexivity|]. exists w3. by repeat split.
Qed.

Lemma Finetune_tick fuel L su ee (v : TrainVars C) (w : World C) :
  pending w = None -> episodic (C:=C) L -> (L <= fuel)%nat ->
  (Z.to_nat (num_eval_episodes (cfg w)) <= fuel)%nat ->
  (ee (_global_step w) = true -> 1 <= num_eval_episodes (cfg w)) ->
  exists v' w',
    Finetune.train_tick fuel su ee v w = Ok v' w'
    /\ tick_rel (save_train_video (cfg w)) false (meta_skill C) su ee
         v w v' w'.
Proof.
  intros Hp Hepi HL HN Hpos.
  rewrite Finetune_train_tick_parts, bind_get.
  set (rec := save_train_video (cfg w)).
  rewrite (bind_ok _ _ _ _ _ (tick_head_ok rec v w Hp)).
  destruct (boundary_frame rec v w) as (Hp1 & Hc1 & Hg1 & _).
  destruct (Finetune_tick_eval_ok fuel L ee (boundary rec v w))
    as (w3 & Heq & Hev); try assumption.
  { congruence. } { congruence. } { rewrite Hc1, Hg1. exact Hpos. }
  rewrite (bind_ok _ _ _ _ _ Heq).
  destruct (evaluated_frame _ _ _ _ Hev) as (Hp3 & Hc3 & _).
  rewrite <- Hc1, <- Hc3.
  rewrite tick_body_ok by congruence.
  eexists _, _. split; [reflexivity|]. exists w3. by repeat split.
Qed.

End TickStages.

Section LoopRuns.
Context {C : Collab}.

(** The loop of [train] runs its iterations one after the other while the
    budget gate is open: [K - global_step] of them. *)
Lemma loop_runs (R : TrainVars C -> World C -> TrainVars C -> World C -> Prop)
    (tick : TrainVars C -> M C (TrainVars C)) (Inv : World C -> Prop)
    (tu : Z -> bool) (K : Z) :
  (forall k, tu k = (k <? K)) ->
  (forall v w, Inv w ->
     exists v' w', tick v w = Ok v' w' /\ R v w v' w' /\ Inv w'
                   /\ _global_step w' = _global_step w + 1) ->
  forall n fo v w,
    (n <= fo)%nat -> Inv w -> _global_step w = K - Z.of_nat n ->
    exists v' w',
      while_ fo (fun _ w => tu (global_step w)) tick v w = Ok v' w'
      /\ ticks R n v w v' w' /\ Inv w' /\ _global_step w' = K.
Proof.
  intros Htu Htick. induction n as [|n IH]; intros fo v w Hfo Hinv Hgs.
  - exists v, w. rewrite while_unfold. unfold global_step.
    rewrite Htu, Hgs. replace (K - Z.of_nat 0 <? K) with false
      by (symmetry; apply Z.ltb_ge; lia).
    repeat split; [constructor|exact Hinv|lia].
  - rewrite while_unfold. unfold global_step at 1. rewrite Htu, Hgs.
    replace (K - Z.of_nat (S n) <? K) with true
      by (symmetry; apply Z.ltb_lt; lia).
    destruct fo as [|fo]; [lia|].
    destruct (Htick v w Hinv) as (v1 & w1 & Heq & HR & Hinv1 & Hgs1).
    rewrite (bind_ok _ _ _ _ _ Heq).
    destruct (IH fo v1 w1) as (v2 & w2 & Heq2 & Ht2 & Hinv2 & Hgs2);
      [lia|exact Hinv1|lia|].
    exists v2, w2. split; [exact Heq2|]. split; [|by split].
    econstructor; eassumption.
Qed.

End LoopRuns.


Section TrainedFacts.
Context {C : Collab}.

Lemma train_time_steps_app (a b : list (Event C)) :
  train_time_steps (a ++ b) = train_time_steps a ++ train_time_steps b.
Proof.
  induction a as [|x a IH]; [reflexivity|].
  destruct x as [[]| []| | | | | | | | | | | | | | | | | ]; cbn; by rewrite ?IH.
Qed.

Lemma replay_adds_app (a b : list (Event C)) :
  replay_adds (a ++ b) = replay_adds a ++ replay_adds b.
Proof.
  induction a as [|x a IH]; [reflexivity|].
  destruct x; cbn; by rewrite ?IH.
Qed.

(** The calls of an evaluation are none of the training loop's own. *)
Lemma eval_events_silent (m : Meta C) (l : list (Event C)) :
  Forall (eval_event m) l ->
  count (is_step TrainEnv) l = 0%nat /\ count (is_reset TrainEnv) l = 0%nat
  /\ count is_explore l = 0%nat /\ count is_update_meta l = 0%nat
  /\ count step_ends_episode l = 0%nat
  /\ replay_adds l = [] /\ train_time_steps l = [].
Proof.
  induction 1 as [|ev l Hev _ IH]; [by repeat split|].
  destruct IH as (I1 & I2 & I3 & I4 & I5 & I6 & I7).
  destruct ev as [e ts|e a ts| | |s em m'| | | | | | | | |what| | | | | ];
    cbn in Hev; try contradiction.
  - subst e. cbn. by rewrite I1, I2, I3, I4, I5, I6, I7.
  - subst e. cbn. by rewrite I1, I2, I3, I4, I5, I6, I7.
  - destruct Hev as [-> ->]. cbn. by rewrite I1, I2, I3, I4, I5, I6, I7.
  - cbn. by rewrite I1, I2, I3, I4, I5, I6, I7.
Qed.

Lemma trained_refl (w : World C) : trained w w [].
Proof. unfold trained. cbn. repeat split; lia. Qed.

Lemma trained_trans (w1 w2 w3 : World C) n1 n2 :
  trained w1 w2 n1 -> trained w2 w3 n2 -> trained w1 w3 (n2 ++ n1).
Proof.
  intros (T1 & P1 & C1 & W1 & D1 & G1 & E1 & R1 & M1 & X1 & U1)
         (T2 & P2 & C2 & W2 & D2 & G2 & E2 & R2 & M2 & X2 & U2).
  unfold trained.
  rewrite !count_app, replay_adds_app, train_time_steps_app, map_app.
  rewrite T2, T1, R2, R1, M1, M2, X1, X2, U1, U2.
  rewrite <- !app_assoc.
  repeat split; try congruence; lia.
Qed.

Lemma boundary_trained rec (v : TrainVars C) (w : World C) :
  exists new,
    trained w (boundary rec v w) new
    /\ count (is_step TrainEnv) new = 0%nat
    /\ count step_ends_episode new = 0%nat
    /\ Z.of_nat (count (is_reset TrainEnv) new)
       = (if ts_last (time_step v) then 1 else 0)
    /\ newest_last (train_time_steps new ++ [time_step v])
       = ts_last (time_step (boundary_vars v w)).
Proof.
  unfold boundary, boundary_vars.
  destruct (ts_last (time_step v)) eqn:Hl.
  - exists (boundary_events rec v w).
    unfold trained, boundary_events, boundary_log.
    cbn [trace pending cfg work_dir cwd _global_step _global_episode
         replay_storage time_step].
    destruct rec, (metrics v); cbn; repeat split; lia.
  - exists []. split; [apply trained_refl|]. cbn. by rewrite Hl.
Qed.

Lemma scheduled_trained (snap : bool) (w : World C) :
  exists new,
    trained w (if snap then scheduled w else w) new
    /\ count (is_step TrainEnv) new = 0%nat
    /\ count step_ends_episode new = 0%nat
    /\ count (is_reset TrainEnv) new = 0%nat
    /\ train_time_steps new = [].
Proof.
  destruct snap; [unfold scheduled; destruct (existsb _ _)|].
  - exists [ETorchSave (render (snapshot_path w));
            EPrint (render (snapshot_path w));
            EMkdir (render (path_join (work_dir w) (snapshot_dir (cfg w))))].
    split; [|by repeat split].
    unfold trained, after_save. destruct w; cbn. repeat split; lia.
  - exists []. split; [apply trained_refl|by repeat split].
  - exists []. split; [apply trained_refl|by repeat split].
Qed.

Lemma evaluated_trained skill ee (w w' : World C) :
  evaluated skill ee w w' ->
  exists new,
    trained w w' new
    /\ count (is_step TrainEnv) new = 0%nat
    /\ count step_ends_episode new = 0%nat
    /\ count (is_reset TrainEnv) new = 0%nat
    /\ train_time_steps new = [].
Proof.
  unfold evaluated. destruct (ee _).
  - intros (g & e & evn & -> & Hall & _).
    destruct (eval_events_silent _ _ Hall) as (E1 & E2 & E3 & E4 & E5 & E6 & E7).
    eexists (_ :: evn ++ [_; _]).
    assert (Hc : forall p : Event C -> bool,
              (forall m, p (EInitMeta m) = false) ->
              (forall a b c d e f, p (ELogEval a b c d e f) = false) ->
              (forall a b, p (ELog a b) = false) ->
              count p evn = 0%nat ->
              count p (ELogEval (global_frame w)
                         (eval_reward 0 evn / inject_Z (num_eval_episodes (cfg w)))%Q
                         (inject_Z (eval_steps 0 evn * action_repeat (cfg w))
                          / inject_Z (num_eval_episodes (cfg w)))%Q
                         (_global_episode w) (_global_step w)
                         (skill (init_meta C (agent w)).2)
                       :: evn ++ [EInitMeta (init_meta C (agent w)).2;
                                  ELog "eval_total_time" (global_frame w)])
              = 0%nat).
    { intros p H1 H2 H3 H4. cbn [count]. rewrite count_app, H4, H2. cbn.
      by rewrite H1, H3. }
    assert (Hr : replay_adds
                   (ELogEval (global_frame w)
                         (eval_reward 0 evn / inject_Z (num_eval_episodes (cfg w)))%Q
                         (inject_Z (eval_steps 0 evn * action_repeat (cfg w))
                          / inject_Z (num_eval_episodes (cfg w)))%Q
                         (_global_episode w) (_global_step w)
                         (skill (init_meta C (agent w)).2)
                       :: evn ++ [EInitMeta (init_meta C (agent w)).2;
                                  ELog "eval_total_time" (global_frame w)]) = []).
    { cbn [replay_adds]. by rewrite replay_adds_app, E6. }
    assert (Ht : train_time_steps
                   (ELogEval (global_frame w)
                         (eval_reward 0 evn / inject_Z (num_eval_episodes (cfg w)))%Q
                         (inject_Z (eval_steps 0 evn * action_repeat (cfg w))
                          / inject_Z (num_eval_episodes (cfg w)))%Q
                         (_global_episode w) (_global_step w)
                         (skill (init_meta C (agent w)).2)
                       :: evn ++ [EInitMeta (init_meta C (agent w)).2;
                                  ELog "eval_total_time" (global_frame w)]) = []).
    { cbn [train_time_steps]. by rewrite train_time_steps_app, E7. }
    split; [|split; [|split; [|split]]].
    + unfold trained. rewrite !Hc, Hr, Ht by (reflexivity || assumption).
      destruct w; cbn. repeat split; lia.
    + by apply Hc.
    + by apply Hc.
    + by apply Hc.
    + exact Ht.
  - intros ->. exists []. split; [apply trained_refl|by repeat split].
Qed.

Lemma stepped_trained rec su (v : TrainVars C) (w : World C) :
  exists new,
    trained w (stepped rec su v w) new
    /\ count (is_step TrainEnv) new = 1%nat
    /\ Z.of_nat (count step_ends_episode new)
       = (if ts_last (time_step (stepped_vars su v w)) then 1 else 0)
    /\ count (is_reset TrainEnv) new = 0%nat
    /\ train_time_steps new = [time_step (stepped_vars su v w)].
Proof.
  exists (stepped_events rec su v w).
  unfold trained, stepped, stepped_events, stepped_vars.
  cbn [trace pending cfg work_dir cwd _global_step _global_episode
       replay_storage time_step].
  destruct rec, (su (_global_step w)), (use_wandb (cfg w)); cbn;
    destruct (ts_last _); repeat split; lia.
Qed.

Lemma newest_last_app (a b : list (TimeStep (Obs C))) :
  newest_last (a ++ b) = match a with [] => newest_last b | _ => newest_last a end.
Proof. by destruct a. Qed.

Lemma advanced_refl (v : TrainVars C) (w : World C) : advanced 0 v w v w.
Proof.
  exists []. split; [apply trained_refl|]. cbn. repeat split; lia.
Qed.

Lemma advanced_trans n1 n2 (v1 : TrainVars C) w1 v2 w2 v3 w3 :
  advanced n1 v1 w1 v2 w2 -> advanced n2 v2 w2 v3 w3 ->
  advanced (n1 + n2) v1 w1 v3 w3.
Proof.
  intros (new1 & T1 & S1 & E1 & L1) (new2 & T2 & S2 & E2 & L2).
  exists (new2 ++ new1). split; [by eapply trained_trans|].
  rewrite !count_app, train_time_steps_app, <- app_assoc, newest_last_app.
  split; [lia|]. split; [lia|].
  destruct (train_time_steps new2) as [|x l]; [|exact L2].
  rewrite L1. exact L2.
Qed.

Lemma tick_advanced rec snap skill su ee (v : TrainVars C) w v' w' :
  tick_rel rec snap skill su ee v w v' w' -> advanced 1 v w v' w'.
Proof.
  intros (w3 & Hev & -> & ->).
  destruct (boundary_trained rec v w) as (n1 & T1 & S1 & E1 & R1 & L1).
  destruct (scheduled_trained snap (boundary rec v w))
    as (n2 & T2 & S2 & E2 & R2 & L2).
  destruct (evaluated_trained _ _ _ _ Hev) as (n3 & T3 & S3 & E3 & R3 & L3).
  destruct (stepped_trained rec su (boundary_vars v w) w3)
    as (n4 & T4 & S4 & E4 & R4 & L4).
  exists (n4 ++ n3 ++ n2 ++ n1). split.
  { eapply trained_trans; [|exact T4].
    eapply trained_trans; [|exact T3].
    eapply trained_trans; [exact T1|exact T2]. }
  rewrite !count_app, !train_time_steps_app, L4, S1, S2, S3, S4, E1, E2, E3,
    R2, R3, R4.
  split; [reflexivity|]. split; [lia|]. reflexivity.
Qed.

Lemma ticks_advanced rec snap skill su ee n (v : TrainVars C) w v' w' :
  ticks (tick_rel rec snap skill su ee) n v w v' w' -> advanced n v w v' w'.
Proof.
  induction 1 as [v w|n v w v1 w1 v2 w2 HR _ IH]; [apply advanced_refl|].
  change (S n) with (1 + n)%nat.
  eapply advanced_trans; [by eapply tick_advanced|exact IH].
Qed.

End TrainedFacts.

Section TrainRuns.
Context {C : Collab}.

Lemma started_trained rec (w : World C) :
  exists new,
    trained (set_global_episode (_global_episode w - 1) w) (started rec w) new
    /\ count (is_step TrainEnv) new = 0%nat
    /\ count step_ends_episode new = 0%nat
    /\ count (is_reset TrainEnv) new = 1%nat
    /\ train_time_steps new = [time_step (start_vars w)].
Proof.
  exists (videos rec "train_video_recorder.init"
          ++ [EReplayAdd (env_reset C (train_env w)).2 (init_meta C (agent w)).2;
              EInitMeta (init_meta C (agent w)).2;
              EReset TrainEnv (env_reset C (train_env w)).2]).
  unfold trained, started, start_vars.
  destruct w; destruct rec; cbn; repeat split; lia.
Qed.

Lemma Pretrain_train_run fuel L K (w : World C) :
  pending w = None -> episodic (C:=C) L -> (L <= fuel)%nat ->
  (Z.to_nat (num_eval_episodes (cfg w)) <= fuel)%nat ->
  1 <= num_eval_episodes (cfg w) ->
  (forall k, Until (num_train_frames (cfg w)) (action_repeat (cfg w)) k
             = (k <? K)) ->
  _global_step w <= K -> (Z.to_nat (K - _global_step w) <= fuel)%nat ->
  exists v' w1,
    Pretrain.train fuel w = Ok tt (after_save w1)
    /\ pending w1 = None /\ _global_step w1 = K
    /\ ticks (tick_rel false true (fun _ => None)
                (Until (num_seed_frames (cfg w)) (action_repeat (cfg w)))
                (Every (eval_every_frames (cfg w)) (action_repeat (cfg w))))
         (Z.to_nat (K - _global_step w)) (start_vars w)
         (started false w) v' w1.
Proof.
  intros Hp Hepi HL HN Hpos Htu Hle Hfuel.
  set (c0 := cfg w). set (n := Z.to_nat (K - _global_step w)).
  destruct (loop_runs
              (tick_rel false true (fun _ => None)
                 (Until (num_seed_frames c0) (action_repeat c0))
                 (Every (eval_every_frames c0) (action_repeat c0)))
              (Pretrain.train_tick fuel
                 (Until (num_seed_frames c0) (action_repeat c0))
                 (Every (eval_every_frames c0) (action_repeat c0)))
              (fun w1 : World C => pending w1 = None /\ cfg w1 = c0)
              (Until (num_train_frames c0) (action_repeat c0)) K Htu)
    with (n := n) (fo := fuel) (v := start_vars w) (w := started false w)
    as (v' & w1 & Heq & Hticks & [Hp1 Hc1] & Hgs1).
  { intros v1 w1 [Hp1 Hc1].
    destruct (Pretrain_tick fuel L
                (Until (num_seed_frames c0) (action_repeat c0))
                (Every (eval_every_frames c0) (action_repeat c0)) v1 w1)
      as (v2 & w2 & Heq & HR); try assumption.
    { by rewrite Hc1. } { intros _. by rewrite Hc1. }
    exists v2, w2. split; [exact Heq|]. split; [exact HR|].
    destruct (tick_advanced _ _ _ _ _ _ _ _ _ HR)
      as (new & (_ & P & Cq & _ & _ & G & _) & S1 & _).
    rewrite S1 in G. repeat split; [congruence|congruence|lia]. }
  { exact Hfuel. }
  { by destruct w. }
  { destruct w; cbn in *. unfold n. cbn. lia. }
  exists v', w1. split; [|split; [exact Hp1|split; [exact Hgs1|exact Hticks]]].
  rewrite <- (save_snapshot_ok w1 Hp1).
  destruct w as [wd c g te een rs gs ge cw f tr pd]. cbn in Hp. subst pd.
  unfold Pretrain.train. run.
  change (mkWorld wd c (init_meta C g).1 (env_reset C te).1 een
            (((env_reset C te).2, (init_meta C g).2) :: rs) gs ge cw f
            (EReplayAdd (env_reset C te).2 (init_meta C g).2
             :: EInitMeta (init_meta C g).2
             :: EReset TrainEnv (env_reset C te).2 :: tr) None)
    with (started false (mkWorld wd c g te een rs gs ge cw f tr None)).
  change (mkTrainVars (env_reset C te).2 (init_meta C g).2 None 0 0%Q)
    with (start_vars (mkWorld wd c g te een rs gs ge cw f tr None)).
  cbn [cfg] in c0. subst c0.
  rewrite (bind_ok _ _ _ _ _ Heq). reflexivity.
Qed.

Lemma Finetune_train_run fuel L K (w : World C) :
  pending w = None -> episodic (C:=C) L -> (L <= fuel)%nat ->
  (Z.to_nat (num_eval_episodes (cfg w)) <= fuel)%nat ->
  1 <= num_eval_episodes (cfg w) ->
  (forall k, Until (num_train_frames (cfg w)) (action_repeat (cfg w)) k
             = (k <? K)) ->
  _global_step w <= K -> (Z.to_nat (K - _global_step w) <= fuel)%nat ->
  exists v' w1,
    Finetune.train fuel w = Ok tt w1
    /\ pending w1 = None /\ _global_step w1 = K
    /\ ticks (tick_rel (save_train_video (cfg w)) false (meta_skill C)
                (Until (num_seed_frames (cfg w)) (action_repeat (cfg w)))
                (Every (eval_every_frames (cfg w)) (action_repeat (cfg w))))
         (Z.to_nat (K - _global_step w)) (start_vars w)
         (started (save_train_video (cfg w)) w) v' w1.
Proof.
  intros Hp Hepi HL HN Hpos Htu Hle Hfuel.
  set (c0 := cfg w). set (n := Z.to_nat (K - _global_step w)).
  destruct (loop_runs
              (tick_rel (save_train_video c0) false (meta_skill C)
                 (Until (num_seed_frames c0) (action_repeat c0))
                 (Every (eval_every_frames c0) (action_repeat c0)))
              (Finetune.train_tick fuel
                 (Until (num_seed_frames c0) (action_repeat c0))
                 (Every (eval_every_frames c0) (action_repeat c0)))
              (fun w1 : World C => pending w1 = None /\ cfg w1 = c0)
              (Until (num_train_frames c0) (action_repeat c0)) K Htu)
    with (n := n) (fo := fuel) (v := start_vars w)
         (w := started (save_train_video c0) w)
    as (v' & w1 & Heq & Hticks & [Hp1 Hc1] & Hgs1).
  { intros v1 w1 [Hp1 Hc1].
    destruct (Finetune_tick fuel L
                (Until (num_seed_frames c0) (action_repeat c0))
                (Every (eval_every_frames c0) (action_repeat c0)) v1 w1)
      as (v2 & w2 & Heq & HR); try assumption.
    { by rewrite Hc1. } { intros _. by rewrite Hc1. }
    rewrite Hc1 in HR.
    exists v2, w2. split; [exact Heq|]. split; [exact HR|].
    destruct (tick_advanced _ _ _ _ _ _ _ _ _ HR)
      as (new & (_ & P & Cq & _ & _ & G & _) & S1 & _).
    rewrite S1 in G. repeat split; [congruence|congruence|lia]. }
  { exact Hfuel. }
  { by destruct w. }
  { destruct w; cbn in *. unfold n. cbn. lia. }
  exists v', w1. split; [|split; [exact Hp1|split; [exact Hgs1|exact Hticks]]].
  destruct w as [wd c g te een rs gs ge cw f tr pd]. cbn in Hp. subst pd.
  cbn [cfg] in c0. subst c0.
  unfold Finetune.train. run.
  erewrite bind_ok by (apply video_run; reflexivity). run.
  change (mkWorld wd c (init_meta C g).1 (env_reset C te).1 een
            (((env_reset C te).2, (init_meta C g).2) :: rs) gs ge cw f
            (videos (save_train_video c) "train_video_recorder.init"
             ++ EReplayAdd (env_reset C te).2 (init_meta C g).2
             :: EInitMeta (init_meta C g).2
             :: EReset TrainEnv (env_reset C te).2 :: tr) None)
    with (started (save_train_video c)
            (mkWorld wd c g te een rs gs ge cw f tr None)).
  change (mkTrainVars (env_reset C te).2 (init_meta C g).2 None 0 0%Q)
    with (start_vars (mkWorld wd c g te een rs gs ge cw f tr None)).
  rewrite (bind_ok _ _ _ _ _ Heq). reflexivity.
Qed.

End TrainRuns.

Section TrainOutcomes.
Context {C : Collab}.

Lemma train_time_steps_length (l : list (Event C)) :
  length (train_time_steps l)
  = (count (is_step TrainEnv) l + count (is_reset TrainEnv) l)%nat.
Proof.
  induction l as [|ev l IH]; [reflexivity|].
  destruct ev as [[]| []| | | | | | | | | | | | | | | | | ]; cbn; lia.
Qed.

Lemma Finetune_train_writes_nothing fuel :
  keeps (C:=C) fs not_a_save (fun _ _ => True) (Finetune.train fuel).
Proof.
  unfold Finetune.train. keeps_tac;
    try reflexivity; try exact I; try (intros ?; discriminate); try done.
Qed.

(** What a complete run of the loop amounts to, from the world [w] in
    which [train] is called: [new] are the calls made from the first
    [reset] to the end of the loop. *)
Lemma run_summary rec n (w : World C) v' w1 :
  advanced n (start_vars w) (started rec w) v' w1 ->
  exists new,
    trace w1 = new ++ trace w
    /\ pending w1 = pending w /\ cfg w1 = cfg w /\ work_dir w1 = work_dir w
    /\ _global_step w1 = _global_step w + Z.of_nat n
    /\ count (is_step TrainEnv) new = n
    /\ count is_explore new = n
    /\ count is_update_meta new = n
    /\ Z.of_nat (count (is_reset TrainEnv) new)
       = 1 + (_global_episode w1 - _global_episode w)
    /\ _global_episode w1
       + (if newest_last (train_time_steps new) then 1 else 0)
       = _global_episode w + Z.of_nat (count step_ends_episode new)
         + (if ts_last (env_reset C (train_env w)).2 then 1 else 0)
    /\ replay_storage w1 = replay_adds new ++ replay_storage w
    /\ map fst (replay_adds new) = train_time_steps new.
Proof.
  intros (new & T & S & E & L).
  destruct (started_trained rec w) as (n0 & T0 & S0 & E0 & R0 & L0).
  pose proof (trained_trans _ _ _ _ _ T0 T)
    as (T1 & P1 & C1 & W1 & D1 & G1 & E1 & R1 & M1 & X1 & U1).
  exists (new ++ n0).
  rewrite !count_app, S0, E0, R0, S in *.
  rewrite train_time_steps_app, L0 in M1 |- *.
  cbn [start_vars time_step] in *.
  destruct w as [wd c g te een rs gs ge cw f tr pd]; cbn in *.
  repeat split; try assumption; try lia.
  rewrite L. lia.
Qed.

(** X11.  A pretraining run that is not interrupted, against an
    environment whose episodes end, with at least one evaluation episode
    configured.  When the budget gate [train_until_step] is open exactly
    below step [K], [train] returns with [global_step = K], having made
    one [update_meta], one exploration [act] and one step of the training
    environment in each of its [K - global_step] iterations; the
    configuration is unchanged; its last call is the save of the final
    checkpoint, which is in the file store at
    [snapshot_<global_frame>.pt] and holds step [K]. *)
Theorem pretrain_train_runs_its_budget (fuel L : nat) (K : Z) (w : World C) :
  pending w = None -> episodic (C:=C) L -> (L <= fuel)%nat ->
  (Z.to_nat (num_eval_episodes (cfg w)) <= fuel)%nat ->
  1 <= num_eval_episodes (cfg w) ->
  (forall k, Until (num_train_frames (cfg w)) (action_repeat (cfg w)) k
             = (k <? K)) ->
  _global_step w <= K -> (Z.to_nat (K - _global_step w) <= fuel)%nat ->
  exists w' new,
    Pretrain.train fuel w = Ok tt w'
    /\ trace w' = new ++ trace w
    /\ _global_step w' = K
    /\ cfg w' = cfg w
    /\ count (is_step TrainEnv) new = Z.to_nat (K - _global_step w)
    /\ count is_explore new = Z.to_nat (K - _global_step w)
    /\ count is_update_meta new = Z.to_nat (K - _global_step w)
    /\ hd_error new = Some (ETorchSave (render (snapshot_path w')))
    /\ files (fs w') !! render (snapshot_path w') = Some (saved w')
    /\ saved w' !! "_global_step" = Some (VInt K).
Proof.
  intros Hp Hepi HL HN Hpos Htu Hle Hfuel.
  destruct (Pretrain_train_run fuel L K w Hp Hepi HL HN Hpos Htu Hle Hfuel)
    as (v' & w1 & Heq & Hp1 & _ & Hticks).
    apply ticks_advanced in Hticks. rename Hticks into Hadv.
  destruct (run_summary _ _ _ _ _ Hadv)
    as (new & T & _ & Cq & _ & G & S & X & U & _).
  exists (after_save w1),
      ([ETorchSave (render (snapshot_path w1));
        EPrint (render (snapshot_path w1));
        EMkdir (render (path_join (work_dir w1) (snapshot_dir (cfg w1))))]
       ++ new).
  split; [exact Heq|].
  assert (HK : _global_step w1 = K) by lia.
  destruct w1 as [wd c g te een rs gs ge cw f tr pd]. cbn in *. subst.
  repeat split; try reflexivity; try assumption.
  - unfold after_save, write_file. cbn. apply lookup_insert_eq.
  - unfold saved, after_save. cbn [_global_step set_trace set_fs].
    rewrite lookup_insert_ne by done. rewrite lookup_insert_eq.
    do 2 f_equal. lia.
Qed.

(** X12.  Over a run of [train], of either entry point, under the
    conditions of X11: the training environment is reset once at the
    start and once for each episode counted; and [global_episode] grows
    by the number of steps of the training environment that returned
    LAST, less one when the newest time step is LAST (no iteration has
    seen it yet), plus one when the first [reset] itself returned LAST. *)
Theorem train_counts_the_episodes_it_has_seen (fuel L : nat) (K : Z)
    (w : World C) :
  pending w = None -> episodic (C:=C) L -> (L <= fuel)%nat ->
  (Z.to_nat (num_eval_episodes (cfg w)) <= fuel)%nat ->
  1 <= num_eval_episodes (cfg w) ->
  (forall k, Until (num_train_frames (cfg w)) (action_repeat (cfg w)) k
             = (k <? K)) ->
  _global_step w <= K -> (Z.to_nat (K - _global_step w) <= fuel)%nat ->
  let first_last :=
    if ts_last (env_reset C (train_env w)).2 then 1 else 0 in
  (exists w' new,
     Pretrain.train fuel w = Ok tt w'
     /\ trace w' = new ++ trace w
     /\ Z.of_nat (count (is_reset TrainEnv) new)
        = 1 + (_global_episode w' - _global_episode w)
     /\ _global_episode w'
        + (if newest_last (train_time_steps new) then 1 else 0)
        = _global_episode w + Z.of_nat (count step_ends_episode new)
          + first_last)
  /\ (exists w' new,
        Finetune.train fuel w = Ok tt w'
        /\ trace w' = new ++ trace w
        /\ Z.of_nat (count (is_reset TrainEnv) new)
           = 1 + (_global_episode w' - _global_episode w)
        /\ _global_episode w'
           + (if newest_last (train_time_steps new) then 1 else 0)
           = _global_episode w + Z.of_nat (count step_ends_episode new)
             + first_last).
Proof.
  intros Hp Hepi HL HN Hpos Htu Hle Hfuel first_last. split.
  - destruct (Pretrain_train_run fuel L K w Hp Hepi HL HN Hpos Htu Hle Hfuel)
      as (v' & w1 & Heq & Hp1 & _ & Hticks).
    apply ticks_advanced in Hticks. rename Hticks into Hadv.
    destruct (run_summary _ _ _ _ _ Hadv)
      as (new & T & _ & _ & _ & _ & _ & _ & _ & R & E & _).
    exists (after_save w1),
      ([ETorchSave (render (snapshot_path w1));
        EPrint (render (snapshot_path w1));
        EMkdir (render (path_join (work_dir w1) (snapshot_dir (cfg w1))))]
       ++ new).
    split; [exact Heq|].
    destruct w1 as [wd c g te een rs gs ge cw f tr pd]. cbn in *. subst.
    repeat split; try reflexivity; assumption.
  - destruct (Finetune_train_run fuel L K w Hp Hepi HL HN Hpos Htu Hle Hfuel)
      as (v' & w1 & Heq & Hp1 & _ & Hticks).
    apply ticks_advanced in Hticks. rename Hticks into Hadv.
    destruct (run_summary _ _ _ _ _ Hadv)
      as (new & T & _ & _ & _ & _ & _ & _ & _ & R & E & _).
    exists w1, new. by repeat split.
Qed.

(** X13.  Over a run of [train], of either entry point, under the
    conditions of X11: the replay storage grows by exactly the time steps
    the training environment returned, those of [reset] included, in
    their order: one entry per step and one per reset. *)
Theorem train_stores_every_time_step (fuel L : nat) (K : Z) (w : World C) :
  pending w = None -> episodic (C:=C) L -> (L <= fuel)%nat ->
  (Z.to_nat (num_eval_episodes (cfg w)) <= fuel)%nat ->
  1 <= num_eval_episodes (cfg w) ->
  (forall k, Until (num_train_frames (cfg w)) (action_repeat (cfg w)) k
             = (k <? K)) ->
  _global_step w <= K -> (Z.to_nat (K - _global_step w) <= fuel)%nat ->
  (exists w' new,
     Pretrain.train fuel w = Ok tt w'
     /\ trace w' = new ++ trace w
     /\ replay_storage w' = replay_adds new ++ replay_storage w
     /\ map fst (replay_adds new) = train_time_steps new
     /\ Z.of_nat (length (replay_adds new))
        = (K - _global_step w) + 1 + (_global_episode w' - _global_episode w))
  /\ (exists w' new,
        Finetune.train fuel w = Ok tt w'
        /\ trace w' = new ++ trace w
        /\ replay_storage w' = replay_adds new ++ replay_storage w
        /\ map fst (replay_adds new) = train_time_steps new
        /\ Z.of_nat (length (replay_adds new))
           = (K - _global_step w) + 1
             + (_global_episode w' - _global_episode w)).
Proof.
  intros Hp Hepi HL HN Hpos Htu Hle Hfuel. split.
  - destruct (Pretrain_train_run fuel L K w Hp Hepi HL HN Hpos Htu Hle Hfuel)
      as (v' & w1 & Heq & Hp1 & _ & Hticks).
    apply ticks_advanced in Hticks. rename Hticks into Hadv.
    destruct (run_summary _ _ _ _ _ Hadv)
      as (new & T & _ & _ & _ & _ & S & _ & _ & R & _ & RS & M).
    exists (after_save w1),
      ([ETorchSave (render (snapshot_path w1));
        EPrint (render (snapshot_path w1));
        EMkdir (render (path_join (work_dir w1) (snapshot_dir (cfg w1))))]
       ++ new).
    split; [exact Heq|].
    assert (Hlen : Z.of_nat (length (replay_adds new))
                   = K - _global_step w + 1
                     + (_global_episode w1 - _global_episode w)).
    { rewrite <- (length_map fst), M, train_time_steps_length. lia. }
    destruct w1 as [wd c g te een rs gs ge cw f tr pd]. cbn in *. subst.
    repeat split; try reflexivity; assumption.
  - destruct (Finetune_train_run fuel L K w Hp Hepi HL HN Hpos Htu Hle Hfuel)
      as (v' & w1 & Heq & Hp1 & _ & Hticks).
    apply ticks_advanced in Hticks. rename Hticks into Hadv.
    destruct (run_summary _ _ _ _ _ Hadv)
      as (new & T & _ & _ & _ & _ & S & _ & _ & R & _ & RS & M).
    exists w1, new. repeat split; try assumption.
    rewrite <- (length_map fst), M, train_time_steps_length. lia.
Qed.

(** X14.  The fine-tuning [train], under the conditions of X11: it
    returns with [global_step = K] after one [update_meta], one
    exploration [act] and one environment step per iteration, changes
    neither the configuration nor the file store, and saves no
    checkpoint. *)
Theorem finetune_train_runs_its_budget (fuel L : nat) (K : Z) (w : World C) :
  pending w = None -> episodic (C:=C) L -> (L <= fuel)%nat ->
  (Z.to_nat (num_eval_episodes (cfg w)) <= fuel)%nat ->
  1 <= num_eval_episodes (cfg w) ->
  (forall k, Until (num_train_frames (cfg w)) (action_repeat (cfg w)) k
             = (k <? K)) ->
  _global_step w <= K -> (Z.to_nat (K - _global_step w) <= fuel)%nat ->
  exists w' new,
    Finetune.train fuel w = Ok tt w'
    /\ trace w' = new ++ trace w
    /\ _global_step w' = K
    /\ cfg w' = cfg w
    /\ count (is_step TrainEnv) new = Z.to_nat (K - _global_step w)
    /\ count is_explore new = Z.to_nat (K - _global_step w)
    /\ count is_update_meta new = Z.to_nat (K - _global_step w)
    /\ count is_save new = 0%nat
    /\ fs w' = fs w.
Proof.
  intros Hp Hepi HL HN Hpos Htu Hle Hfuel.
  destruct (Finetune_train_run fuel L K w Hp Hepi HL HN Hpos Htu Hle Hfuel)
    as (v' & w1 & Heq & Hp1 & _ & Hticks).
    apply ticks_advanced in Hticks. rename Hticks into Hadv.
  destruct (run_summary _ _ _ _ _ Hadv)
    as (new & T & _ & Cq & _ & G & S & X & U & _).
  exists w1, new. split; [exact Heq|].
  destruct (Finetune_train_writes_nothing fuel w) as [[Hfs (new' & T' & Hns)] _].
  rewrite Heq in Hfs, T'. cbn [world_of] in Hfs, T'.
  assert (new' = new) as -> by (rewrite T in T'; by apply app_inv_tail in T').
  repeat split; try assumption; [lia|].
  by apply count_none.
Qed.

End TrainOutcomes.

Section Milestones.
Context {C : Collab}.

Lemma ticks_inv (R : TrainVars C -> World C -> TrainVars C -> World C -> Prop)
    (Inv : World C -> Prop) :
  (forall v w v' w', R v w v' w' -> Inv w -> Inv w') ->
  forall n v w v' w', ticks R n v w v' w' -> Inv w -> Inv w'.
Proof.
  intros Hstep n v w v' w' H. induction H as [|n v w v1 w1 v2 w2 HR _ IH]; eauto.
Qed.

Lemma snapshot_path_at (w0 w : World C) :
  cfg w = cfg w0 -> work_dir w = work_dir w0 ->
  snapshot_path w = snapshot_path (set_global_step (_global_step w) w0).
Proof.
  intros Hc Hw. unfold snapshot_path, global_frame, global_step.
  destruct w0, w; cbn in *. by subst.
Qed.

Lemma snapshot_path_at_inj (w0 : World C) (k1 k2 : Z) :
  action_repeat (cfg w0) <> 0 ->
  render (snapshot_path (set_global_step k1 w0))
  = render (snapshot_path (set_global_step k2 w0)) -> k1 = k2.
Proof.
  intros Har H. apply snapshot_path_inj in H; [|by destruct w0..].
  unfold global_frame, global_step in H. destruct w0; cbn in *.
  apply Z.mul_cancel_r in H; auto.
Qed.

Lemma scheduled_milestones (w0 : World C) k0 (w : World C) :
  action_repeat (cfg w0) <> 0 ->
  milestones_kept w0 k0 w ->
  cfg (scheduled w) = cfg w0 /\ work_dir (scheduled w) = work_dir w0
  /\ _global_step (scheduled w) = _global_step w
  /\ forall k, k0 <= k < _global_step w + 1 -> milestone (cfg w0) k = true ->
       exists payload,
         files (fs (scheduled w)) !! render (snapshot_path (set_global_step k w0))
         = Some payload
         /\ payload !! "_global_step" = Some (VInt k).
Proof.
  intros Har (Hc & Hw & Hk).
  destruct (scheduled_frame w) as (_ & Hc2 & Hg2 & Hw2).
  split; [congruence|]. split; [congruence|]. split; [exact Hg2|].
  intros k Hrange Hm.
  unfold scheduled.
  destruct (Z.eq_dec k (_global_step w)) as [->|Hne].
  - unfold milestone in Hm. unfold global_frame, global_step. rewrite Hc, Hm.
    exists (saved w). split; [|reflexivity].
    rewrite fs_after_save. unfold write_file. cbn [files].
    rewrite (snapshot_path_at w0 w Hc Hw). apply lookup_insert_eq.
  - destruct (Hk k ltac:(lia) Hm) as (p & Hp & Hs).
    exists p. split; [|exact Hs].
    destruct (existsb (Z.eqb (global_frame w)) (snapshots (cfg w)));
      [|exact Hp].
    rewrite fs_after_save. unfold write_file. cbn [files].
    rewrite lookup_insert_ne; [exact Hp|].
    rewrite (snapshot_path_at w0 w Hc Hw). intros Heq.
    apply snapshot_path_at_inj in Heq; auto.
Qed.

Lemma tick_milestones (w0 : World C) k0 skill su ee v w v' w' :
  action_repeat (cfg w0) <> 0 ->
  tick_rel false true skill su ee v w v' w' ->
  milestones_kept w0 k0 w -> milestones_kept w0 k0 w'.
Proof.
  intros Har (w3 & Hev & -> & ->) (Hc & Hw & Hk).
  destruct (boundary_frame false v w) as (_ & Hc1 & Hg1 & Hw1 & Hf1).
  destruct (scheduled_milestones w0 k0 (boundary false v w) Har)
    as (Hc2 & Hw2 & Hg2 & Hk2).
  { split; [congruence|]. split; [congruence|]. rewrite Hg1, Hf1. exact Hk. }
  destruct (evaluated_frame _ _ _ _ Hev) as (_ & Hc3 & Hg3 & Hw3 & Hf3).
  unfold milestones_kept, stepped.
  cbn [cfg work_dir fs _global_step].
  split; [congruence|]. split; [congruence|].
  rewrite Hf3, Hg3, Hg2. exact Hk2.
Qed.

End Milestones.

Section MilestoneSnapshots.
Context {C : Collab}.

(** X15.  Scheduled snapshots.  For a step [k] of the run whose frame
    count [k * action_repeat] is in [cfg.snapshots], the checkpoint
    [snapshot_<k * action_repeat>.pt] is in the file store when [train]
    returns, and it holds [_global_step = k]: the later saves, the final
    one included, go to other files. *)
Theorem scheduled_snapshots_are_kept (fuel L : nat) (K k : Z) (w : World C) :
  pending w = None -> episodic (C:=C) L -> (L <= fuel)%nat ->
  (Z.to_nat (num_eval_episodes (cfg w)) <= fuel)%nat ->
  1 <= num_eval_episodes (cfg w) ->
  (forall j, Until (num_train_frames (cfg w)) (action_repeat (cfg w)) j
             = (j <? K)) ->
  (Z.to_nat (K - _global_step w) <= fuel)%nat ->
  action_repeat (cfg w) <> 0 ->
  _global_step w <= k < K ->
  In (k * action_repeat (cfg w)) (snapshots (cfg w)) ->
  exists w' payload,
    Pretrain.train fuel w = Ok tt w'
    /\ files (fs w')
       !! render
            (path_child (path_join (work_dir w) (snapshot_dir (cfg w)))
               ("snapshot_" +:+ str (k * action_repeat (cfg w)) +:+ ".pt"))
       = Some payload
    /\ payload !! "_global_step" = Some (VInt k).
Proof.
  intros Hp Hepi HL HN Hpos Htu Hfuel Har Hk Hin.
  destruct (Pretrain_train_run fuel L K w Hp Hepi HL HN Hpos Htu
              ltac:(lia) Hfuel)
    as (v' & w1 & Heq & Hp1 & Hgs1 & Hticks).
  assert (Hm : milestone (cfg w) k = true).
  { unfold milestone. apply existsb_exists.
    exists (k * action_repeat (cfg w)). split; [exact Hin|apply Z.eqb_refl]. }
  assert (Hkept : milestones_kept w (_global_step w) w1).
  { eapply (ticks_inv _ (milestones_kept w (_global_step w)));
      [|exact Hticks|].
    - intros v0 w0 v2 w2 HR. eapply tick_milestones; eauto.
    - split; [by destruct w|]. split; [by destruct w|].
      intros j Hj. destruct w; cbn in Hj. lia. }
  destruct Hkept as (Hc & Hw & Hfiles).
  destruct (Hfiles k ltac:(lia) Hm) as (p & Hp' & Hs).
  exists (after_save w1), p. split; [exact Heq|]. split; [|exact Hs].
  rewrite fs_after_save. unfold write_file. cbn [files].
  assert (Hpath : snapshot_path (set_global_step k w)
                  = path_child (path_join (work_dir w) (snapshot_dir (cfg w)))
                      ("snapshot_" +:+ str (k * action_repeat (cfg w)) +:+ ".pt"))
    by (by destruct w).
  rewrite <- Hpath.
  rewrite lookup_insert_ne; [exact Hp'|].
  rewrite (snapshot_path_at w w1 Hc Hw). intros E.
  apply snapshot_path_at_inj in E; [lia|exact Har].
Qed.

End MilestoneSnapshots.

Section MainCompletes.
Context {C : Collab}.

Lemma try_except_ok {A} (m h : M C A) e w a w' :
  m w = Ok a w' -> try_except m e h w = Ok a w'.
Proof. unfold try_except. by intros ->. Qed.

(** X16.  A pretraining [main] with nothing to resume from and no
    interrupt returns normally, not through [exit()]: the workspace is
    built, [train] runs to step [K], and the final checkpoint
    [snapshot_<K * action_repeat>.pt] under the working directory holds
    step [K]. *)
Theorem pretrain_main_completes (fuel L : nat) (K : Z) (c : Cfg) (rnd : Z)
    (w : World C) (t : string) :
  pending w = None ->
  PRIMAL_TASKS C (domain c) = Some t -> action_repeat c <> 0 ->
  (files (fs w) !! render (snapshot c) = None
   \/ render (snapshot c) ∈ dirs (fs w)) ->
  episodic (C:=C) L -> (L <= fuel)%nat ->
  (Z.to_nat (num_eval_episodes c) <= fuel)%nat ->
  1 <= num_eval_episodes c ->
  (forall k, Until (num_train_frames c) (action_repeat c) k = (k <? K)) ->
  0 <= K -> (Z.to_nat K <= fuel)%nat ->
  exists w',
    Pretrain.main fuel c rnd w = Ok tt w'
    /\ _global_step w' = K
    /\ files (fs w')
       !! render
            (path_child (path_join (cwd w) (snapshot_dir c))
               ("snapshot_" +:+ str (K * action_repeat c) +:+ ".pt"))
       = Some (saved w')
    /\ saved w' !! "_global_step" = Some (VInt K).
Proof.
  intros Hp Hd Har Hno Hepi HL HN Hpos Htu HK Hfuel.
  destruct (Pretrain_init_ok c rnd w t Hp Hd Har)
    as (w0 & Hinit & Hp0 & Hc0 & Hw0 & _ & _ & _ & _ & Hg0 & _).
  assert (Hcfg : num_train_frames (cfg w0) = num_train_frames c
                 /\ action_repeat (cfg w0) = action_repeat c
                 /\ num_eval_episodes (cfg w0) = num_eval_episodes c
                 /\ snapshot_dir (cfg w0) = snapshot_dir c)
    by (rewrite Hc0; by destruct c).
  destruct Hcfg as (H1 & H2 & H3 & H4).
  destruct (Pretrain_train_run fuel L K w0 Hp0 Hepi HL)
    as (v' & w1 & Heq & Hp1 & Hgs1 & Hticks).
  { by rewrite H3. } { by rewrite H3. } { by rewrite H1, H2. }
  { lia. } { rewrite Hg0, Z.sub_0_r. exact Hfuel. }
  apply ticks_advanced in Hticks.
  destruct (run_summary _ _ _ _ _ Hticks)
    as (new & _ & _ & Cq & Wq & _).
  exists (after_save w1). split.
  - unfold Pretrain.main.
    rewrite (bind_ok _ _ _ _ _
               (eq_trans (Pretrain_startup_fresh c rnd w Hno) Hinit)).
    by apply try_except_ok.
  - assert (Hpath : path_child (path_join (cwd w) (snapshot_dir c))
                      ("snapshot_" +:+ str (K * action_repeat c) +:+ ".pt")
                    = snapshot_path w1).
    { unfold snapshot_path, global_frame, global_step.
      rewrite Hgs1, Cq, Wq, Hw0, H2, H4. reflexivity. }
    rewrite Hpath.
    destruct w1 as [wd c1 g te een rs gs ge cw f tr pd]. cbn in Hgs1. subst gs.
    split; [reflexivity|]. split.
    + unfold after_save, write_file. cbn. apply lookup_insert_eq.
    + reflexivity.
Qed.

End MainCompletes.

Section Under.
Context {C : Collab}.
Variable Inv : World C -> Prop.
Variable P : Event C -> Prop.
Hypothesis Inv_trace : forall t w, Inv w -> Inv (set_trace t w).
Hypothesis Inv_pending : forall p w, Inv w -> Inv (set_pending p w).

Lemma under_ret {A} (a : A) : under Inv P (ret a).
Proof. intros w HInv. split; [exact HInv|]. by exists []. Qed.

Lemma under_get {A} (f : World C -> A) : under Inv P (get f).
Proof. intros w HInv. split; [exact HInv|]. by exists []. Qed.

Lemma under_raise {A} e : under Inv P (raise (A:=A) e).
Proof. intros w HInv. split; [exact HInv|]. by exists []. Qed.

Lemma under_bind {A B} (m : M C A) (k : A -> M C B) :
  under Inv P m -> (forall a, under Inv P (k a)) -> under Inv P (bind m k).
Proof.
  intros Hm Hk w HInv. unfold bind. destruct (Hm w HInv) as [HInv1 (n1 & T1 & F1)].
  destruct (m w) as [a w1|e w1|w1]; cbn in *; eauto.
  destruct (Hk a w1 HInv1) as [HInv2 (n2 & T2 & F2)].
  split; [exact HInv2|]. exists (n2 ++ n1). split.
  - rewrite T2, T1. apply app_assoc.
  - by apply Forall_app.
Qed.

(** The value read is one of a world where the invariant holds. *)
Lemma under_bind_get {A B} (f : World C -> A) (k : A -> M C B) :
  (forall w0, Inv w0 -> under Inv P (k (f w0))) -> under Inv P (bind (get f) k).
Proof. intros Hk w HInv. exact (Hk w HInv w HInv). Qed.

Lemma under_while {S} fuel (cond : S -> World C -> bool) body :
  (forall s, under Inv P (body s)) ->
  forall s, under Inv P (while_ fuel cond body s).
Proof.
  intros Hb. induction fuel as [|f IH]; intros s w HInv; cbn.
  - destruct (cond s w); cbn; (split; [exact HInv|by exists []]).
  - destruct (cond s w); cbn; [|split; [exact HInv|by exists []]].
    by apply (under_bind (body s) (while_ f cond body)).
Qed.

Lemma under_modify (f : World C -> World C) :
  (forall w, Inv w -> Inv (f w)) -> (forall w, trace (f w) = trace w) ->
  under Inv P (modify f).
Proof.
  intros H1 H2 w HInv. split; [by apply H1|]. exists []. split; [apply H2|done].
Qed.

Lemma under_emit ev : P ev -> under Inv P (emit ev).
Proof.
  intros HP w HInv. unfold emit, deliver, bind, modify.
  destruct (pending w) as [[|n]|] eqn:Hpd; cbn.
  - split; [by apply Inv_pending|]. exists []. by destruct w.
  - split; [by apply Inv_trace, Inv_pending|]. exists [ev]. split; [by destruct w|].
    by constructor.
  - split; [by apply Inv_trace|]. exists [ev]. split; [by destruct w|].
    by constructor.
Qed.

End Under.

Ltac under_step :=
  lazymatch goal with
  | |- under _ _ (bind (get cfg) _) =>
      apply under_bind_get; intros ? ?
  | |- under _ _ (bind _ _) => apply under_bind; [|intros ?]
  | |- under _ _ (ret _) => apply under_ret
  | |- under _ _ (get _) => apply under_get
  | |- under _ _ (raise _) => apply under_raise
  | |- under _ _ (while_ _ _ _ _) => apply under_while; intros ?
  | |- under _ _ (modify _) => apply under_modify; intros []
  | |- under _ _ (emit _) => apply under_emit
  | |- under _ _ (if ?b then _ else _) =>
      first [ match goal with H : b = _ |- _ => rewrite H end | destruct b ]
  | |- under _ _ (match ?x with _ => _ end) => destruct x
  | |- under _ _ (let _ := _ in _) => cbv zeta
  | |- under _ _ ?m => let h := head_of m in unfold h
  end.

Section NoVideo.
Context {C : Collab}.

(** X17.  The video recorders of [finetune.py] are never called when
    their flags are off: with [save_video] off an
    evaluation makes no video recorder call; with [save_train_video] off
    as well, neither does [train], evaluations included, and it leaves the
    configuration as it was.  However the calls end. *)
Theorem finetune_recorders_stay_off (fuel : nat) (w : World C) :
  (save_video (cfg w) = false ->
   let w' := world_of (Finetune.eval fuel w) in
   exists new, trace w' = new ++ trace w /\ count is_video new = 0%nat)
  /\ (save_video (cfg w) = false -> save_train_video (cfg w) = false ->
      let w' := world_of (Finetune.train fuel w) in
      cfg w' = cfg w
      /\ exists new, trace w' = new ++ trace w /\ count is_video new = 0%nat).
Proof.
  split.
  - intros Hv w'.
    assert (H : under (C:=C) (fun w1 => save_video (cfg w1) = false)
                  not_a_video (Finetune.eval fuel)).
    { unfold Finetune.eval. repeat under_step;
        try reflexivity; try (let X := fresh in intros X; exact X);
        try (let X := fresh in intros ? ? X; exact X). }
    destruct (H w Hv) as [_ (new & Htr & Hnew)].
    exists new. split; [exact Htr|]. by apply count_none.
  - intros Hv Ht w'.
    assert (H : under (C:=C) (fun w1 => recorders_off w1 /\ cfg w1 = cfg w)
                  not_a_video (Finetune.train fuel)).
    { unfold Finetune.train.
      repeat first
        [ lazymatch goal with
          | H : recorders_off _ /\ _ |- _ =>
              let H1 := fresh in let H2 := fresh in let H3 := fresh in
              destruct H as [[H1 H2] H3]
          end
        | under_step ];
      try reflexivity; try (let X := fresh in intros X; exact X);
      try (let X := fresh in intros ? ? X; exact X). }
    destruct (H w) as [[_ Hc] (new & Htr & Hnew)]; [by repeat split|].
    split; [exact Hc|]. exists new. split; [exact Htr|]. by apply count_none.
Qed.

End NoVideo.

Section UpdateCounts.
Context {C : Collab}.








End UpdateCounts.


Section HandlerScope.
Context {C : Collab}.

Lemma Pretrain_startup_saves_nothing c rnd :
  keeps (C:=C) fs not_a_save (fun _ _ => True) (Pretrain.main_startup c rnd).
Proof.
  unfold Pretrain.main_startup. keeps_tac;
    try reflexivity; try exact I; try (intros ?; discriminate); try done.
Qed.

(** X19.  The interrupt handler of [main] in [pretrain.py] covers [train]
    only.  An exception raised while the workspace is built or resumed,
    [KeyboardInterrupt] included, leaves [main] as it is, and no
    checkpoint has been written by then; an exception of [train] other
    than [KeyboardInterrupt] is not caught either. *)
Theorem interrupt_handler_covers_train_only (fuel : nat) (c : Cfg) (rnd : Z)
    (w : World C) :
  (forall e w1,
     Pretrain.main_startup c rnd w = Raise e w1 ->
     Pretrain.main fuel c rnd w = Raise e w1
     /\ fs w1 = fs w
     /\ count is_save (trace w1) = count is_save (trace w))
  /\ (forall w1 e w2,
        Pretrain.main_startup c rnd w = Ok tt w1 ->
        Pretrain.train fuel w1 = Raise e w2 ->
        e <> KeyboardInterrupt ->
        Pretrain.main fuel c rnd w = Raise e w2).
Proof.
  split.
  - intros e w1 Hs. split.
    + unfold Pretrain.main. by rewrite (bind_raise _ _ _ _ _ Hs).
    + destruct (Pretrain_startup_saves_nothing c rnd w)
        as [[Hfs (new & Htr & Hnew)] _].
      rewrite Hs in Hfs, Htr. cbn [world_of] in Hfs, Htr.
      split; [exact Hfs|].
      rewrite Htr, count_app, (count_none _ _ Hnew). reflexivity.
  - intros w1 e w2 Hs Ht Hne.
    unfold Pretrain.main. rewrite (bind_ok _ _ _ _ _ Hs).
    unfold try_except. rewrite Ht.
    by rewrite bool_decide_eq_false_2.
Qed.


End HandlerScope.


(* ===================================================================== *)
(** ** The further facts at concrete inputs *)


Lemma cfg0_budget_gate k :
  Until (num_train_frames cfg0) (action_repeat cfg0) k = (k <? 9).
Proof. apply Until_every_1_Q. reflexivity. Qed.


(** X2 at [w0], with the draw 7. *)
Lemma pretrain_init_builds_workspace_witness :
  exists w',
    Pretrain.__init__ cfg0 7 w0 = Ok tt w'
    /\ seed (cfg w') = 7 /\ train_env w' = eval_env w'
    /\ _global_step w' = 0 /\ _global_episode w' = 0.
Proof.
  destruct (proj2 (proj2 (pretrain_init_builds_workspace (C:=cyc3) cfg0 7 w0
                            eq_refl)) "walker_stand" eq_refl)
    as (w' & Heq & Hc & _ & Ht & He & _ & _ & Hs & Hg & _).
  - discriminate.
  - exists w'. rewrite Hc, Ht, He. repeat split; assumption.
Defined.

(** X3 at [w0], whose file store is empty. *)
Lemma pretrain_main_starts_fresh_without_snapshot_witness :
  Pretrain.main_startup cfg0 7 w0 = Pretrain.__init__ cfg0 7 w0
  /\ count is_load (trace (world_of (Pretrain.main_startup cfg0 7 w0)))
     = count is_load (trace w0).
Proof.
  apply (pretrain_main_starts_fresh_without_snapshot (C:=cyc3) cfg0 7 w0).
  left. vm_compute. reflexivity.
Defined.



(** X6: a save at frame 3 after a save at frame 0. *)
Lemma save_snapshot_only_adds_its_file_witness :
  exists w3,
    Pretrain.save_snapshot w_later = Ok tt w3
    /\ files (fs w3) !! "/exp/snapshot/snapshot_0.pt" = Some (saved w0)
    /\ files (fs w3) !! "/exp/snapshot/snapshot_3.pt" = Some (saved w_later).
Proof.
  apply (proj2 (save_snapshot_only_adds_its_file (C:=cyc3) w0 w_later
                  (saved w0))).
  - reflexivity.
  - reflexivity.
  - reflexivity.
  - vm_compute. discriminate.
  - vm_compute. reflexivity.
Defined.

(** X7 with [cfg_repeat2], whose [snapshot_ts] is 0. *)
Lemma finetune_init_without_pretrained_witness :
  exists w',
    Finetune.__init__ cfg_repeat2 w0 = Ok tt w'
    /\ agent w' = 0 /\ _global_step w' = 0 /\ _global_episode w' = 0
    /\ fs w' = fs w0.
Proof.
  destruct (finetune_init_without_pretrained (C:=cyc3) cfg_repeat2 w0)
    as (w' & Heq & Ha & _ & _ & _ & _ & _ & Hg & He & Hf & _).
  - reflexivity.
  - vm_compute. discriminate.
  - vm_compute. discriminate.
  - exists w'. repeat split; assumption.
Defined.

(** X8 at [w0]: the pretrained checkpoint is missing. *)
Lemma finetune_init_fails_without_checkpoint_witness :
  exists w', Finetune.__init__ cfg0 w0 = Raise AssertionError w'
             /\ count is_load (trace w') = count is_load (trace w0).
Proof.
  apply (proj1 (finetune_init_fails_without_checkpoint (C:=cyc3) cfg0 w0
                  "walker" "stand" ∅ eq_refl eq_refl
                  ltac:(discriminate) eq_refl)).
  vm_compute. reflexivity.
Defined.


(** X10 at [w_stale]. *)
Lemma finetune_resume_restores_nothing_witness :
  exists w', Finetune.main_startup cfg_repeat2 w_stale = Raise AssertionError w'.
Proof.
  apply (proj1 (finetune_resume_restores_nothing (C:=cyc3) cfg_repeat2 w_stale
                  "walker" "stand" ∅ eq_refl
                  ltac:(vm_compute; discriminate)
                  ltac:(vm_compute; discriminate) eq_refl
                  ltac:(vm_compute; reflexivity))).
  vm_compute. reflexivity.
Defined.

(** X11 at [w0]: nine steps. *)
Lemma pretrain_train_runs_its_budget_witness :
  exists w' new,
    Pretrain.train 9 w0 = Ok tt w'
    /\ trace w' = new ++ trace w0
    /\ _global_step w' = 9
    /\ count (is_step TrainEnv) new = 9%nat
    /\ files (fs w') !! render (snapshot_path w') = Some (saved w').
Proof.
  destruct (pretrain_train_runs_its_budget (C:=cyc3) 9 3 9 w0)
    as (w' & new & Heq & Ht & Hg & _ & Hs & _ & _ & _ & Hf & _).
  - reflexivity.
  - exact cyc3_episodic.
  - lia.
  - vm_compute. lia.
  - vm_compute. discriminate.
  - exact cfg0_budget_gate.
  - vm_compute. discriminate.
  - vm_compute. lia.
  - exists w', new. repeat split; assumption.
Defined.

(** X14 at [w0]. *)
Lemma finetune_train_runs_its_budget_witness :
  exists w' new,
    Finetune.train 9 w0 = Ok tt w'
    /\ trace w' = new ++ trace w0
    /\ _global_step w' = 9
    /\ count (is_step TrainEnv) new = 9%nat
    /\ fs w' = fs w0.
Proof.
  destruct (finetune_train_runs_its_budget (C:=cyc3) 9 3 9 w0)
    as (w' & new & Heq & Ht & Hg & _ & Hs & _ & _ & _ & Hf).
  - reflexivity.
  - exact cyc3_episodic.
  - lia.
  - vm_compute. lia.
  - vm_compute. discriminate.
  - exact cfg0_budget_gate.
  - vm_compute. discriminate.
  - vm_compute. lia.
  - exists w', new. repeat split; assumption.
Defined.

(** X12 at [w0]. *)
Lemma train_counts_the_episodes_it_has_seen_witness :
  exists w' new,
    Pretrain.train 9 w0 = Ok tt w'
    /\ trace w' = new ++ trace w0
    /\ Z.of_nat (count (is_reset TrainEnv) new)
       = 1 + (_global_episode w' - _global_episode w0).
Proof.
  destruct (train_counts_the_episodes_it_has_seen (C:=cyc3) 9 3 9 w0)
    as [(w' & new & Heq & Ht & Hr & _) _].
  - reflexivity.
  - exact cyc3_episodic.
  - lia.
  - vm_compute. lia.
  - vm_compute. discriminate.
  - exact cfg0_budget_gate.
  - vm_compute. discriminate.
  - vm_compute. lia.
  - exists w', new. repeat split; assumption.
Defined.

(** X13 at [w0]. *)
Lemma train_stores_every_time_step_witness :
  exists w' new,
    Finetune.train 9 w0 = Ok tt w'
    /\ trace w' = new ++ trace w0
    /\ replay_storage w' = replay_adds new ++ replay_storage w0
    /\ map fst (replay_adds new) = train_time_steps new.
Proof.
  destruct (train_stores_every_time_step (C:=cyc3) 9 3 9 w0)
    as [_ (w' & new & Heq & Ht & Hr & Hm & _)].
  - reflexivity.
  - exact cyc3_episodic.
  - lia.
  - vm_compute. lia.
  - vm_compute. discriminate.
  - exact cfg0_budget_gate.
  - vm_compute. discriminate.
  - vm_compute. lia.
  - exists w', new. repeat split; assumption.
Defined.


(** X15 at [w0]: the milestone of frame 6. *)
Lemma scheduled_snapshots_are_kept_witness :
  exists w' payload,
    Pretrain.train 9 w0 = Ok tt w'
    /\ files (fs w') !! "/exp/snapshot/snapshot_6.pt" = Some payload
    /\ payload !! "_global_step" = Some (VInt 6).
Proof.
  apply (scheduled_snapshots_are_kept (C:=cyc3) 9 3 9 6 w0).
  - reflexivity.
  - exact cyc3_episodic.
  - lia.
  - vm_compute. lia.
  - vm_compute. discriminate.
  - exact cfg0_budget_gate.
  - vm_compute. lia.
  - vm_compute. discriminate.
  - vm_compute. split; [discriminate|reflexivity].
  - vm_compute. left. reflexivity.
Defined.

(** X16 at [w0]. *)
Lemma pretrain_main_completes_witness :
  exists w',
    Pretrain.main 9 cfg0 7 w0 = Ok tt w'
    /\ _global_step w' = 9
    /\ files (fs w') !! "/exp/snapshot/snapshot_9.pt" = Some (saved w').
Proof.
  destruct (pretrain_main_completes (C:=cyc3) 9 3 9 cfg0 7 w0 "walker_stand")
    as (w' & Heq & Hg & Hf & _).
  - reflexivity.
  - reflexivity.
  - vm_compute. discriminate.
  - left. vm_compute. reflexivity.
  - exact cyc3_episodic.
  - lia.
  - vm_compute. lia.
  - vm_compute. discriminate.
  - exact cfg0_budget_gate.
  - lia.
  - vm_compute. lia.
  - exists w'. repeat split; assumption.
Defined.

(** X17 at [w0]. *)
Lemma finetune_recorders_stay_off_witness :
  let w' := world_of (Finetune.train 9 w0) in
  cfg w' = cfg w0
  /\ exists new, trace w' = new ++ trace w0 /\ count is_video new = 0%nat.
Proof.
  apply (proj2 (finetune_recorders_stay_off (C:=cyc3) 9 w0)); reflexivity.
Defined.
(** X19: an interrupt at the first call of [main]. *)
Lemma interrupt_handler_covers_train_only_witness :
  exists w1,
    Pretrain.main 9 cfg0 7 w_interrupted_at_once = Raise KeyboardInterrupt w1
    /\ fs w1 = fs w_interrupted_at_once.
Proof.
  destruct (proj1 (interrupt_handler_covers_train_only (C:=cyc3) 9 cfg0 7
                     w_interrupted_at_once)
              KeyboardInterrupt
              (world_of (Pretrain.main_startup cfg0 7 w_interrupted_at_once)))
    as (Hm & Hf & _).
  - vm_compute. reflexivity.
  - eexists. split; [exact Hm|exact Hf].
Defined.

